(** * my_stock_portfolio: the three sensor classes of [sensor.py]

    A shallow embedding of [custom_components/my_stock_portfolio/sensor.py]
    and the properties of its three valuation levels: [StockSensor] (one
    holding), [AggregateStockSensor] (one ticker over its accounts) and
    [TotalPortfolioSensor] (the whole portfolio).

    Conventions of the embedding.
    - Python numbers are exact rationals ([Q]); binary floating-point error
      is outside the model.  [round(x, 2)] is rounding to the nearest
      multiple of 1/100, ties to the even one, as Python does.
    - A [dict] is an association list in insertion order, as Python keeps
      it; a key is present at most once.
    - The quote source ([yf.Ticker(t).info.get("regularMarketPrice")]) is an
      external oracle.  Its answer may depend on the ticker asked and on
      every fetch made before, so two fetches of one ticker may differ.
    - An exception raised inside Python is a value [Err msg]; the [try]
      blocks of the source are the matches on it.
    - The presentation attributes set by each [__init__] (name, unique id,
      unit of measurement, icon) take no part in the valuation and are
      left out. *)

From Stdlib Require Import QArith Qround ZArith List String Bool Lia Lqa.
From Stdlib Require Import Permutation.
Import ListNotations.

Local Open Scope Q_scope.

(** ** Numbers *)

Module Num.

(** Outcome of a Python expression that may raise. *)
Inductive result (A : Type) : Type :=
| Ok (a : A)
| Err (msg : string).
Arguments Ok {A} a.
Arguments Err {A} msg.

(** [if x] on a number: false exactly for zero. *)
Definition truthy (x : Q) : bool := negb (Qeq_bool x 0).

(** [x / y]: raises ZeroDivisionError on a zero divisor. *)
Definition truediv (x y : Q) : result Q :=
  if Qeq_bool y 0 then Err "division by zero"%string else Ok (x / y).

(** Nearest integer, ties to even. *)
Definition round_half_even (x : Q) : Z :=
  let f := Qfloor x in
  match Qcompare (x - inject_Z f) (1 # 2) with
  | Lt => f
  | Gt => (f + 1)%Z
  | Eq => if Z.even f then f else (f + 1)%Z
  end.

(** [round(x, 2)]. *)
Definition round2 (x : Q) : Q :=
  Qred (inject_Z (round_half_even (x * 100)) / 100).

(** [x] has at most two decimal digits: [100 * x] is an integer. *)
Definition two_decimals (x : Q) : bool :=
  Qeq_bool (inject_Z (Qfloor (x * 100))) (x * 100).

(** Python's [sum]: a left fold of [+] from [0]; the [+=] loops of the
    source accumulate in exactly this order. *)
Definition sumQ (l : list Q) : Q := fold_left Qplus l 0.

End Num.
Import Num.

(** ** Dictionaries *)

Module Dict.

Definition dict (V : Type) : Type := list (string * V).

Section Ops.
Context {V : Type}.

(** [d.get(k)] *)
Fixpoint get (k : string) (d : dict V) : option V :=
  match d with
  | [] => None
  | (k', v) :: r => if String.eqb k k' then Some v else get k r
  end.

(** [d.get(k, default)] *)
Definition get_or (k : string) (default : V) (d : dict V) : V :=
  match get k d with Some v => v | None => default end.

(** [k in d] *)
Definition mem (k : string) (d : dict V) : bool :=
  match get k d with Some _ => true | None => false end.

(** [d[k] = v]: overwrites in place, or appends a new key. *)
Fixpoint set (k : string) (v : V) (d : dict V) : dict V :=
  match d with
  | [] => [(k, v)]
  | (k', v') :: r =>
      if String.eqb k k' then (k', v) :: r else (k', v') :: set k v r
  end.

(** [d[k] = f(d[k])] for a key that is present; Python raises KeyError
    on an absent key, here the dictionary is returned as it is (the
    source only does this right after inserting the key). *)
Definition adjust (k : string) (f : V -> V) (d : dict V) : dict V :=
  match get k d with
  | Some v => set k (f v) d
  | None => d
  end.

Definition keys (d : dict V) : list string := map fst d.

End Ops.

(** [{k: f(v) for k, v in d.items()}] over a dictionary (keys distinct). *)
Definition map_values {V W : Type} (f : V -> W) (d : dict V) : dict W :=
  map (fun kv => (fst kv, f (snd kv))) d.

End Dict.

(** ** Values held in an attribute mapping *)

Inductive pyval : Type :=
| VStr (s : string)
| VNum (q : Q)
| VDict (d : Dict.dict Q).

(** ** The quote source and the logger *)

(** What [yf.Ticker(t).info.get("regularMarketPrice")] can do. *)
Inductive outcome : Type :=
| Price (p : Q)          (* a price *)
| NoPrice                (* [None] *)
| Raises (msg : string). (* any exception; [msg] is its text *)

(** The oracle: history of tickers fetched so far, ticker asked. *)
Definition quote_source : Type := list string -> string -> outcome.

(** What an evaluation leaves outside the sensors: the tickers fetched, in
    order, and the lines written by [_LOGGER.error]. *)
Record World : Type := mkWorld {
  fetched : list string;
  errors : list string
}.

(** The world once [ticker] has been asked for. *)
Definition after_fetch (w : World) (ticker : string) : World :=
  {| fetched := fetched w ++ [ticker]; errors := errors w |}.

Definition fetch (yf : quote_source) (ticker : string) (w : World)
  : outcome * World :=
  (yf (fetched w) ticker, after_fetch w ticker).

Definition log_error (line : string) (w : World) : World :=
  {| fetched := fetched w; errors := errors w ++ [line] |}.

(** One entry of the configuration list [stocks]. *)
Module Config.
Record stock_config : Type := mk {
  account : string;
  symbol : string;
  shares : Q;
  purchase_price : Q
}.
End Config.

(** [gain_percent] of lines 63, 118 and 182:
    [(gain_loss / purchase_value) * 100 if purchase_value else 0],
    with the division operator [div] made explicit. *)
Definition gain_percent_with (div : Q -> Q -> result Q)
  (gain_loss purchase_value : Q) : result Q :=
  if truthy purchase_value then
    match div gain_loss purchase_value with
    | Ok d => Ok (d * 100)
    | Err e => Err e
    end
  else Ok 0.

Definition gain_percent_of : Q -> Q -> result Q := gain_percent_with truediv.

(** ** StockSensor *)

Module StockSensor.

Record t : Type := mk {
  account : string;
  ticker : string;
  shares : Q;
  purchase_price : Q;
  _state : option Q;
  _attrs : Dict.dict pyval
}.

(** [__init__] *)
Definition init (stock_config : Config.stock_config) : t :=
  {| account := Config.account stock_config;
     ticker := Config.symbol stock_config;
     shares := Config.shares stock_config;
     purchase_price := Config.purchase_price stock_config;
     _state := None;
     _attrs := [] |}.

Definition set_state (self : t) (s : option Q) : t :=
  {| account := account self; ticker := ticker self;
     shares := shares self; purchase_price := purchase_price self;
     _state := s; _attrs := _attrs self |}.

Definition set_state_attrs (self : t) (s : option Q) (a : Dict.dict pyval)
  : t :=
  {| account := account self; ticker := ticker self;
     shares := shares self; purchase_price := purchase_price self;
     _state := s; _attrs := a |}.

(** The locals of lines 60-63. *)
Record values : Type := mkValues {
  current_value : Q;
  purchase_value : Q;
  gain_loss : Q;
  gain_percent : Q
}.

Definition compute (self : t) (price : Q) : result values :=
  let current_value := price * shares self in
  let purchase_value := purchase_price self * shares self in
  let gain_loss := current_value - purchase_value in
  match gain_percent_of gain_loss purchase_value with
  | Ok gain_percent =>
      Ok (mkValues current_value purchase_value gain_loss gain_percent)
  | Err e => Err e
  end.

(** The mapping of lines 66-74. *)
Definition attrs (self : t) (price : Q) (v : values) : Dict.dict pyval :=
  [ ("account", VStr (account self));
    ("ticker", VStr (ticker self));
    ("shares", VNum (shares self));
    ("purchase_price", VNum (purchase_price self));
    ("current_price", VNum price);
    ("gain_loss", VNum (round2 (gain_loss v)));
    ("gain_percent", VNum (round2 (gain_percent v))) ]%string.

Definition failure_line (self : t) (e : string) : string :=
  ("Failed to update stock " ++ ticker self ++ " in " ++ account self
     ++ ": " ++ e)%string.

(** [update] *)
Definition update (yf : quote_source) (self : t) (w : World) : t * World :=
  let (r, w) := fetch yf (ticker self) w in
  match r with
  | Raises e => (set_state self None, log_error (failure_line self e) w)
  | NoPrice => (set_state self None, w)
  | Price price =>
      match compute self price with
      | Err e => (set_state self None, log_error (failure_line self e) w)
      | Ok v =>
          (set_state_attrs self
             (Some (round2 (current_value v))) (attrs self price v), w)
      end
  end.

Definition extra_state_attributes (self : t) : Dict.dict pyval :=
  _attrs self.

End StockSensor.

(** ** AggregateStockSensor *)

Module AggregateStockSensor.

Record t : Type := mk {
  ticker : string;
  configs : list Config.stock_config;
  _state : option Q;
  _attrs : Dict.dict pyval
}.

(** [__init__] *)
Definition init (symbol : string) (configs : list Config.stock_config) : t :=
  {| ticker := symbol; configs := configs; _state := None; _attrs := [] |}.

Definition set_state (self : t) (s : option Q) : t :=
  {| ticker := ticker self; configs := configs self;
     _state := s; _attrs := _attrs self |}.

Definition set_state_attrs (self : t) (s : option Q) (a : Dict.dict pyval)
  : t :=
  {| ticker := ticker self; configs := configs self;
     _state := s; _attrs := a |}.

(** The three accumulators of lines 104-106. *)
Record totals : Type := mkTotals {
  total_shares : Q;
  total_purchase_value : Q;
  account_breakdown : Dict.dict Q
}.

Definition totals0 : totals := mkTotals 0 0 [].

(** The body of the loop, lines 109-114. *)
Definition step (acc : totals) (config : Config.stock_config) : totals :=
  let shares := Config.shares config in
  let purchase_price := Config.purchase_price config in
  let account := Config.account config in
  {| total_shares := total_shares acc + shares;
     total_purchase_value := total_purchase_value acc + shares * purchase_price;
     account_breakdown :=
       Dict.set account
         (Dict.get_or account 0 (account_breakdown acc) + shares)
         (account_breakdown acc) |}.

Definition loop (configs : list Config.stock_config) : totals :=
  fold_left step configs totals0.

(** The locals of lines 104-118. *)
Record values : Type := mkValues {
  sums : totals;
  current_value : Q;
  gain_loss : Q;
  gain_percent : Q
}.

Definition compute (self : t) (price : Q) : result values :=
  let sums := loop (configs self) in
  let current_value := price * total_shares sums in
  let gain_loss := current_value - total_purchase_value sums in
  match gain_percent_of gain_loss (total_purchase_value sums) with
  | Ok gain_percent => Ok (mkValues sums current_value gain_loss gain_percent)
  | Err e => Err e
  end.

(** The mapping of lines 121-129. *)
Definition attrs (self : t) (price : Q) (v : values) : Dict.dict pyval :=
  [ ("ticker", VStr (ticker self));
    ("total_shares", VNum (total_shares (sums v)));
    ("current_price", VNum price);
    ("total_purchase_value", VNum (round2 (total_purchase_value (sums v))));
    ("gain_loss", VNum (round2 (gain_loss v)));
    ("gain_percent", VNum (round2 (gain_percent v)));
    ("account_breakdown", VDict (account_breakdown (sums v))) ]%string.

Definition failure_line (self : t) (e : string) : string :=
  ("Failed to update aggregate sensor for " ++ ticker self ++ ": " ++ e)%string.

(** [update] *)
Definition update (yf : quote_source) (self : t) (w : World) : t * World :=
  let (r, w) := fetch yf (ticker self) w in
  match r with
  | Raises e => (set_state self None, log_error (failure_line self e) w)
  | NoPrice => (set_state self None, w)
  | Price price =>
      match compute self price with
      | Err e => (set_state self None, log_error (failure_line self e) w)
      | Ok v =>
          (set_state_attrs self
             (Some (round2 (current_value v))) (attrs self price v), w)
      end
  end.

Definition extra_state_attributes (self : t) : Dict.dict pyval :=
  _attrs self.

End AggregateStockSensor.

(** ** TotalPortfolioSensor *)

Module TotalPortfolioSensor.

Record t : Type := mk {
  configs : list Config.stock_config;
  _state : option Q;
  _attrs : Dict.dict pyval
}.

(** [__init__] *)
Definition init (configs : list Config.stock_config) : t :=
  {| configs := configs; _state := None; _attrs := [] |}.

(** A value of [per_stock]: [{"shares": .., "current_value": ..}]. *)
Record entry : Type := mkEntry {
  e_shares : Q;
  e_current_value : Q
}.

(** The three accumulators of lines 151-153. *)
Record totals : Type := mkTotals {
  total_value : Q;
  total_purchase_value : Q;
  per_stock : Dict.dict entry
}.

Definition totals0 : totals := mkTotals 0 0 [].

(** Lines 169-179: a holding whose price was fetched enters the sums. *)
Definition accumulate (acc : totals) (config : Config.stock_config)
  (price : Q) : totals :=
  let ticker := Config.symbol config in
  let shares := Config.shares config in
  let purchase_price := Config.purchase_price config in
  let current_value := price * shares in
  let purchase_value := purchase_price * shares in
  let per_stock :=
    if Dict.mem ticker (per_stock acc) then per_stock acc
    else Dict.set ticker (mkEntry 0 0) (per_stock acc) in
  let per_stock :=
    Dict.adjust ticker
      (fun e => mkEntry (e_shares e + shares) (e_current_value e)) per_stock in
  let per_stock :=
    Dict.adjust ticker
      (fun e => mkEntry (e_shares e) (e_current_value e + current_value))
      per_stock in
  {| total_value := total_value acc + current_value;
     total_purchase_value := total_purchase_value acc + purchase_value;
     per_stock := per_stock |}.

Definition failure_line (ticker e : string) : string :=
  ("Failed to fetch price for " ++ ticker ++ ": " ++ e)%string.

(** The body of the loop, lines 156-179; both [continue]s leave the
    accumulators as they are. *)
Definition step (yf : quote_source) (st : totals * World)
  (config : Config.stock_config) : totals * World :=
  let (acc, w) := st in
  let ticker := Config.symbol config in
  let (r, w) := fetch yf ticker w in
  match r with
  | Price price => (accumulate acc config price, w)
  | NoPrice => (acc, w)
  | Raises e => (acc, log_error (failure_line ticker e) w)
  end.

Definition loop (yf : quote_source) (configs : list Config.stock_config)
  (w : World) : totals * World :=
  fold_left (step yf) configs (totals0, w).

(** The output of lines 184-190. *)
Definition publish (self : t) (acc : totals) (gain gain_percent : Q) : t :=
  {| configs := configs self;
     _state := Some (round2 (total_value acc));
     _attrs :=
       [ ("total_purchase_value", VNum (round2 (total_purchase_value acc)));
         ("total_gain_loss", VNum (round2 gain));
         ("total_gain_percent", VNum (round2 gain_percent));
         ("by_stock",
           VDict (Dict.map_values
                    (fun v => round2 (e_current_value v)) (per_stock acc)))
       ]%string |}.

(** [update].  The division of line 182 is outside every [try]: an error
    there would leave the sensor as it was and reach the caller. *)
Definition update (yf : quote_source) (self : t) (w : World)
  : result t * World :=
  let (acc, w) := loop yf (configs self) w in
  let gain := total_value acc - total_purchase_value acc in
  match gain_percent_of gain (total_purchase_value acc) with
  | Ok gain_percent => (Ok (publish self acc gain gain_percent), w)
  | Err e => (Err e, w)
  end.

Definition extra_state_attributes (self : t) : Dict.dict pyval :=
  _attrs self.

End TotalPortfolioSensor.

(** ** setup_platform *)

Record Platform : Type := mkPlatform {
  individual_sensors : list StockSensor.t;
  aggregate_sensors : list AggregateStockSensor.t;
  total_sensor : TotalPortfolioSensor.t
}.

(** The three collections the loop of lines 14-26 fills. *)
Record collected : Type := mkCollected {
  c_individual_sensors : list StockSensor.t;
  aggregate_data : Dict.dict (list Config.stock_config);
  total_portfolio_data : list Config.stock_config
}.

Definition collect (c : collected) (stock_config : Config.stock_config)
  : collected :=
  let sensor := StockSensor.init stock_config in
  let symbol := Config.symbol stock_config in
  let aggregate_data :=
    if Dict.mem symbol (aggregate_data c) then aggregate_data c
    else Dict.set symbol [] (aggregate_data c) in
  {| c_individual_sensors := c_individual_sensors c ++ [sensor];
     aggregate_data :=
       Dict.adjust symbol (fun l => l ++ [stock_config]) aggregate_data;
     total_portfolio_data := total_portfolio_data c ++ [stock_config] |}.

Definition setup_platform (stocks : list Config.stock_config) : Platform :=
  let c := fold_left collect stocks (mkCollected [] [] []) in
  {| individual_sensors := c_individual_sensors c;
     aggregate_sensors :=
       map (fun sc => AggregateStockSensor.init (fst sc) (snd sc))
         (aggregate_data c);
     total_sensor := TotalPortfolioSensor.init (total_portfolio_data c) |}.

(** ** One evaluation cycle

    The host calls [update] on every entity.  The order taken here is the
    order in which [setup_platform] hands the entities over. *)

Fixpoint update_all {S : Type} (update : S -> World -> S * World)
  (l : list S) (w : World) : list S * World :=
  match l with
  | [] => ([], w)
  | s :: r =>
      let (s', w) := update s w in
      let (r', w) := update_all update r w in
      (s' :: r', w)
  end.

(** An [update] that raises leaves its entity as it was. *)
Definition update_total (yf : quote_source) (self : TotalPortfolioSensor.t)
  (w : World) : TotalPortfolioSensor.t * World :=
  match TotalPortfolioSensor.update yf self w with
  | (Ok self', w) => (self', w)
  | (Err _, w) => (self, w)
  end.

Definition refresh (yf : quote_source) (p : Platform) (w : World)
  : Platform * World :=
  let (ind, w) := update_all (StockSensor.update yf) (individual_sensors p) w in
  let (agg, w) :=
    update_all (AggregateStockSensor.update yf) (aggregate_sensors p) w in
  let (tot, w) := update_total yf (total_sensor p) w in
  (mkPlatform ind agg tot, w).

(** * Auxiliary definitions for the statements *)

(** The holdings of [configs] whose fetch returns a price, each with the
    price it got, in order; [h] is the fetch history when the loop of
    [TotalPortfolioSensor.update] starts. *)
Fixpoint successes (yf : quote_source) (configs : list Config.stock_config)
  (h : list string) : list (Config.stock_config * Q) :=
  match configs with
  | [] => []
  | config :: rest =>
      let ticker := Config.symbol config in
      match yf h ticker with
      | Price price => (config, price) :: successes yf rest (h ++ [ticker])
      | NoPrice | Raises _ => successes yf rest (h ++ [ticker])
      end
  end.

(** [price * shares] of a fetched holding. *)
Definition value_of (cp : Config.stock_config * Q) : Q :=
  snd cp * Config.shares (fst cp).

(** [purchase_price * shares] of a fetched holding. *)
Definition cost_of (cp : Config.stock_config * Q) : Q :=
  Config.purchase_price (fst cp) * Config.shares (fst cp).

(** The fetched holdings of one ticker. *)
Definition of_ticker (ticker : string) (l : list (Config.stock_config * Q))
  : list (Config.stock_config * Q) :=
  filter (fun cp => String.eqb ticker (Config.symbol (fst cp))) l.

(** Whether a fetched holding has this ticker. *)
Definition has_ticker (ticker : string) (l : list (Config.stock_config * Q))
  : bool :=
  existsb (fun cp => String.eqb ticker (Config.symbol (fst cp))) l.

(** A fetch that yields no price: [None] or an exception. *)
Definition failed (o : outcome) : bool :=
  match o with
  | Price _ => false
  | NoPrice | Raises _ => true
  end.

(** The quote source that answers [None] wherever [yf] raises, and as [yf]
    everywhere else. *)
Definition absent_for_raise (yf : quote_source) : quote_source :=
  fun h ticker =>
    match yf h ticker with
    | Raises _ => NoPrice
    | o => o
    end.

(** Two answers a sensor cannot tell apart: equal, or both without price. *)
Definition same_answer (o1 o2 : outcome) : Prop :=
  o1 = o2 \/ (failed o1 = true /\ failed o2 = true).

(** A state is unset or has at most two decimal digits. *)
Definition state_rounded (state : option Q) : bool :=
  match state with
  | Some v => two_decimals v
  | None => true
  end.

(** Every value of a dictionary has at most two decimal digits. *)
Definition values_rounded (d : Dict.dict Q) : bool :=
  forallb (fun kv => two_decimals (snd kv)) d.

(** ** Holdings of the scenarios *)

(** The holding of the scenarios: AccountA, AAPL, 10 shares bought at $100. *)
Definition holding_A : Config.stock_config :=
  Config.mk "AccountA" "AAPL" 10 100.

(** The second holding: AccountB, AAPL, 5 shares bought at $120. *)
Definition holding_B : Config.stock_config :=
  Config.mk "AccountB" "AAPL" 5 120.

(** A third holding, of another ticker: AccountA, MSFT, 3 shares at $200. *)
Definition holding_C : Config.stock_config :=
  Config.mk "AccountA" "MSFT" 3 200.

(** A holding acquired at no cost: AccountA, AAPL, 10 shares at $0. *)
Definition holding_free : Config.stock_config :=
  Config.mk "AccountA" "AAPL" 10 0.

(** A short position: AccountA, AAPL, -10 shares at $100. *)
Definition holding_short : Config.stock_config :=
  Config.mk "AccountA" "AAPL" (-10 # 1) 100.

(** The lines [TotalPortfolioSensor.update] logs: one for each holding of
    [configs] whose fetch raises, in order; [h] is the fetch history when
    the loop starts. *)
Fixpoint failures (yf : quote_source) (configs : list Config.stock_config)
  (h : list string) : list string :=
  match configs with
  | [] => []
  | config :: rest =>
      let ticker := Config.symbol config in
      match yf h ticker with
      | Raises e =>
          TotalPortfolioSensor.failure_line ticker e
            :: failures yf rest (h ++ [ticker])
      | Price _ | NoPrice => failures yf rest (h ++ [ticker])
      end
  end.

(** A quote source whose answer depends on the ticker only: the same
    answer at every fetch of a ticker. *)
Definition stable (quote : string -> outcome) : quote_source :=
  fun _ ticker => quote ticker.

(** A whole number: the value of a Python [int], or of a float without
    fractional part. *)
Definition whole (q : Q) : Prop := exists n : Z, q == inject_Z n.
(** * Properties *)

(** ** Numbers *)

Lemma truthy_false_iff (x : Q) : truthy x = false <-> x == 0.
Proof.
  unfold truthy. rewrite negb_false_iff. apply Qeq_bool_iff.
Qed.

Lemma truthy_true_iff (x : Q) : truthy x = true <-> ~ x == 0.
Proof.
  unfold truthy. rewrite negb_true_iff.
  split; intro H.
  - now apply Qeq_bool_neq.
  - destruct (Qeq_bool x 0) eqn:E; [|reflexivity].
    apply Qeq_bool_iff in E. contradiction.
Qed.

Lemma truediv_nonzero (x y : Q) : ~ y == 0 -> truediv x y = Ok (x / y).
Proof.
  intro H. unfold truediv.
  destruct (Qeq_bool y 0) eqn:E; [|reflexivity].
  apply Qeq_bool_iff in E. contradiction.
Qed.

Lemma gain_percent_of_zero (gain_loss pv : Q) :
  pv == 0 -> gain_percent_of gain_loss pv = Ok 0.
Proof.
  intro H. unfold gain_percent_of, gain_percent_with.
  apply truthy_false_iff in H. now rewrite H.
Qed.

Lemma gain_percent_of_nonzero (gain_loss pv : Q) :
  ~ pv == 0 -> gain_percent_of gain_loss pv = Ok (gain_loss / pv * 100).
Proof.
  intro H. unfold gain_percent_of, gain_percent_with.
  rewrite (proj2 (truthy_true_iff pv) H), truediv_nonzero by assumption.
  reflexivity.
Qed.

(** The guard makes the expression total: it never raises. *)
Lemma gain_percent_of_total (gain_loss pv : Q) :
  exists g, gain_percent_of gain_loss pv = Ok g.
Proof.
  destruct (Qeq_dec pv 0) as [H | H].
  - exists 0. now apply gain_percent_of_zero.
  - eexists. now apply gain_percent_of_nonzero.
Qed.

Lemma round2_zero : round2 0 = 0.
Proof. reflexivity. Qed.

Lemma round2_is_hundredth (x : Q) :
  round2 x == inject_Z (round_half_even (x * 100)) / 100.
Proof. unfold round2. apply Qred_correct. Qed.

Lemma round2_two_decimals (x : Q) : two_decimals (round2 x) = true.
Proof.
  unfold two_decimals. apply Qeq_bool_iff.
  set (k := round_half_even (x * 100)).
  assert (E : round2 x * 100 == inject_Z k).
  { rewrite round2_is_hundredth. fold k. field. }
  rewrite (Qfloor_comp _ _ E), Qfloor_Z. symmetry. exact E.
Qed.

(** ** StockSensor *)

Lemma StockSensor_compute_ok (self : StockSensor.t) (price : Q) :
  exists v, StockSensor.compute self price = Ok v.
Proof.
  unfold StockSensor.compute.
  destruct (gain_percent_of_total
              (price * StockSensor.shares self
               - StockSensor.purchase_price self * StockSensor.shares self)
              (StockSensor.purchase_price self * StockSensor.shares self))
    as [g Hg].
  rewrite Hg. eexists. reflexivity.
Qed.

Lemma StockSensor_update_price yf self w price v :
  yf (fetched w) (StockSensor.ticker self) = Price price ->
  StockSensor.compute self price = Ok v ->
  StockSensor.update yf self w =
  (StockSensor.set_state_attrs self
     (Some (round2 (StockSensor.current_value v)))
     (StockSensor.attrs self price v),
   after_fetch w (StockSensor.ticker self)).
Proof.
  intros Hq Hc. unfold StockSensor.update, fetch.
  rewrite Hq, Hc. reflexivity.
Qed.

Lemma StockSensor_update_noprice yf self w :
  yf (fetched w) (StockSensor.ticker self) = NoPrice ->
  StockSensor.update yf self w =
  (StockSensor.set_state self None, after_fetch w (StockSensor.ticker self)).
Proof.
  intros Hq. unfold StockSensor.update, fetch. rewrite Hq. reflexivity.
Qed.

Lemma StockSensor_update_raises yf self w e :
  yf (fetched w) (StockSensor.ticker self) = Raises e ->
  StockSensor.update yf self w =
  (StockSensor.set_state self None,
   log_error (StockSensor.failure_line self e)
     (after_fetch w (StockSensor.ticker self))).
Proof.
  intros Hq. unfold StockSensor.update, fetch. rewrite Hq. reflexivity.
Qed.

Lemma StockSensor_zero_cost_basis yf self w price :
  yf (fetched w) (StockSensor.ticker self) = Price price ->
  StockSensor.purchase_price self * StockSensor.shares self == 0 ->
  (exists v, StockSensor.compute self price = Ok v
             /\ StockSensor.gain_percent v = 0)
  /\ Dict.get "gain_percent"
       (StockSensor._attrs (fst (StockSensor.update yf self w)))
     = Some (VNum 0).
Proof.
  intros Hq Hz.
  assert (Hc : StockSensor.compute self price =
               Ok (StockSensor.mkValues
                     (price * StockSensor.shares self)
                     (StockSensor.purchase_price self * StockSensor.shares self)
                     (price * StockSensor.shares self
                      - StockSensor.purchase_price self
                        * StockSensor.shares self)
                     0)).
  { unfold StockSensor.compute. now rewrite gain_percent_of_zero. }
  split.
  - eexists. split; [exact Hc | reflexivity].
  - rewrite (StockSensor_update_price _ _ _ _ _ Hq Hc). reflexivity.
Qed.

(** C3.  With a fetched price, the quantities [StockSensor.update] computes
    are current_value = price * shares, purchase_value = purchase_price *
    shares, gain_loss = current_value - purchase_value and, for a positive
    purchase_value, gain_percent = gain_loss / purchase_value * 100; the
    sensor publishes current_value as its state and gain_loss and
    gain_percent among its attributes, each through [round(_, 2)].  For
    AccountA / AAPL / 10 shares / $100 at a quote of $150 the published
    figures are 1500, 500 and 50. *)
Theorem StockSensor_update_values :
  (forall yf self w price,
      yf (fetched w) (StockSensor.ticker self) = Price price ->
      exists v,
        StockSensor.compute self price = Ok v
        /\ StockSensor.current_value v = price * StockSensor.shares self
        /\ StockSensor.purchase_value v
           = StockSensor.purchase_price self * StockSensor.shares self
        /\ StockSensor.gain_loss v
           = StockSensor.current_value v - StockSensor.purchase_value v
        /\ (0 < StockSensor.purchase_value v ->
            StockSensor.gain_percent v
            = StockSensor.gain_loss v / StockSensor.purchase_value v * 100)
        /\ let self' := fst (StockSensor.update yf self w) in
           StockSensor._state self'
           = Some (round2 (StockSensor.current_value v))
           /\ Dict.get "gain_loss" (StockSensor._attrs self')
              = Some (VNum (round2 (StockSensor.gain_loss v)))
           /\ Dict.get "gain_percent" (StockSensor._attrs self')
              = Some (VNum (round2 (StockSensor.gain_percent v))))
  /\ (forall yf w,
         yf (fetched w) "AAPL"%string = Price 150 ->
         let self' :=
           fst (StockSensor.update yf (StockSensor.init holding_A) w) in
         StockSensor._state self' = Some 1500
         /\ Dict.get "gain_loss" (StockSensor._attrs self') = Some (VNum 500)
         /\ Dict.get "gain_percent" (StockSensor._attrs self')
            = Some (VNum 50)).
Proof.
  split.
  - intros yf self w price Hq.
    destruct (StockSensor_compute_ok self price) as [v Hc].
    exists v. split; [exact Hc|].
    rewrite (StockSensor_update_price _ _ _ _ _ Hq Hc).
    unfold StockSensor.compute in Hc.
    destruct (Qeq_dec
                (StockSensor.purchase_price self * StockSensor.shares self) 0)
      as [Hz | Hnz].
    + rewrite gain_percent_of_zero in Hc by exact Hz.
      injection Hc as <-. cbn.
      repeat split; try reflexivity.
      intro Hpos. rewrite Hz in Hpos. discriminate Hpos.
    + rewrite gain_percent_of_nonzero in Hc by exact Hnz.
      injection Hc as <-. cbn.
      repeat split; reflexivity.
  - intros yf w Hq.
    assert (Hc : StockSensor.compute (StockSensor.init holding_A) 150
                 = Ok (StockSensor.mkValues 1500 1000 500 (50000 # 1000)))
      by reflexivity.
    cbv zeta.
    rewrite (StockSensor_update_price yf (StockSensor.init holding_A) w
               150 _ Hq Hc).
    repeat split; reflexivity.
Qed.

Lemma StockSensor_update_values_witness :
  let yf : quote_source := fun _ _ => Price 150 in
  let self := StockSensor.init holding_A in
  let self' := fst (StockSensor.update yf self (mkWorld [] [])) in
  (exists v,
      StockSensor.compute self 150 = Ok v
      /\ StockSensor._state self'
         = Some (round2 (StockSensor.current_value v)))
  /\ StockSensor._state self' = Some 1500
  /\ Dict.get "gain_loss" (StockSensor._attrs self') = Some (VNum 500)
  /\ Dict.get "gain_percent" (StockSensor._attrs self') = Some (VNum 50).
Proof.
  intros yf self self'.
  destruct StockSensor_update_values as [Hgeneral Hscenario].
  split.
  - destruct (Hgeneral yf self (mkWorld [] []) 150) as [v [Hc [_ [_ [_ [_ H]]]]]];
      [reflexivity|].
    exists v. split; [exact Hc | exact (proj1 H)].
  - apply (Hscenario yf (mkWorld [] [])). reflexivity.
Defined.

(** ** Dictionaries *)

Lemma Dict_get_set_eq {V : Type} (k : string) (v : V) (d : Dict.dict V) :
  Dict.get k (Dict.set k v d) = Some v.
Proof.
  induction d as [| [k' v'] r IH]; cbn.
  - now rewrite String.eqb_refl.
  - destruct (String.eqb k k') eqn:E; cbn; rewrite E; [reflexivity | exact IH].
Qed.

Lemma Dict_get_set_neq {V : Type} (k k' : string) (v : V) (d : Dict.dict V) :
  String.eqb k k' = false ->
  Dict.get k (Dict.set k' v d) = Dict.get k d.
Proof.
  intro Hne.
  induction d as [| [k2 v2] r IH]; cbn.
  - now rewrite Hne.
  - destruct (String.eqb k' k2) eqn:E; cbn.
    + apply String.eqb_eq in E. subst k2. now rewrite Hne.
    + destruct (String.eqb k k2); [reflexivity | exact IH].
Qed.

Lemma Dict_get_adjust_eq {V : Type} (k : string) (f : V -> V)
  (d : Dict.dict V) :
  Dict.get k (Dict.adjust k f d) = option_map f (Dict.get k d).
Proof.
  unfold Dict.adjust.
  destruct (Dict.get k d) as [v |] eqn:E; cbn.
  - apply Dict_get_set_eq.
  - exact E.
Qed.

Lemma Dict_get_adjust_neq {V : Type} (k k' : string) (f : V -> V)
  (d : Dict.dict V) :
  String.eqb k k' = false ->
  Dict.get k (Dict.adjust k' f d) = Dict.get k d.
Proof.
  intro Hne. unfold Dict.adjust.
  destruct (Dict.get k' d); [now apply Dict_get_set_neq | reflexivity].
Qed.

Lemma Dict_keys_set {V : Type} (k : string) (v : V) (d : Dict.dict V) :
  Dict.keys (Dict.set k v d)
  = if Dict.mem k d then Dict.keys d else Dict.keys d ++ [k].
Proof.
  unfold Dict.mem, Dict.keys.
  induction d as [| [k' v'] r IH]; cbn; [reflexivity|].
  destruct (String.eqb k k') eqn:E; cbn; [reflexivity|].
  rewrite IH. now destruct (Dict.get k r).
Qed.

Lemma Dict_keys_adjust {V : Type} (k : string) (f : V -> V)
  (d : Dict.dict V) :
  Dict.keys (Dict.adjust k f d) = Dict.keys d.
Proof.
  unfold Dict.adjust.
  destruct (Dict.get k d) eqn:E; [|reflexivity].
  rewrite Dict_keys_set. unfold Dict.mem. now rewrite E.
Qed.

Lemma Dict_mem_In_keys {V : Type} (k : string) (d : Dict.dict V) :
  Dict.mem k d = true <-> In k (Dict.keys d).
Proof.
  unfold Dict.mem, Dict.keys.
  induction d as [| [k' v'] r IH]; cbn.
  - split; [discriminate | tauto].
  - destruct (String.eqb k k') eqn:E.
    + apply String.eqb_eq in E. subst. tauto.
    + rewrite IH. apply String.eqb_neq in E.
      split; [tauto | intros [H | H]; [congruence | exact H]].
Qed.

Lemma Dict_get_map_values {V W : Type} (f : V -> W) (k : string)
  (d : Dict.dict V) :
  Dict.get k (Dict.map_values f d) = option_map f (Dict.get k d).
Proof.
  induction d as [| [k' v'] r IH]; cbn; [reflexivity|].
  destruct (String.eqb k k'); [reflexivity | exact IH].
Qed.

(** ** AggregateStockSensor *)

Lemma Aggregate_fold_total_shares l acc :
  AggregateStockSensor.total_shares
    (fold_left AggregateStockSensor.step l acc)
  = fold_left Qplus (map Config.shares l)
      (AggregateStockSensor.total_shares acc).
Proof.
  revert acc. induction l as [| c l IH]; intro acc; cbn; [reflexivity|].
  now rewrite IH.
Qed.

Lemma Aggregate_fold_total_purchase_value l acc :
  AggregateStockSensor.total_purchase_value
    (fold_left AggregateStockSensor.step l acc)
  = fold_left Qplus
      (map (fun c => Config.shares c * Config.purchase_price c) l)
      (AggregateStockSensor.total_purchase_value acc).
Proof.
  revert acc. induction l as [| c l IH]; intro acc; cbn; [reflexivity|].
  now rewrite IH.
Qed.

Lemma Aggregate_fold_account_breakdown l acc a :
  Dict.get a
    (AggregateStockSensor.account_breakdown
       (fold_left AggregateStockSensor.step l acc))
  = if Dict.mem a (AggregateStockSensor.account_breakdown acc)
       || existsb (fun c => String.eqb a (Config.account c)) l
    then Some (fold_left Qplus
                 (map Config.shares
                    (filter (fun c => String.eqb a (Config.account c)) l))
                 (Dict.get_or a 0 (AggregateStockSensor.account_breakdown acc)))
    else None.
Proof.
  revert acc. induction l as [| c l IH]; intro acc.
  - cbn. unfold Dict.mem, Dict.get_or.
    now destruct (Dict.get a (AggregateStockSensor.account_breakdown acc)).
  - cbn [fold_left existsb filter]. rewrite IH. clear IH.
    cbn [AggregateStockSensor.step AggregateStockSensor.account_breakdown].
    unfold Dict.mem, Dict.get_or.
    destruct (String.eqb a (Config.account c)) eqn:E.
    + apply String.eqb_eq in E. subst a.
      rewrite Dict_get_set_eq, orb_true_r. reflexivity.
    + rewrite (Dict_get_set_neq _ _ _ _ E), orb_false_l. reflexivity.
Qed.

Lemma Aggregate_compute_ok (self : AggregateStockSensor.t) (price : Q) :
  exists v, AggregateStockSensor.compute self price = Ok v
            /\ AggregateStockSensor.sums v
               = AggregateStockSensor.loop (AggregateStockSensor.configs self)
            /\ AggregateStockSensor.current_value v
               = price * AggregateStockSensor.total_shares
                           (AggregateStockSensor.sums v).
Proof.
  unfold AggregateStockSensor.compute.
  set (s := AggregateStockSensor.loop (AggregateStockSensor.configs self)).
  destruct (gain_percent_of_total
              (price * AggregateStockSensor.total_shares s
               - AggregateStockSensor.total_purchase_value s)
              (AggregateStockSensor.total_purchase_value s)) as [g Hg].
  rewrite Hg. eexists. repeat split; reflexivity.
Qed.

Lemma Aggregate_update_price yf self w price v :
  yf (fetched w) (AggregateStockSensor.ticker self) = Price price ->
  AggregateStockSensor.compute self price = Ok v ->
  AggregateStockSensor.update yf self w =
  (AggregateStockSensor.set_state_attrs self
     (Some (round2 (AggregateStockSensor.current_value v)))
     (AggregateStockSensor.attrs self price v),
   after_fetch w (AggregateStockSensor.ticker self)).
Proof.
  intros Hq Hc. unfold AggregateStockSensor.update, fetch.
  rewrite Hq, Hc. reflexivity.
Qed.

Lemma Aggregate_update_noprice yf self w :
  yf (fetched w) (AggregateStockSensor.ticker self) = NoPrice ->
  AggregateStockSensor.update yf self w =
  (AggregateStockSensor.set_state self None,
   after_fetch w (AggregateStockSensor.ticker self)).
Proof.
  intros Hq. unfold AggregateStockSensor.update, fetch. now rewrite Hq.
Qed.

Lemma Aggregate_update_raises yf self w e :
  yf (fetched w) (AggregateStockSensor.ticker self) = Raises e ->
  AggregateStockSensor.update yf self w =
  (AggregateStockSensor.set_state self None,
   log_error (AggregateStockSensor.failure_line self e)
     (after_fetch w (AggregateStockSensor.ticker self))).
Proof.
  intros Hq. unfold AggregateStockSensor.update, fetch. now rewrite Hq.
Qed.

Lemma Aggregate_zero_cost_basis yf self w price :
  yf (fetched w) (AggregateStockSensor.ticker self) = Price price ->
  AggregateStockSensor.total_purchase_value
    (AggregateStockSensor.loop (AggregateStockSensor.configs self)) == 0 ->
  (exists v, AggregateStockSensor.compute self price = Ok v
             /\ AggregateStockSensor.gain_percent v = 0)
  /\ Dict.get "gain_percent"
       (AggregateStockSensor._attrs
          (fst (AggregateStockSensor.update yf self w)))
     = Some (VNum 0).
Proof.
  intros Hq Hz.
  set (s := AggregateStockSensor.loop (AggregateStockSensor.configs self))
    in *.
  assert (Hc : AggregateStockSensor.compute self price =
               Ok (AggregateStockSensor.mkValues s
                     (price * AggregateStockSensor.total_shares s)
                     (price * AggregateStockSensor.total_shares s
                      - AggregateStockSensor.total_purchase_value s)
                     0)).
  { unfold AggregateStockSensor.compute. fold s.
    now rewrite gain_percent_of_zero. }
  split.
  - eexists. split; [exact Hc | reflexivity].
  - rewrite (Aggregate_update_price _ _ _ _ _ Hq Hc). reflexivity.
Qed.

(** C4.  Over the holdings handed to an [AggregateStockSensor], the loop of
    [update] leaves in total_shares the sum of the shares, in
    total_purchase_value the sum of shares * purchase_price, and in
    account_breakdown, for each account met, the sum of the shares held in
    that account (an account never met has no key).  With a fetched price
    the sensor publishes total_shares and account_breakdown as they are and
    total_purchase_value through [round(_, 2)]. *)
Theorem AggregateStockSensor_update_sums :
  (forall configs,
      let s := AggregateStockSensor.loop configs in
      AggregateStockSensor.total_shares s = sumQ (map Config.shares configs)
      /\ AggregateStockSensor.total_purchase_value s
         = sumQ (map (fun c => Config.shares c * Config.purchase_price c)
                   configs)
      /\ forall account,
          Dict.get account (AggregateStockSensor.account_breakdown s)
          = if existsb (fun c => String.eqb account (Config.account c)) configs
            then Some (sumQ (map Config.shares
                               (filter (fun c => String.eqb account
                                                   (Config.account c))
                                  configs)))
            else None)
  /\ (forall yf self w price,
         yf (fetched w) (AggregateStockSensor.ticker self) = Price price ->
         let s := AggregateStockSensor.loop
                    (AggregateStockSensor.configs self) in
         let self' := fst (AggregateStockSensor.update yf self w) in
         Dict.get "total_shares" (AggregateStockSensor._attrs self')
         = Some (VNum (AggregateStockSensor.total_shares s))
         /\ Dict.get "total_purchase_value" (AggregateStockSensor._attrs self')
            = Some (VNum (round2 (AggregateStockSensor.total_purchase_value s)))
         /\ Dict.get "account_breakdown" (AggregateStockSensor._attrs self')
            = Some (VDict (AggregateStockSensor.account_breakdown s))).
Proof.
  split.
  - intros configs s. subst s. unfold AggregateStockSensor.loop, sumQ.
    split; [apply Aggregate_fold_total_shares|].
    split; [apply Aggregate_fold_total_purchase_value|].
    intro a. rewrite Aggregate_fold_account_breakdown. reflexivity.
  - intros yf self w price Hq s self'. subst s self'.
    destruct (Aggregate_compute_ok self price) as [v [Hc [Hs _]]].
    rewrite (Aggregate_update_price _ _ _ _ _ Hq Hc). cbn.
    rewrite Hs. repeat split; reflexivity.
Qed.

Lemma AggregateStockSensor_update_sums_witness :
  let self := AggregateStockSensor.init "AAPL" [holding_A; holding_B] in
  let s := AggregateStockSensor.loop (AggregateStockSensor.configs self) in
  let self' :=
    fst (AggregateStockSensor.update (fun _ _ => Price 150) self
           (mkWorld [] [])) in
  Dict.get "total_shares" (AggregateStockSensor._attrs self')
  = Some (VNum (AggregateStockSensor.total_shares s))
  /\ Dict.get "total_purchase_value" (AggregateStockSensor._attrs self')
     = Some (VNum (round2 (AggregateStockSensor.total_purchase_value s)))
  /\ Dict.get "account_breakdown" (AggregateStockSensor._attrs self')
     = Some (VDict (AggregateStockSensor.account_breakdown s)).
Proof.
  apply (proj2 AggregateStockSensor_update_sums (fun _ _ => Price 150)
           (AggregateStockSensor.init "AAPL" [holding_A; holding_B])
           (mkWorld [] []) 150).
  reflexivity.
Defined.

(** C5, as the code computes it.  For AccountA / AAPL / 10 / $100 and
    AccountB / AAPL / 5 / $120 at a quote of $150 the AAPL aggregate
    publishes total_shares 15, total_purchase_value 1600 (10 * 100 +
    5 * 120), current value 2250, gain_loss 650, gain_percent 40.62 and
    account_breakdown AccountA: 10, AccountB: 5. *)
Theorem AggregateStockSensor_scenario :
  forall yf w,
    yf (fetched w) "AAPL"%string = Price 150 ->
    let self' :=
      fst (AggregateStockSensor.update yf
             (AggregateStockSensor.init "AAPL" [holding_A; holding_B]) w) in
    AggregateStockSensor._state self' = Some 2250
    /\ AggregateStockSensor._attrs self'
       = [ ("ticker", VStr "AAPL");
           ("total_shares", VNum 15);
           ("current_price", VNum 150);
           ("total_purchase_value", VNum 1600);
           ("gain_loss", VNum 650);
           ("gain_percent", VNum (Qred (4062 # 100)));
           ("account_breakdown",
             VDict [("AccountA", 10); ("AccountB", 5)]) ]%string.
Proof.
  intros yf w Hq.
  destruct (Aggregate_compute_ok
              (AggregateStockSensor.init "AAPL" [holding_A; holding_B]) 150)
    as [v [Hc _]].
  cbv zeta. rewrite (Aggregate_update_price _ _ _ _ _ Hq Hc).
  vm_compute in Hc. injection Hc as <-.
  split; reflexivity.
Qed.

Lemma AggregateStockSensor_scenario_witness :
  let self' :=
    fst (AggregateStockSensor.update (fun _ _ => Price 150)
           (AggregateStockSensor.init "AAPL" [holding_A; holding_B])
           (mkWorld [] [])) in
  AggregateStockSensor._state self' = Some 2250
  /\ AggregateStockSensor._attrs self'
     = [ ("ticker", VStr "AAPL");
         ("total_shares", VNum 15);
         ("current_price", VNum 150);
         ("total_purchase_value", VNum 1600);
         ("gain_loss", VNum 650);
         ("gain_percent", VNum (Qred (4062 # 100)));
         ("account_breakdown",
           VDict [("AccountA", 10); ("AccountB", 5)]) ]%string.
Proof.
  apply (AggregateStockSensor_scenario (fun _ _ => Price 150) (mkWorld [] [])).
  reflexivity.
Defined.

(** C5 as the specification words it does not hold: on its own input the
    code publishes total_purchase_value 1600, not 1700, and gain_percent
    40.62, not 32.35. *)
Lemma AggregateStockSensor_scenario_not_1700 :
  let self' :=
    fst (AggregateStockSensor.update (fun _ _ => Price 150)
           (AggregateStockSensor.init "AAPL" [holding_A; holding_B])
           (mkWorld [] [])) in
  exists tpv gp,
    Dict.get "total_purchase_value" (AggregateStockSensor._attrs self')
    = Some (VNum tpv)
    /\ Dict.get "gain_percent" (AggregateStockSensor._attrs self')
       = Some (VNum gp)
    /\ ~ tpv == 1700
    /\ ~ gp == 3235 # 100.
Proof.
  exists 1600, (2031 # 50).
  repeat split; try reflexivity; intro H; discriminate H.
Qed.

(** ** TotalPortfolioSensor *)

Lemma fetched_log_error line w : fetched (log_error line w) = fetched w.
Proof. reflexivity. Qed.

(** The loop only ever adds the fetched holdings, and asks for every
    holding's ticker in turn. *)
Lemma Total_fold_successes yf configs acc w :
  fst (fold_left (TotalPortfolioSensor.step yf) configs (acc, w))
  = fold_left (fun a cp => TotalPortfolioSensor.accumulate a (fst cp) (snd cp))
      (successes yf configs (fetched w)) acc
  /\ fetched (snd (fold_left (TotalPortfolioSensor.step yf) configs (acc, w)))
     = fetched w ++ map Config.symbol configs.
Proof.
  revert acc w. induction configs as [| c r IH]; intros acc w.
  - cbn. now rewrite app_nil_r.
  - cbn [fold_left successes map].
    unfold TotalPortfolioSensor.step at 2 4. unfold fetch.
    destruct (yf (fetched w) (Config.symbol c)) as [p | | e].
    + destruct (IH (TotalPortfolioSensor.accumulate acc c p)
                  (after_fetch w (Config.symbol c))) as [H1 H2].
      rewrite H1, H2. cbn. now rewrite <- app_assoc.
    + destruct (IH acc (after_fetch w (Config.symbol c))) as [H1 H2].
      rewrite H1, H2. cbn. now rewrite <- app_assoc.
    + destruct (IH acc
                  (log_error
                     (TotalPortfolioSensor.failure_line (Config.symbol c) e)
                     (after_fetch w (Config.symbol c)))) as [H1 H2].
      rewrite H1, H2. cbn. now rewrite <- app_assoc.
Qed.

Lemma Total_acc_total_value l acc :
  TotalPortfolioSensor.total_value
    (fold_left
       (fun a cp => TotalPortfolioSensor.accumulate a (fst cp) (snd cp)) l acc)
  = fold_left Qplus (map value_of l) (TotalPortfolioSensor.total_value acc).
Proof.
  revert acc. induction l as [| cp l IH]; intro acc; cbn; [reflexivity|].
  now rewrite IH.
Qed.

Lemma Total_acc_total_purchase_value l acc :
  TotalPortfolioSensor.total_purchase_value
    (fold_left
       (fun a cp => TotalPortfolioSensor.accumulate a (fst cp) (snd cp)) l acc)
  = fold_left Qplus (map cost_of l)
      (TotalPortfolioSensor.total_purchase_value acc).
Proof.
  revert acc. induction l as [| cp l IH]; intro acc; cbn; [reflexivity|].
  now rewrite IH.
Qed.

Lemma Total_accumulate_per_stock_same acc c p :
  Dict.get (Config.symbol c)
    (TotalPortfolioSensor.per_stock (TotalPortfolioSensor.accumulate acc c p))
  = let e := Dict.get_or (Config.symbol c) (TotalPortfolioSensor.mkEntry 0 0)
               (TotalPortfolioSensor.per_stock acc) in
    Some (TotalPortfolioSensor.mkEntry
            (TotalPortfolioSensor.e_shares e + Config.shares c)
            (TotalPortfolioSensor.e_current_value e + p * Config.shares c)).
Proof.
  unfold TotalPortfolioSensor.accumulate.
  cbn [TotalPortfolioSensor.per_stock].
  rewrite !Dict_get_adjust_eq. unfold Dict.mem, Dict.get_or.
  destruct (Dict.get (Config.symbol c) (TotalPortfolioSensor.per_stock acc))
    as [e |] eqn:E.
  - rewrite E. reflexivity.
  - rewrite Dict_get_set_eq. reflexivity.
Qed.

Lemma Total_accumulate_per_stock_other acc c p t :
  String.eqb t (Config.symbol c) = false ->
  Dict.get t
    (TotalPortfolioSensor.per_stock (TotalPortfolioSensor.accumulate acc c p))
  = Dict.get t (TotalPortfolioSensor.per_stock acc).
Proof.
  intro Hne. unfold TotalPortfolioSensor.accumulate.
  cbn [TotalPortfolioSensor.per_stock].
  rewrite !(Dict_get_adjust_neq _ _ _ _ Hne).
  destruct (Dict.mem (Config.symbol c) (TotalPortfolioSensor.per_stock acc));
    [reflexivity | now apply Dict_get_set_neq].
Qed.

Lemma Total_acc_per_stock l acc t :
  Dict.get t
    (TotalPortfolioSensor.per_stock
       (fold_left
          (fun a cp => TotalPortfolioSensor.accumulate a (fst cp) (snd cp))
          l acc))
  = if Dict.mem t (TotalPortfolioSensor.per_stock acc) || has_ticker t l
    then
      let e := Dict.get_or t (TotalPortfolioSensor.mkEntry 0 0)
                 (TotalPortfolioSensor.per_stock acc) in
      Some (TotalPortfolioSensor.mkEntry
              (fold_left Qplus
                 (map (fun cp => Config.shares (fst cp)) (of_ticker t l))
                 (TotalPortfolioSensor.e_shares e))
              (fold_left Qplus (map value_of (of_ticker t l))
                 (TotalPortfolioSensor.e_current_value e)))
    else None.
Proof.
  revert acc. induction l as [| [c p] l IH]; intro acc.
  - cbn. unfold Dict.mem, Dict.get_or.
    now destruct (Dict.get t (TotalPortfolioSensor.per_stock acc)) as [[] |].
  - cbn [fold_left fst snd]. rewrite IH. clear IH.
    unfold has_ticker, of_ticker. cbn [existsb filter fst].
    unfold Dict.mem, Dict.get_or.
    destruct (String.eqb t (Config.symbol c)) eqn:E.
    + apply String.eqb_eq in E. subst t.
      rewrite Total_accumulate_per_stock_same, orb_true_r. reflexivity.
    + rewrite (Total_accumulate_per_stock_other _ _ _ _ E), orb_false_l.
      reflexivity.
Qed.

Lemma Total_update_ok yf self w :
  let acc := fst (TotalPortfolioSensor.loop yf
                    (TotalPortfolioSensor.configs self) w) in
  let gain := TotalPortfolioSensor.total_value acc
              - TotalPortfolioSensor.total_purchase_value acc in
  exists g,
    gain_percent_of gain (TotalPortfolioSensor.total_purchase_value acc) = Ok g
    /\ fst (TotalPortfolioSensor.update yf self w)
       = Ok (TotalPortfolioSensor.publish self acc gain g).
Proof.
  intros acc gain. subst acc gain. unfold TotalPortfolioSensor.update.
  destruct (TotalPortfolioSensor.loop yf (TotalPortfolioSensor.configs self) w)
    as [acc w'].
  cbn [fst].
  destruct (gain_percent_of_total
              (TotalPortfolioSensor.total_value acc
               - TotalPortfolioSensor.total_purchase_value acc)
              (TotalPortfolioSensor.total_purchase_value acc)) as [g Hg].
  exists g. rewrite Hg. split; reflexivity.
Qed.

Lemma Total_loop_successes yf configs w :
  fst (TotalPortfolioSensor.loop yf configs w)
  = fold_left (fun a cp => TotalPortfolioSensor.accumulate a (fst cp) (snd cp))
      (successes yf configs (fetched w)) TotalPortfolioSensor.totals0.
Proof. unfold TotalPortfolioSensor.loop. apply Total_fold_successes. Qed.

Lemma Total_zero_cost_basis yf self w :
  TotalPortfolioSensor.total_purchase_value
    (fst (TotalPortfolioSensor.loop yf
            (TotalPortfolioSensor.configs self) w)) == 0 ->
  exists self',
    fst (TotalPortfolioSensor.update yf self w) = Ok self'
    /\ Dict.get "total_gain_percent" (TotalPortfolioSensor._attrs self')
       = Some (VNum 0).
Proof.
  intro Hz.
  destruct (Total_update_ok yf self w) as [g [Hg Hu]].
  rewrite gain_percent_of_zero in Hg by exact Hz.
  injection Hg as <-.
  eexists. split; [exact Hu | reflexivity].
Qed.

(** [successes] holds exactly the holdings whose own fetch, made after the
    fetches of the holdings before them, returns a price. *)
Lemma successes_In yf configs h c p :
  In (c, p) (successes yf configs h)
  <-> exists before after,
      configs = before ++ c :: after
      /\ yf (h ++ map Config.symbol before) (Config.symbol c) = Price p.
Proof.
  revert h. induction configs as [| c0 r IH]; intro h.
  - cbn. split; [tauto|]. intros [[| ? ?] [after [H _]]]; discriminate H.
  - assert (Hrest :
              In (c, p) (successes yf r (h ++ [Config.symbol c0]))
              <-> exists before after,
                  c0 :: r = (c0 :: before) ++ c :: after
                  /\ yf (h ++ map Config.symbol (c0 :: before))
                       (Config.symbol c) = Price p).
    { rewrite IH. split; intros [before [after [H1 H2]]];
        exists before, after.
      - split; [cbn; now rewrite H1|].
        cbn. now rewrite <- app_assoc in H2.
      - split; [now injection H1|].
        cbn in H2. now rewrite <- app_assoc. }
    assert (Hhead :
              yf h (Config.symbol c0) = Price p /\ c = c0
              <-> exists after,
                  c0 :: r = [] ++ c :: after
                  /\ yf (h ++ map Config.symbol [])
                       (Config.symbol c) = Price p).
    { cbn. rewrite app_nil_r. split.
      - intros [H ->]. now exists r.
      - intros [after [H1 H2]]. injection H1 as -> _. now split. }
    assert (Hsplit :
              (exists before after,
                  c0 :: r = before ++ c :: after
                  /\ yf (h ++ map Config.symbol before) (Config.symbol c)
                     = Price p)
              <-> (yf h (Config.symbol c0) = Price p /\ c = c0)
                  \/ In (c, p) (successes yf r (h ++ [Config.symbol c0]))).
    { rewrite Hhead, Hrest. split.
      - intros [[| b before] [after H]].
        + left. now exists after.
        + right. destruct H as [H1 H2].
          assert (b = c0) by (cbn in H1; congruence). subst b.
          now exists before, after.
      - intros [[after H] | [before [after H]]].
        + now exists [], after.
        + now exists (c0 :: before), after. }
    rewrite Hsplit. cbn [successes].
    destruct (yf h (Config.symbol c0)) as [p0 | | e] eqn:E; cbn.
    + split.
      * intros [H | H]; [left | now right].
        injection H as -> ->. now split.
      * intros [[H ->] | H]; [left | now right].
        now injection H as ->.
    + split; [now right | intros [[H _] | H]; [discriminate H | exact H]].
    + split; [now right | intros [[H _] | H]; [discriminate H | exact H]].
Qed.

(** C1.  The guard of lines 63, 118 and 182 returns 0 on a zero purchase
    value without consulting the division (whatever the division would do,
    the result is 0), and on any operands the guarded expression raises no
    ZeroDivisionError.  So a holding, a symbol aggregate and the portfolio
    aggregate with a zero purchase value each publish gain_percent 0. *)
Theorem zero_cost_basis_gain_percent :
  (forall div gain_loss purchase_value,
      purchase_value == 0 ->
      gain_percent_with div gain_loss purchase_value = Ok 0)
  /\ (forall gain_loss purchase_value,
         exists g, gain_percent_of gain_loss purchase_value = Ok g)
  /\ (forall yf self w price,
         yf (fetched w) (StockSensor.ticker self) = Price price ->
         StockSensor.purchase_price self * StockSensor.shares self == 0 ->
         (exists v, StockSensor.compute self price = Ok v
                    /\ StockSensor.gain_percent v = 0)
         /\ Dict.get "gain_percent"
              (StockSensor._attrs (fst (StockSensor.update yf self w)))
            = Some (VNum 0))
  /\ (forall yf self w price,
         yf (fetched w) (AggregateStockSensor.ticker self) = Price price ->
         AggregateStockSensor.total_purchase_value
           (AggregateStockSensor.loop (AggregateStockSensor.configs self))
         == 0 ->
         (exists v, AggregateStockSensor.compute self price = Ok v
                    /\ AggregateStockSensor.gain_percent v = 0)
         /\ Dict.get "gain_percent"
              (AggregateStockSensor._attrs
                 (fst (AggregateStockSensor.update yf self w)))
            = Some (VNum 0))
  /\ (forall yf self w,
         TotalPortfolioSensor.total_purchase_value
           (fst (TotalPortfolioSensor.loop yf
                   (TotalPortfolioSensor.configs self) w)) == 0 ->
         exists self',
           fst (TotalPortfolioSensor.update yf self w) = Ok self'
           /\ Dict.get "total_gain_percent"
                (TotalPortfolioSensor._attrs self')
              = Some (VNum 0)).
Proof.
  split.
  { intros div gl pv Hz. unfold gain_percent_with.
    apply truthy_false_iff in Hz. now rewrite Hz. }
  split; [exact gain_percent_of_total|].
  split; [exact StockSensor_zero_cost_basis|].
  split; [exact Aggregate_zero_cost_basis | exact Total_zero_cost_basis].
Qed.

Lemma zero_cost_basis_gain_percent_witness :
  let yf : quote_source := fun _ _ => Price 150 in
  let w := mkWorld [] [] in
  gain_percent_with (fun _ _ => Err "division by zero") 1500 0 = Ok 0
  /\ Dict.get "gain_percent"
       (StockSensor._attrs
          (fst (StockSensor.update yf (StockSensor.init holding_free) w)))
     = Some (VNum 0)
  /\ Dict.get "gain_percent"
       (AggregateStockSensor._attrs
          (fst (AggregateStockSensor.update yf
                  (AggregateStockSensor.init "AAPL" [holding_free]) w)))
     = Some (VNum 0)
  /\ exists self',
      fst (TotalPortfolioSensor.update yf
             (TotalPortfolioSensor.init [holding_free]) w) = Ok self'
      /\ Dict.get "total_gain_percent" (TotalPortfolioSensor._attrs self')
         = Some (VNum 0).
Proof.
  intros yf w.
  destruct zero_cost_basis_gain_percent as [Hexpr [_ [Hs [Ha Ht]]]].
  split; [apply Hexpr; reflexivity|].
  split; [apply (Hs yf (StockSensor.init holding_free) w 150); reflexivity|].
  split.
  - apply (Ha yf (AggregateStockSensor.init "AAPL" [holding_free]) w 150);
      reflexivity.
  - apply (Ht yf (TotalPortfolioSensor.init [holding_free]) w). reflexivity.
Defined.

(** C2.  [TotalPortfolioSensor.update] always returns; its sums run over
    exactly the holdings whose own fetch returned a price ([successes], the
    holdings for which the fetch made at their turn gave a price):
    total value is the sum of price * shares over them, total purchase
    value the sum of purchase_price * shares over them, and by_stock has a
    key for a ticker exactly when one of them has that ticker, holding the
    sum of their price * shares.  The figures are published through
    [round(_, 2)].  A holding whose fetch returns no price or raises leaves
    all three accumulators as they were. *)
Theorem TotalPortfolioSensor_update_sums :
  (forall yf self w,
      let ok := successes yf (TotalPortfolioSensor.configs self) (fetched w) in
      let acc := fst (TotalPortfolioSensor.loop yf
                        (TotalPortfolioSensor.configs self) w) in
      (forall config price,
          In (config, price) ok
          <-> exists before after,
              TotalPortfolioSensor.configs self = before ++ config :: after
              /\ yf (fetched w ++ map Config.symbol before)
                   (Config.symbol config) = Price price)
      /\ (TotalPortfolioSensor.total_value acc = sumQ (map value_of ok)
       /\ TotalPortfolioSensor.total_purchase_value acc
          = sumQ (map cost_of ok)
       /\ forall t,
           option_map TotalPortfolioSensor.e_current_value
             (Dict.get t (TotalPortfolioSensor.per_stock acc))
           = if has_ticker t ok
             then Some (sumQ (map value_of (of_ticker t ok)))
             else None)
      /\ exists self',
          fst (TotalPortfolioSensor.update yf self w) = Ok self'
          /\ TotalPortfolioSensor._state self'
             = Some (round2 (sumQ (map value_of ok)))
          /\ Dict.get "total_purchase_value"
               (TotalPortfolioSensor._attrs self')
             = Some (VNum (round2 (sumQ (map cost_of ok))))
          /\ exists by_stock,
              Dict.get "by_stock" (TotalPortfolioSensor._attrs self')
              = Some (VDict by_stock)
              /\ forall t,
                  Dict.get t by_stock
                  = if has_ticker t ok
                    then Some (round2 (sumQ (map value_of (of_ticker t ok))))
                    else None)
  /\ (forall yf acc w config,
         (forall price,
             yf (fetched w) (Config.symbol config) <> Price price) ->
         fst (TotalPortfolioSensor.step yf (acc, w) config) = acc).
Proof.
  split.
  - intros yf self w ok acc.
    assert (Hacc : acc
                   = fold_left
                       (fun a cp =>
                          TotalPortfolioSensor.accumulate a (fst cp) (snd cp))
                       ok TotalPortfolioSensor.totals0)
      by apply Total_loop_successes.
    assert (Hv : TotalPortfolioSensor.total_value acc = sumQ (map value_of ok))
      by (rewrite Hacc; apply Total_acc_total_value).
    assert (Hp : TotalPortfolioSensor.total_purchase_value acc
                 = sumQ (map cost_of ok))
      by (rewrite Hacc; apply Total_acc_total_purchase_value).
    assert (Hs : forall t,
               option_map TotalPortfolioSensor.e_current_value
                 (Dict.get t (TotalPortfolioSensor.per_stock acc))
               = if has_ticker t ok
                 then Some (sumQ (map value_of (of_ticker t ok)))
                 else None).
    { intro t. rewrite Hacc, Total_acc_per_stock. cbn.
      destruct (has_ticker t ok); reflexivity. }
    split; [intros c p; apply successes_In|].
    split; [repeat split; assumption|].
    destruct (Total_update_ok yf self w) as [g [_ Hu]]. fold acc in Hu.
    eexists. split; [exact Hu|]. cbn.
    rewrite Hv, Hp. repeat split.
    eexists. split; [reflexivity|].
    intro t. rewrite Dict_get_map_values.
    specialize (Hs t).
    destruct (Dict.get t (TotalPortfolioSensor.per_stock acc)) as [e |];
      cbn in *; destruct (has_ticker t ok); now inversion Hs.
  - intros yf acc w c Hfail. unfold TotalPortfolioSensor.step, fetch.
    destruct (yf (fetched w) (Config.symbol c)) as [p | | e] eqn:E;
      [exfalso; apply (Hfail p); reflexivity | reflexivity | reflexivity].
Qed.

Lemma TotalPortfolioSensor_update_sums_witness :
  fst (TotalPortfolioSensor.step (fun _ _ => Raises "timeout")
         (TotalPortfolioSensor.mkTotals 1500 1000
            [("AAPL"%string, TotalPortfolioSensor.mkEntry 10 1500)],
          mkWorld ["AAPL"%string] [])
         holding_C)
  = TotalPortfolioSensor.mkTotals 1500 1000
      [("AAPL"%string, TotalPortfolioSensor.mkEntry 10 1500)].
Proof.
  apply (proj2 TotalPortfolioSensor_update_sums).
  intros price H. discriminate H.
Defined.

Lemma successes_all_fail yf configs h :
  (forall h' config price,
      In config configs -> yf h' (Config.symbol config) <> Price price) ->
  successes yf configs h = [].
Proof.
  revert h. induction configs as [| c r IH]; intros h Hfail; [reflexivity|].
  cbn. destruct (yf h (Config.symbol c)) as [p | | e] eqn:E.
  - exfalso. apply (Hfail h c p); [now left | exact E].
  - apply IH. intros h' c' p' Hin. apply Hfail. now right.
  - apply IH. intros h' c' p' Hin. apply Hfail. now right.
Qed.

(** C10.  [TotalPortfolioSensor.update] never raises and never leaves the
    state unset: the state is always a number.  When no holding gets a
    price (no holdings at all, or every fetch failing or returning no
    price) the state is 0, total_purchase_value, total_gain_loss and
    total_gain_percent are 0 and by_stock is empty. *)
Theorem TotalPortfolioSensor_never_unavailable :
  (forall yf self w,
      exists self' v,
        fst (TotalPortfolioSensor.update yf self w) = Ok self'
        /\ TotalPortfolioSensor._state self' = Some v)
  /\ (forall yf self w,
         successes yf (TotalPortfolioSensor.configs self) (fetched w) = [] ->
         exists self',
           fst (TotalPortfolioSensor.update yf self w) = Ok self'
           /\ TotalPortfolioSensor._state self' = Some 0
           /\ TotalPortfolioSensor._attrs self'
              = [ ("total_purchase_value", VNum 0);
                  ("total_gain_loss", VNum 0);
                  ("total_gain_percent", VNum 0);
                  ("by_stock", VDict []) ]%string)
  /\ (forall yf h, successes yf [] h = [])
  /\ (forall yf configs h,
         (forall h' config price,
             In config configs ->
             yf h' (Config.symbol config) <> Price price) ->
         successes yf configs h = []).
Proof.
  split.
  { intros yf self w.
    destruct (Total_update_ok yf self w) as [g [_ Hu]].
    eexists. eexists. split; [exact Hu | reflexivity]. }
  split.
  { intros yf self w Hnone.
    destruct (Total_update_ok yf self w) as [g [Hg Hu]].
    rewrite Total_loop_successes, Hnone in Hg, Hu.
    cbn in Hg, Hu. injection Hg as <-.
    eexists. split; [exact Hu|]. split; reflexivity. }
  split; [reflexivity | exact successes_all_fail].
Qed.

Lemma TotalPortfolioSensor_never_unavailable_witness :
  let yf : quote_source := fun _ _ => Raises "timeout" in
  successes yf [holding_A; holding_B] [] = []
  /\ exists self',
      fst (TotalPortfolioSensor.update yf
             (TotalPortfolioSensor.init [holding_A; holding_B])
             (mkWorld [] [])) = Ok self'
      /\ TotalPortfolioSensor._state self' = Some 0
      /\ TotalPortfolioSensor._attrs self'
         = [ ("total_purchase_value", VNum 0);
             ("total_gain_loss", VNum 0);
             ("total_gain_percent", VNum 0);
             ("by_stock", VDict []) ]%string.
Proof.
  intro yf.
  destruct TotalPortfolioSensor_never_unavailable as [_ [Hzero [_ Hfail]]].
  assert (Hnone : successes yf [holding_A; holding_B] [] = []).
  { apply Hfail. intros h' config price _ H. discriminate H. }
  split; [exact Hnone|].
  apply (Hzero yf (TotalPortfolioSensor.init [holding_A; holding_B])
           (mkWorld [] [])).
  exact Hnone.
Defined.

(** ** A failed update of a holding *)

Lemma StockSensor_update_failed yf self w :
  (forall price, yf (fetched w) (StockSensor.ticker self) <> Price price) ->
  fst (StockSensor.update yf self w) = StockSensor.set_state self None.
Proof.
  intro Hfail.
  destruct (yf (fetched w) (StockSensor.ticker self)) as [p | | e] eqn:E.
  - exfalso. now apply (Hfail p).
  - now rewrite StockSensor_update_noprice.
  - now rewrite (StockSensor_update_raises _ _ _ e).
Qed.

(** C6, as the code behaves.  When the quote is absent or the fetch raises,
    [StockSensor.update] sets the state to [None] and leaves the attribute
    mapping exactly as it was: the mapping of the last successful update if
    there was one, and the empty mapping (no current_price, gain_loss or
    gain_percent) on a sensor fresh from [__init__]. *)
Theorem StockSensor_update_failed_keeps_attrs :
  forall yf self w,
    (forall price, yf (fetched w) (StockSensor.ticker self) <> Price price) ->
    let self' := fst (StockSensor.update yf self w) in
    let fresh :=
      fst (StockSensor.update yf
             (StockSensor.init
                (Config.mk (StockSensor.account self) (StockSensor.ticker self)
                   (StockSensor.shares self) (StockSensor.purchase_price self)))
             w) in
    StockSensor._state self' = None
    /\ StockSensor.extra_state_attributes self'
       = StockSensor.extra_state_attributes self
    /\ StockSensor._state fresh = None
    /\ StockSensor.extra_state_attributes fresh = [].
Proof.
  intros yf self w Hfail self' fresh. subst self' fresh.
  rewrite (StockSensor_update_failed _ _ _ Hfail).
  rewrite StockSensor_update_failed by exact Hfail.
  repeat split.
Qed.

Lemma StockSensor_update_failed_keeps_attrs_witness :
  let yf : quote_source := fun _ _ => Raises "timeout" in
  let self :=
    StockSensor.mk "AccountA" "AAPL" 10 100 (Some 1500)
      [("gain_loss"%string, VNum 500)] in
  let self' := fst (StockSensor.update yf self (mkWorld [] [])) in
  StockSensor._state self' = None
  /\ StockSensor.extra_state_attributes self'
     = [("gain_loss"%string, VNum 500)].
Proof.
  intros yf self self'.
  destruct (StockSensor_update_failed_keeps_attrs yf self (mkWorld [] []))
    as [H1 [H2 _]].
  - intros price H. discriminate H.
  - split; [exact H1 | exact H2].
Defined.

(** C6 as the specification words it does not hold: after one successful
    update and then one with no price, the holding's state is [None] but
    its attribute mapping still carries current_price 150, gain_loss 500
    and gain_percent 50 of the earlier cycle. *)
Lemma StockSensor_stale_attrs :
  let yf : quote_source :=
    fun h _ => match h with [] => Price 150 | _ :: _ => NoPrice end in
  let first := StockSensor.update yf (StockSensor.init holding_A)
                 (mkWorld [] []) in
  let second := StockSensor.update yf (fst first) (snd first) in
  yf (fetched (snd first)) "AAPL"%string = NoPrice
  /\ StockSensor._state (fst second) = None
  /\ Dict.get "current_price"
       (StockSensor.extra_state_attributes (fst second)) = Some (VNum 150)
  /\ Dict.get "gain_loss"
       (StockSensor.extra_state_attributes (fst second)) = Some (VNum 500)
  /\ Dict.get "gain_percent"
       (StockSensor.extra_state_attributes (fst second)) = Some (VNum 50).
Proof. repeat split. Qed.

(** ** Failures are local *)

Lemma same_answer_absent_for_raise yf h t :
  same_answer (yf h t) (absent_for_raise yf h t).
Proof.
  unfold same_answer, absent_for_raise.
  destruct (yf h t); [left | left | right]; auto.
Qed.

Lemma StockSensor_update_fetched yf self w :
  fetched (snd (StockSensor.update yf self w))
  = fetched w ++ [StockSensor.ticker self].
Proof.
  unfold StockSensor.update, fetch.
  destruct (yf (fetched w) (StockSensor.ticker self)); try reflexivity.
  destruct (StockSensor.compute self p); reflexivity.
Qed.

Lemma StockSensor_update_ticker yf self w :
  StockSensor.ticker (fst (StockSensor.update yf self w))
  = StockSensor.ticker self.
Proof.
  unfold StockSensor.update, fetch.
  destruct (yf (fetched w) (StockSensor.ticker self)); try reflexivity.
  destruct (StockSensor.compute self p); reflexivity.
Qed.

Lemma StockSensor_update_same yf1 yf2 self w1 w2 :
  same_answer (yf1 (fetched w1) (StockSensor.ticker self))
    (yf2 (fetched w2) (StockSensor.ticker self)) ->
  fst (StockSensor.update yf1 self w1) = fst (StockSensor.update yf2 self w2).
Proof.
  unfold StockSensor.update, fetch. intros [Heq | [H1 H2]].
  - rewrite Heq.
    destruct (yf2 (fetched w2) (StockSensor.ticker self)); try reflexivity.
    destruct (StockSensor.compute self p); reflexivity.
  - destruct (yf1 (fetched w1) (StockSensor.ticker self)); try discriminate;
      destruct (yf2 (fetched w2) (StockSensor.ticker self)); try discriminate;
      reflexivity.
Qed.

Lemma Aggregate_update_fetched yf self w :
  fetched (snd (AggregateStockSensor.update yf self w))
  = fetched w ++ [AggregateStockSensor.ticker self].
Proof.
  unfold AggregateStockSensor.update, fetch.
  destruct (yf (fetched w) (AggregateStockSensor.ticker self));
    try reflexivity.
  destruct (AggregateStockSensor.compute self p); reflexivity.
Qed.

Lemma Aggregate_update_ticker yf self w :
  AggregateStockSensor.ticker (fst (AggregateStockSensor.update yf self w))
  = AggregateStockSensor.ticker self.
Proof.
  unfold AggregateStockSensor.update, fetch.
  destruct (yf (fetched w) (AggregateStockSensor.ticker self));
    try reflexivity.
  destruct (AggregateStockSensor.compute self p); reflexivity.
Qed.

Lemma Aggregate_update_same yf1 yf2 self w1 w2 :
  same_answer (yf1 (fetched w1) (AggregateStockSensor.ticker self))
    (yf2 (fetched w2) (AggregateStockSensor.ticker self)) ->
  fst (AggregateStockSensor.update yf1 self w1)
  = fst (AggregateStockSensor.update yf2 self w2).
Proof.
  unfold AggregateStockSensor.update, fetch. intros [Heq | [H1 H2]].
  - rewrite Heq.
    destruct (yf2 (fetched w2) (AggregateStockSensor.ticker self));
      try reflexivity.
    destruct (AggregateStockSensor.compute self p); reflexivity.
  - destruct (yf1 (fetched w1) (AggregateStockSensor.ticker self));
      try discriminate;
      destruct (yf2 (fetched w2) (AggregateStockSensor.ticker self));
      try discriminate; reflexivity.
Qed.

Lemma successes_same yf1 yf2 configs h :
  (forall h' t, same_answer (yf1 h' t) (yf2 h' t)) ->
  successes yf1 configs h = successes yf2 configs h.
Proof.
  intro Hsame. revert h.
  induction configs as [| c r IH]; intro h; [reflexivity|].
  cbn. rewrite IH.
  destruct (Hsame h (Config.symbol c)) as [Heq | [H1 H2]].
  - now rewrite Heq.
  - destruct (yf1 h (Config.symbol c)); try discriminate;
      destruct (yf2 h (Config.symbol c)); try discriminate; reflexivity.
Qed.

Lemma Total_update_fetched yf self w :
  fetched (snd (TotalPortfolioSensor.update yf self w))
  = fetched w ++ map Config.symbol (TotalPortfolioSensor.configs self).
Proof.
  unfold TotalPortfolioSensor.update, TotalPortfolioSensor.loop.
  pose proof (Total_fold_successes yf (TotalPortfolioSensor.configs self)
                TotalPortfolioSensor.totals0 w) as [_ Hf].
  destruct (fold_left (TotalPortfolioSensor.step yf)
              (TotalPortfolioSensor.configs self)
              (TotalPortfolioSensor.totals0, w)) as [acc w'].
  cbn [snd] in Hf.
  destruct (gain_percent_of _ _); exact Hf.
Qed.

Lemma Total_update_same yf1 yf2 self w1 w2 :
  (forall h t, same_answer (yf1 h t) (yf2 h t)) ->
  fetched w1 = fetched w2 ->
  fst (TotalPortfolioSensor.update yf1 self w1)
  = fst (TotalPortfolioSensor.update yf2 self w2).
Proof.
  intros Hsame Hw.
  destruct (Total_update_ok yf1 self w1) as [g1 [Hg1 Hu1]].
  destruct (Total_update_ok yf2 self w2) as [g2 [Hg2 Hu2]].
  rewrite Hu1, Hu2.
  rewrite Total_loop_successes in Hg1 |- *.
  rewrite Total_loop_successes in Hg2 |- *.
  rewrite Hw, (successes_same yf1 yf2 _ _ Hsame) in Hg1 |- *.
  rewrite Hg1 in Hg2. injection Hg2 as ->. reflexivity.
Qed.

Section UpdateAll.

Context {S : Type} (key : S -> string).
Context (update1 update2 : S -> World -> S * World).
Context (R : S -> S -> Prop).

Hypothesis fetched1 :
  forall s w, fetched (snd (update1 s w)) = fetched w ++ [key s].
Hypothesis fetched2 :
  forall s w, fetched (snd (update2 s w)) = fetched w ++ [key s].
Hypothesis related :
  forall s w1 w2,
    fetched w1 = fetched w2 -> R (fst (update1 s w1)) (fst (update2 s w2)).

Lemma update_all_fetched l w :
  fetched (snd (update_all update1 l w)) = fetched w ++ map key l.
Proof.
  revert w. induction l as [| s r IH]; intro w; cbn.
  - now rewrite app_nil_r.
  - pose proof (fetched1 s w) as H1.
    destruct (update1 s w) as [s' w']. cbn [snd] in H1.
    specialize (IH w').
    destruct (update_all update1 r w') as [r' w'']. cbn [snd] in *.
    rewrite IH, H1, <- app_assoc. reflexivity.
Qed.

Lemma update_all_related l w1 w2 :
  fetched w1 = fetched w2 ->
  Forall2 R (fst (update_all update1 l w1)) (fst (update_all update2 l w2)).
Proof.
  revert w1 w2. induction l as [| s r IH]; intros w1 w2 Hw; cbn.
  - constructor.
  - pose proof (fetched1 s w1) as H1. pose proof (fetched2 s w2) as H2.
    pose proof (related s w1 w2 Hw) as HR.
    destruct (update1 s w1) as [s1 w1'], (update2 s w2) as [s2 w2'].
    cbn [fst snd] in *.
    assert (Hw' : fetched w1' = fetched w2') by (rewrite H1, H2, Hw; auto).
    specialize (IH w1' w2' Hw').
    destruct (update_all update1 r w1') as [r1 w1''],
             (update_all update2 r w2') as [r2 w2''].
    cbn [fst] in *. constructor; assumption.
Qed.

End UpdateAll.

Lemma Forall2_eq_list {A : Type} (l1 l2 : list A) :
  Forall2 eq l1 l2 -> l1 = l2.
Proof. induction 1; congruence. Qed.

Lemma refresh_unfold yf p w :
  let ind := update_all (StockSensor.update yf) (individual_sensors p) w in
  let agg := update_all (AggregateStockSensor.update yf)
               (aggregate_sensors p) (snd ind) in
  let tot := update_total yf (total_sensor p) (snd agg) in
  refresh yf p w = (mkPlatform (fst ind) (fst agg) (fst tot), snd tot).
Proof.
  unfold refresh.
  destruct (update_all (StockSensor.update yf) (individual_sensors p) w)
    as [ind w1]. cbn [fst snd].
  destruct (update_all (AggregateStockSensor.update yf)
              (aggregate_sensors p) w1) as [agg w2]. cbn [fst snd].
  destruct (update_total yf (total_sensor p) w2) as [tot w3]. reflexivity.
Qed.

Lemma update_total_computed yf self w :
  exists self',
    fst (TotalPortfolioSensor.update yf self w) = Ok self'
    /\ fst (update_total yf self w) = self'.
Proof.
  destruct (Total_update_ok yf self w) as [g [_ Hu]].
  eexists. split; [exact Hu|].
  unfold update_total.
  destruct (TotalPortfolioSensor.update yf self w) as [r w'].
  cbn [fst] in Hu. now rewrite Hu.
Qed.

Lemma update_total_same yf1 yf2 self w1 w2 :
  (forall h t, same_answer (yf1 h t) (yf2 h t)) ->
  fetched w1 = fetched w2 ->
  fst (update_total yf1 self w1) = fst (update_total yf2 self w2).
Proof.
  intros Hsame Hw.
  destruct (update_total_computed yf1 self w1) as [s1 [Hu1 ->]].
  destruct (update_total_computed yf2 self w2) as [s2 [Hu2 ->]].
  rewrite (Total_update_same yf1 yf2 self w1 w2 Hsame Hw) in Hu1.
  congruence.
Qed.

Lemma refresh_same yf1 yf2 p w :
  (forall h t, same_answer (yf1 h t) (yf2 h t)) ->
  fst (refresh yf1 p w) = fst (refresh yf2 p w).
Proof.
  intro Hsame. rewrite !refresh_unfold. cbn [fst].
  assert (Hind :
            fst (update_all (StockSensor.update yf1) (individual_sensors p) w)
            = fst (update_all (StockSensor.update yf2)
                     (individual_sensors p) w)).
  { apply Forall2_eq_list.
    apply (update_all_related StockSensor.ticker);
      [apply StockSensor_update_fetched | apply StockSensor_update_fetched
      | | reflexivity].
    intros s w1 w2 Hw. apply StockSensor_update_same. rewrite Hw.
    apply Hsame. }
  set (w1 := snd (update_all (StockSensor.update yf1)
                    (individual_sensors p) w)).
  set (w2 := snd (update_all (StockSensor.update yf2)
                    (individual_sensors p) w)).
  assert (Hw12 : fetched w1 = fetched w2).
  { subst w1 w2.
    rewrite !(update_all_fetched StockSensor.ticker)
      by apply StockSensor_update_fetched.
    reflexivity. }
  assert (Hagg :
            fst (update_all (AggregateStockSensor.update yf1)
                   (aggregate_sensors p) w1)
            = fst (update_all (AggregateStockSensor.update yf2)
                     (aggregate_sensors p) w2)).
  { apply Forall2_eq_list.
    apply (update_all_related AggregateStockSensor.ticker);
      [apply Aggregate_update_fetched | apply Aggregate_update_fetched
      | | exact Hw12].
    intros s w1' w2' Hw. apply Aggregate_update_same. rewrite Hw.
    apply Hsame. }
  rewrite Hind, Hagg. f_equal.
  apply update_total_same; [exact Hsame|].
  rewrite !(update_all_fetched AggregateStockSensor.ticker)
    by apply Aggregate_update_fetched.
  now rewrite Hw12.
Qed.

Lemma refresh_others_unaffected yf1 yf2 t p w :
  (forall h t', t' <> t -> yf1 h t' = yf2 h t') ->
  Forall2 (fun s1 s2 => StockSensor.ticker s1 <> t -> s1 = s2)
    (individual_sensors (fst (refresh yf1 p w)))
    (individual_sensors (fst (refresh yf2 p w)))
  /\ Forall2 (fun s1 s2 => AggregateStockSensor.ticker s1 <> t -> s1 = s2)
       (aggregate_sensors (fst (refresh yf1 p w)))
       (aggregate_sensors (fst (refresh yf2 p w))).
Proof.
  intro Hoff. rewrite !refresh_unfold. cbn [fst individual_sensors
                                              aggregate_sensors].
  split.
  - apply (update_all_related StockSensor.ticker);
      [apply StockSensor_update_fetched | apply StockSensor_update_fetched
      | | reflexivity].
    intros s w1 w2 Hw Hne. rewrite StockSensor_update_ticker in Hne.
    apply StockSensor_update_same. left. rewrite Hw. now apply Hoff.
  - apply (update_all_related AggregateStockSensor.ticker);
      [apply Aggregate_update_fetched | apply Aggregate_update_fetched | |].
    + intros s w1 w2 Hw Hne. rewrite Aggregate_update_ticker in Hne.
      apply Aggregate_update_same. left. rewrite Hw. now apply Hoff.
    + rewrite !(update_all_fetched StockSensor.ticker)
        by apply StockSensor_update_fetched.
      reflexivity.
Qed.

(** What a [TotalPortfolioSensor.update] publishes, in terms of the
    holdings that got a price. *)
Lemma Total_update_published yf self w :
  let ok := successes yf (TotalPortfolioSensor.configs self) (fetched w) in
  exists g,
    gain_percent_of (sumQ (map value_of ok) - sumQ (map cost_of ok))
      (sumQ (map cost_of ok)) = Ok g
    /\ fst (TotalPortfolioSensor.update yf self w)
       = Ok (TotalPortfolioSensor.mk (TotalPortfolioSensor.configs self)
               (Some (round2 (sumQ (map value_of ok))))
               [ ("total_purchase_value",
                   VNum (round2 (sumQ (map cost_of ok))));
                 ("total_gain_loss",
                   VNum (round2 (sumQ (map value_of ok)
                                 - sumQ (map cost_of ok))));
                 ("total_gain_percent", VNum (round2 g));
                 ("by_stock",
                   VDict (Dict.map_values
                            (fun v =>
                               round2 (TotalPortfolioSensor.e_current_value v))
                            (TotalPortfolioSensor.per_stock
                               (fst (TotalPortfolioSensor.loop yf
                                       (TotalPortfolioSensor.configs self)
                                       w))))) ]%string).
Proof.
  intro ok.
  destruct (Total_update_ok yf self w) as [g [Hg Hu]].
  exists g. rewrite Hu. unfold TotalPortfolioSensor.publish.
  rewrite Total_loop_successes in Hg |- *. fold ok in Hg |- *.
  rewrite Total_acc_total_value, Total_acc_total_purchase_value in Hg |- *.
  split; [exact Hg | reflexivity].
Qed.

Lemma Total_by_stock_get yf configs w t :
  let ok := successes yf configs (fetched w) in
  Dict.get t
    (Dict.map_values
       (fun v => round2 (TotalPortfolioSensor.e_current_value v))
       (TotalPortfolioSensor.per_stock
          (fst (TotalPortfolioSensor.loop yf configs w))))
  = if has_ticker t ok
    then Some (round2 (sumQ (map value_of (of_ticker t ok))))
    else None.
Proof.
  intro ok. rewrite Dict_get_map_values, Total_loop_successes. fold ok.
  rewrite Total_acc_per_stock. cbn.
  destruct (has_ticker t ok); reflexivity.
Qed.

Lemma has_ticker_of_ticker t l :
  has_ticker t l = match of_ticker t l with [] => false | _ :: _ => true end.
Proof.
  unfold has_ticker, of_ticker.
  induction l as [| cp l IH]; [reflexivity|].
  cbn. now destruct (String.eqb t (Config.symbol (fst cp))).
Qed.

Lemma successes_stable quote configs h :
  successes (stable quote) configs h
  = flat_map (fun c => match quote (Config.symbol c) with
                       | Price p => [(c, p)]
                       | NoPrice | Raises _ => []
                       end) configs.
Proof.
  revert h. induction configs as [| c r IH]; intro h; [reflexivity|].
  cbn [successes flat_map]. unfold stable at 1.
  destruct (quote (Config.symbol c)); cbn [app]; now rewrite IH.
Qed.

(** The fetched holdings of a ticker do not depend on what the quote
    source does for another ticker. *)
Lemma of_ticker_successes_off yf1 yf2 t t' configs h :
  (forall h0 t0, t0 <> t -> yf1 h0 t0 = yf2 h0 t0) ->
  t' <> t ->
  of_ticker t' (successes yf1 configs h)
  = of_ticker t' (successes yf2 configs h).
Proof.
  intros Hoff Hne. revert h.
  induction configs as [| c r IH]; intro h; [reflexivity|].
  cbn [successes].
  destruct (string_dec (Config.symbol c) t) as [Ht | Ht].
  - assert (E : String.eqb t' (Config.symbol c) = false)
      by (apply String.eqb_neq; congruence).
    destruct (yf1 h (Config.symbol c)), (yf2 h (Config.symbol c));
      unfold of_ticker; cbn [filter fst]; rewrite ?E; apply IH.
  - rewrite (Hoff h _ Ht).
    destruct (yf2 h (Config.symbol c)); try apply IH.
    unfold of_ticker. cbn [filter fst].
    destruct (String.eqb t' (Config.symbol c)); [f_equal|]; apply IH.
Qed.

Lemma Total_by_stock_off_ticker yf1 yf2 t t' configs w1 w2 :
  (forall h0 t0, t0 <> t -> yf1 h0 t0 = yf2 h0 t0) ->
  fetched w1 = fetched w2 ->
  t' <> t ->
  Dict.get t'
    (Dict.map_values
       (fun v => round2 (TotalPortfolioSensor.e_current_value v))
       (TotalPortfolioSensor.per_stock
          (fst (TotalPortfolioSensor.loop yf1 configs w1))))
  = Dict.get t'
      (Dict.map_values
         (fun v => round2 (TotalPortfolioSensor.e_current_value v))
         (TotalPortfolioSensor.per_stock
            (fst (TotalPortfolioSensor.loop yf2 configs w2)))).
Proof.
  intros Hoff Hw Hne.
  rewrite !Total_by_stock_get, !has_ticker_of_ticker, Hw.
  now rewrite (of_ticker_successes_off yf1 yf2 t t' configs _ Hoff Hne).
Qed.

Lemma refresh_total_sensor yf p w :
  exists w2,
    fetched w2
    = fetched w ++ map StockSensor.ticker (individual_sensors p)
      ++ map AggregateStockSensor.ticker (aggregate_sensors p)
    /\ total_sensor (fst (refresh yf p w))
       = fst (update_total yf (total_sensor p) w2).
Proof.
  rewrite refresh_unfold. cbn [fst total_sensor].
  eexists. split; [|reflexivity].
  rewrite (update_all_fetched AggregateStockSensor.ticker)
    by apply Aggregate_update_fetched.
  rewrite (update_all_fetched StockSensor.ticker)
    by apply StockSensor_update_fetched.
  now rewrite <- app_assoc.
Qed.

Lemma successes_stable_without quote t configs h h' :
  (forall price, quote t <> Price price) ->
  successes (stable quote)
    (filter (fun c => negb (String.eqb t (Config.symbol c))) configs) h'
  = successes (stable quote) configs h.
Proof.
  intro Hfail. rewrite !successes_stable.
  induction configs as [| c r IH]; [reflexivity|].
  cbn [filter flat_map].
  destruct (String.eqb t (Config.symbol c)) eqn:E; cbn [negb flat_map].
  - apply String.eqb_eq in E. rewrite <- E.
    destruct (quote t) as [p | | e];
      [exfalso; exact (Hfail p eq_refl) | exact IH | exact IH].
  - now rewrite IH.
Qed.

(** C7.  An exception from the quote source is caught at each level and
    leaves the same state and attributes as an absent price: every sensor,
    and a whole evaluation cycle over the platform, ends the same under a
    quote source and under the one that answers [None] where the first
    raises.  What one ticker's fetch does changes no holding or symbol
    aggregate of another ticker, and the portfolio total is computed all
    the same: its state is always a number, its by_stock entries of the
    other tickers are the same whatever that ticker's fetch does, every
    holding whose own fetch gives a price is in its sums, and a ticker
    whose fetch always fails leaves the total as if its holdings were not
    configured. *)
Theorem transport_error_as_absent :
  (forall yf self w,
      fst (StockSensor.update yf self w)
      = fst (StockSensor.update (absent_for_raise yf) self w))
  /\ (forall yf self w,
         fst (AggregateStockSensor.update yf self w)
         = fst (AggregateStockSensor.update (absent_for_raise yf) self w))
  /\ (forall yf self w,
         fst (TotalPortfolioSensor.update yf self w)
         = fst (TotalPortfolioSensor.update (absent_for_raise yf) self w))
  /\ (forall yf p w,
         fst (refresh yf p w) = fst (refresh (absent_for_raise yf) p w))
  /\ (forall yf1 yf2 t p w,
         (forall h t', t' <> t -> yf1 h t' = yf2 h t') ->
         Forall2 (fun s1 s2 => StockSensor.ticker s1 <> t -> s1 = s2)
           (individual_sensors (fst (refresh yf1 p w)))
           (individual_sensors (fst (refresh yf2 p w)))
         /\ Forall2
              (fun s1 s2 => AggregateStockSensor.ticker s1 <> t -> s1 = s2)
              (aggregate_sensors (fst (refresh yf1 p w)))
              (aggregate_sensors (fst (refresh yf2 p w))))
  /\ (forall yf p w,
         exists v,
           TotalPortfolioSensor._state (total_sensor (fst (refresh yf p w)))
           = Some v)
  /\ (forall yf1 yf2 t p w,
         (forall h t', t' <> t -> yf1 h t' = yf2 h t') ->
         exists by_stock1 by_stock2,
           Dict.get "by_stock"
             (TotalPortfolioSensor._attrs
                (total_sensor (fst (refresh yf1 p w))))
           = Some (VDict by_stock1)
           /\ Dict.get "by_stock"
                (TotalPortfolioSensor._attrs
                   (total_sensor (fst (refresh yf2 p w))))
              = Some (VDict by_stock2)
           /\ forall t', t' <> t ->
                         Dict.get t' by_stock1 = Dict.get t' by_stock2)
  /\ (forall yf self w,
         let ok :=
           successes yf (TotalPortfolioSensor.configs self) (fetched w) in
         exists total by_stock,
           fst (TotalPortfolioSensor.update yf self w) = Ok total
           /\ TotalPortfolioSensor._state total
              = Some (round2 (sumQ (map value_of ok)))
           /\ Dict.get "total_purchase_value"
                (TotalPortfolioSensor._attrs total)
              = Some (VNum (round2 (sumQ (map cost_of ok))))
           /\ Dict.get "by_stock" (TotalPortfolioSensor._attrs total)
              = Some (VDict by_stock)
           /\ (forall t,
                  Dict.get t by_stock
                  = if has_ticker t ok
                    then Some (round2 (sumQ (map value_of (of_ticker t ok))))
                    else None)
           /\ forall before config after price,
               TotalPortfolioSensor.configs self = before ++ config :: after ->
               yf (fetched w ++ map Config.symbol before)
                 (Config.symbol config) = Price price ->
               In (config, price) ok)
  /\ (forall quote t self w w',
         (forall price, quote t <> Price price) ->
         let without :=
           TotalPortfolioSensor.init
             (filter (fun c => negb (String.eqb t (Config.symbol c)))
                (TotalPortfolioSensor.configs self)) in
         exists total total',
           fst (TotalPortfolioSensor.update (stable quote) self w) = Ok total
           /\ fst (TotalPortfolioSensor.update (stable quote) without w')
              = Ok total'
           /\ TotalPortfolioSensor._state total
              = TotalPortfolioSensor._state total'
           /\ TotalPortfolioSensor._attrs total
              = TotalPortfolioSensor._attrs total').
Proof.
  split.
  { intros. apply StockSensor_update_same, same_answer_absent_for_raise. }
  split.
  { intros. apply Aggregate_update_same, same_answer_absent_for_raise. }
  split.
  { intros. apply Total_update_same; [|reflexivity].
    intros h t. apply same_answer_absent_for_raise. }
  split.
  { intros. apply refresh_same.
    intros h t. apply same_answer_absent_for_raise. }
  split; [exact refresh_others_unaffected|].
  split.
  { intros yf p w. rewrite refresh_unfold. cbn [fst total_sensor].
    match goal with
    | |- context [update_total yf ?s ?w'] =>
        destruct (update_total_computed yf s w') as [s' [Hu ->]];
        destruct (Total_update_ok yf s w') as [g [_ Hp]]
    end.
    rewrite Hp in Hu. injection Hu as <-.
    eexists. reflexivity. }
  split.
  { intros yf1 yf2 t p w Hoff.
    destruct (refresh_total_sensor yf1 p w) as [w1 [Hw1 ->]].
    destruct (refresh_total_sensor yf2 p w) as [w2 [Hw2 ->]].
    destruct (update_total_computed yf1 (total_sensor p) w1)
      as [s1 [Hu1 ->]].
    destruct (update_total_computed yf2 (total_sensor p) w2)
      as [s2 [Hu2 ->]].
    destruct (Total_update_published yf1 (total_sensor p) w1)
      as [g1 [_ Hp1]].
    destruct (Total_update_published yf2 (total_sensor p) w2)
      as [g2 [_ Hp2]].
    rewrite Hp1 in Hu1. injection Hu1 as <-.
    rewrite Hp2 in Hu2. injection Hu2 as <-.
    do 2 eexists. split; [reflexivity|]. split; [reflexivity|].
    intros t' Hne.
    apply (Total_by_stock_off_ticker yf1 yf2 t t'); [exact Hoff | | exact Hne].
    now rewrite Hw1, Hw2. }
  split.
  { intros yf self w ok.
    destruct (Total_update_published yf self w) as [g [_ Hu]].
    do 2 eexists. split; [exact Hu|].
    split; [reflexivity|]. split; [reflexivity|]. split; [reflexivity|].
    split; [intro t; apply Total_by_stock_get|].
    intros before config after price Hsplit Hq.
    apply successes_In. now exists before, after. }
  intros quote t self w w' Hfail without.
  destruct (Total_update_published (stable quote) self w) as [g [Hg Hu]].
  destruct (Total_update_published (stable quote) without w')
    as [g' [Hg' Hu']].
  subst without. cbn [TotalPortfolioSensor.init TotalPortfolioSensor.configs]
    in Hg', Hu'.
  rewrite Total_loop_successes in Hu, Hu'.
  rewrite (successes_stable_without quote t _ (fetched w) (fetched w') Hfail)
    in Hg', Hu'.
  rewrite Hg in Hg'. injection Hg' as <-.
  do 2 eexists. split; [exact Hu|]. split; [exact Hu'|].
  split; reflexivity.
Qed.

Lemma transport_error_as_absent_witness :
  let yf1 : quote_source := fun _ _ => Price 150 in
  let yf2 : quote_source :=
    fun _ t => if String.eqb t "MSFT" then Raises "timeout" else Price 150 in
  let quote : string -> outcome :=
    fun t => if String.eqb t "MSFT" then Raises "timeout" else Price 150 in
  let stocks := [holding_A; holding_C; holding_B] in
  let p := setup_platform stocks in
  let w := mkWorld [] [] in
  (Forall2 (fun s1 s2 => StockSensor.ticker s1 <> "MSFT"%string -> s1 = s2)
     (individual_sensors (fst (refresh yf1 p w)))
     (individual_sensors (fst (refresh yf2 p w)))
   /\ Forall2
        (fun s1 s2 => AggregateStockSensor.ticker s1 <> "MSFT"%string
                      -> s1 = s2)
        (aggregate_sensors (fst (refresh yf1 p w)))
        (aggregate_sensors (fst (refresh yf2 p w))))
  /\ (exists by_stock1 by_stock2,
         Dict.get "by_stock"
           (TotalPortfolioSensor._attrs
              (total_sensor (fst (refresh yf1 p w))))
         = Some (VDict by_stock1)
         /\ Dict.get "by_stock"
              (TotalPortfolioSensor._attrs
                 (total_sensor (fst (refresh yf2 p w))))
            = Some (VDict by_stock2)
         /\ Dict.get "AAPL" by_stock1 = Dict.get "AAPL" by_stock2)
  /\ (exists total total',
         fst (TotalPortfolioSensor.update (stable quote)
                (TotalPortfolioSensor.init stocks) w) = Ok total
         /\ fst (TotalPortfolioSensor.update (stable quote)
                   (TotalPortfolioSensor.init [holding_A; holding_B]) w)
            = Ok total'
         /\ TotalPortfolioSensor._state total
            = TotalPortfolioSensor._state total'
         /\ TotalPortfolioSensor._attrs total
            = TotalPortfolioSensor._attrs total').
Proof.
  intros yf1 yf2 quote stocks p w.
  assert (Hoff : forall (h : list string) t',
             t' <> "MSFT"%string -> yf1 h t' = yf2 h t').
  { intros h t' Hne. subst yf1 yf2. cbv beta.
    destruct (String.eqb t' "MSFT") eqn:E; [|reflexivity].
    apply String.eqb_eq in E. contradiction. }
  destruct transport_error_as_absent
    as [_ [_ [_ [_ [Hothers [_ [Hby_stock [_ Hwithout]]]]]]]].
  split; [exact (Hothers yf1 yf2 "MSFT"%string p w Hoff)|].
  split.
  - destruct (Hby_stock yf1 yf2 "MSFT"%string p w Hoff)
      as [b1 [b2 [H1 [H2 H3]]]].
    exists b1, b2. split; [exact H1|]. split; [exact H2|].
    apply H3. discriminate.
  - apply (Hwithout quote "MSFT"%string (TotalPortfolioSensor.init stocks)
             w w).
    intros price H. discriminate H.
Defined.

(** ** Rounding of the published figures *)

Lemma values_rounded_map_values {V : Type} (f : V -> Q) (d : Dict.dict V) :
  values_rounded (Dict.map_values (fun v => round2 (f v)) d) = true.
Proof.
  unfold values_rounded, Dict.map_values.
  induction d as [| kv r IH]; cbn [map forallb snd]; [reflexivity|].
  now rewrite round2_two_decimals, IH.
Qed.

(** C8, as the code behaves.  Every figure the sensors compute and publish
    (the state, gain_loss, gain_percent, total_purchase_value,
    total_gain_loss, total_gain_percent and every by_stock entry) has at
    most two decimal digits; current_price is not among them: it is the
    fetched price, published as received. *)
Theorem computed_figures_two_decimals :
  (forall yf self w,
      state_rounded (StockSensor._state (fst (StockSensor.update yf self w)))
      = true)
  /\ (forall yf self w,
         state_rounded
           (AggregateStockSensor._state
              (fst (AggregateStockSensor.update yf self w))) = true)
  /\ (forall yf self w price,
         yf (fetched w) (StockSensor.ticker self) = Price price ->
         let attrs := StockSensor._attrs (fst (StockSensor.update yf self w)) in
         exists gain_loss gain_percent,
           Dict.get "gain_loss" attrs = Some (VNum gain_loss)
           /\ Dict.get "gain_percent" attrs = Some (VNum gain_percent)
           /\ two_decimals gain_loss = true
           /\ two_decimals gain_percent = true
           /\ Dict.get "current_price" attrs = Some (VNum price))
  /\ (forall yf self w price,
         yf (fetched w) (AggregateStockSensor.ticker self) = Price price ->
         let attrs :=
           AggregateStockSensor._attrs
             (fst (AggregateStockSensor.update yf self w)) in
         exists total_purchase_value gain_loss gain_percent,
           Dict.get "total_purchase_value" attrs
           = Some (VNum total_purchase_value)
           /\ Dict.get "gain_loss" attrs = Some (VNum gain_loss)
           /\ Dict.get "gain_percent" attrs = Some (VNum gain_percent)
           /\ two_decimals total_purchase_value = true
           /\ two_decimals gain_loss = true
           /\ two_decimals gain_percent = true
           /\ Dict.get "current_price" attrs = Some (VNum price))
  /\ (forall yf self w,
         exists self' total_purchase_value gain gain_percent by_stock,
           fst (TotalPortfolioSensor.update yf self w) = Ok self'
           /\ state_rounded (TotalPortfolioSensor._state self') = true
           /\ TotalPortfolioSensor._attrs self'
              = [ ("total_purchase_value", VNum total_purchase_value);
                  ("total_gain_loss", VNum gain);
                  ("total_gain_percent", VNum gain_percent);
                  ("by_stock", VDict by_stock) ]%string
           /\ two_decimals total_purchase_value = true
           /\ two_decimals gain = true
           /\ two_decimals gain_percent = true
           /\ values_rounded by_stock = true).
Proof.
  split.
  { intros yf self w. unfold StockSensor.update, fetch.
    destruct (yf (fetched w) (StockSensor.ticker self)); try reflexivity.
    destruct (StockSensor.compute self p); [|reflexivity].
    cbn. apply round2_two_decimals. }
  split.
  { intros yf self w. unfold AggregateStockSensor.update, fetch.
    destruct (yf (fetched w) (AggregateStockSensor.ticker self));
      try reflexivity.
    destruct (AggregateStockSensor.compute self p); [|reflexivity].
    cbn. apply round2_two_decimals. }
  split.
  { intros yf self w price Hq attrs. subst attrs.
    destruct (StockSensor_compute_ok self price) as [v Hc].
    rewrite (StockSensor_update_price _ _ _ _ _ Hq Hc). cbn.
    do 2 eexists. repeat split; apply round2_two_decimals. }
  split.
  { intros yf self w price Hq attrs. subst attrs.
    destruct (Aggregate_compute_ok self price) as [v [Hc _]].
    rewrite (Aggregate_update_price _ _ _ _ _ Hq Hc). cbn.
    do 3 eexists. repeat split; apply round2_two_decimals. }
  intros yf self w.
  destruct (Total_update_ok yf self w) as [g [_ Hu]].
  do 5 eexists. split; [exact Hu|]. cbn.
  split; [apply round2_two_decimals|].
  split; [reflexivity|].
  repeat split; try apply round2_two_decimals.
  apply (values_rounded_map_values TotalPortfolioSensor.e_current_value).
Qed.

Lemma computed_figures_two_decimals_witness :
  let yf : quote_source := fun _ _ => Price (150123 # 1000) in
  let w := mkWorld [] [] in
  let attrs :=
    StockSensor._attrs (fst (StockSensor.update yf
                               (StockSensor.init holding_A) w)) in
  let attrs' :=
    AggregateStockSensor._attrs
      (fst (AggregateStockSensor.update yf
              (AggregateStockSensor.init "AAPL" [holding_A; holding_B]) w)) in
  (exists gain_loss gain_percent,
      Dict.get "gain_loss" attrs = Some (VNum gain_loss)
      /\ Dict.get "gain_percent" attrs = Some (VNum gain_percent)
      /\ two_decimals gain_loss = true
      /\ two_decimals gain_percent = true
      /\ Dict.get "current_price" attrs = Some (VNum (150123 # 1000)))
  /\ (exists total_purchase_value gain_loss gain_percent,
         Dict.get "total_purchase_value" attrs'
         = Some (VNum total_purchase_value)
         /\ Dict.get "gain_loss" attrs' = Some (VNum gain_loss)
         /\ Dict.get "gain_percent" attrs' = Some (VNum gain_percent)
         /\ two_decimals total_purchase_value = true
         /\ two_decimals gain_loss = true
         /\ two_decimals gain_percent = true
         /\ Dict.get "current_price" attrs' = Some (VNum (150123 # 1000))).
Proof.
  intros yf w attrs attrs'.
  destruct computed_figures_two_decimals as [_ [_ [Hs [Ha _]]]].
  split.
  - apply (Hs yf (StockSensor.init holding_A) w (150123 # 1000)).
    reflexivity.
  - apply (Ha yf (AggregateStockSensor.init "AAPL" [holding_A; holding_B]) w
             (150123 # 1000)).
    reflexivity.
Defined.

(** C8 as the specification words it does not hold: at a quote of 150.123
    the holding publishes current_price 150.123, which has three decimal
    digits. *)
Lemma current_price_not_rounded :
  let attrs :=
    StockSensor.extra_state_attributes
      (fst (StockSensor.update (fun _ _ => Price (150123 # 1000))
              (StockSensor.init holding_A) (mkWorld [] []))) in
  Dict.get "current_price" attrs = Some (VNum (150123 # 1000))
  /\ two_decimals (150123 # 1000) = false.
Proof. split; reflexivity. Qed.

(** ** setup_platform and the number of fetches *)

Lemma collect_fold_lists stocks c :
  c_individual_sensors (fold_left collect stocks c)
  = c_individual_sensors c ++ map StockSensor.init stocks
  /\ total_portfolio_data (fold_left collect stocks c)
     = total_portfolio_data c ++ stocks.
Proof.
  revert c. induction stocks as [| s r IH]; intro c; cbn.
  - now rewrite !app_nil_r.
  - destruct (IH (collect c s)) as [H1 H2]. rewrite H1, H2. cbn.
    now rewrite <- !app_assoc.
Qed.

Lemma collect_keys c s :
  Dict.keys (aggregate_data (collect c s))
  = if Dict.mem (Config.symbol s) (aggregate_data c)
    then Dict.keys (aggregate_data c)
    else Dict.keys (aggregate_data c) ++ [Config.symbol s].
Proof.
  unfold collect. cbn [aggregate_data]. rewrite Dict_keys_adjust.
  destruct (Dict.mem (Config.symbol s) (aggregate_data c)) eqn:E;
    [reflexivity|].
  rewrite Dict_keys_set. now rewrite E.
Qed.

Lemma collect_fold_keys stocks c :
  NoDup (Dict.keys (aggregate_data c)) ->
  NoDup (Dict.keys (aggregate_data (fold_left collect stocks c)))
  /\ forall t,
      In t (Dict.keys (aggregate_data (fold_left collect stocks c)))
      <-> In t (Dict.keys (aggregate_data c))
          \/ In t (map Config.symbol stocks).
Proof.
  revert c. induction stocks as [| s r IH]; intros c Hnd; cbn [fold_left map].
  - split; [exact Hnd | intro t; cbn; tauto].
  - assert (Hnd' : NoDup (Dict.keys (aggregate_data (collect c s)))).
    { rewrite collect_keys.
      destruct (Dict.mem (Config.symbol s) (aggregate_data c)) eqn:E;
        [exact Hnd|].
      apply NoDup_app; [exact Hnd | repeat constructor; intros [] |].
      intros x Hx [<- | []].
      apply Dict_mem_In_keys in Hx. congruence. }
    destruct (IH (collect c s) Hnd') as [H1 H2].
    split; [exact H1|].
    intro t. rewrite H2, collect_keys.
    destruct (Dict.mem (Config.symbol s) (aggregate_data c)) eqn:E.
    + apply Dict_mem_In_keys in E. cbn.
      split; [tauto | intros [H | [<- | H]]; tauto].
    + rewrite in_app_iff. cbn. tauto.
Qed.

Lemma collect_get c s t :
  Dict.get t (aggregate_data (collect c s))
  = if String.eqb t (Config.symbol s)
    then Some (Dict.get_or t [] (aggregate_data c) ++ [s])
    else Dict.get t (aggregate_data c).
Proof.
  unfold collect. cbn [aggregate_data].
  destruct (String.eqb t (Config.symbol s)) eqn:E.
  - apply String.eqb_eq in E. subst t.
    rewrite Dict_get_adjust_eq. unfold Dict.mem, Dict.get_or.
    destruct (Dict.get (Config.symbol s) (aggregate_data c)) eqn:G.
    + now rewrite G.
    + now rewrite Dict_get_set_eq.
  - rewrite (Dict_get_adjust_neq _ _ _ _ E).
    destruct (Dict.mem (Config.symbol s) (aggregate_data c));
      [reflexivity | now apply Dict_get_set_neq].
Qed.

Lemma collect_fold_get stocks c t :
  Dict.get t (aggregate_data (fold_left collect stocks c))
  = if Dict.mem t (aggregate_data c)
       || existsb (fun s => String.eqb t (Config.symbol s)) stocks
    then Some (Dict.get_or t [] (aggregate_data c)
               ++ filter (fun s => String.eqb t (Config.symbol s)) stocks)
    else None.
Proof.
  revert c. induction stocks as [| s r IH]; intro c.
  - cbn. unfold Dict.mem, Dict.get_or.
    destruct (Dict.get t (aggregate_data c)); cbn;
      [now rewrite app_nil_r | reflexivity].
  - cbn [fold_left existsb filter]. rewrite IH. clear IH.
    unfold Dict.mem, Dict.get_or. rewrite collect_get.
    destruct (String.eqb t (Config.symbol s)) eqn:E.
    + rewrite orb_true_r. cbn. now rewrite <- app_assoc.
    + rewrite orb_false_l. reflexivity.
Qed.

Lemma Dict_get_In {V : Type} (d : Dict.dict V) :
  NoDup (Dict.keys d) ->
  Forall (fun kv => Dict.get (fst kv) d = Some (snd kv)) d.
Proof.
  unfold Dict.keys.
  induction d as [| [k v] r IH]; intro Hnd; constructor.
  - cbn. now rewrite String.eqb_refl.
  - inversion Hnd as [| ? ? Hnotin Hnd']; subst.
    specialize (IH Hnd'). rewrite Forall_forall in IH |- *.
    intros [k' v'] Hin. cbn.
    destruct (String.eqb k' k) eqn:E.
    + apply String.eqb_eq in E. subst k'. exfalso. apply Hnotin.
      apply (in_map fst) in Hin. exact Hin.
    + apply (IH _ Hin).
Qed.

Lemma count_occ_map_symbol (configs : list Config.stock_config) t :
  count_occ string_dec (map Config.symbol configs) t
  = List.length (filter (fun c => String.eqb t (Config.symbol c)) configs).
Proof.
  induction configs as [| c r IH]; cbn; [reflexivity|].
  destruct (string_dec (Config.symbol c) t) as [<- | Hne].
  - rewrite String.eqb_refl. cbn. now rewrite IH.
  - destruct (String.eqb t (Config.symbol c)) eqn:E; [|exact IH].
    apply String.eqb_eq in E. congruence.
Qed.

Lemma count_occ_NoDup_existsb (l : list string) t :
  NoDup l ->
  count_occ string_dec l t
  = if existsb (String.eqb t) l then 1%nat else 0%nat.
Proof.
  induction 1 as [| x l Hnotin Hnd IH]; cbn; [reflexivity|].
  destruct (string_dec x t) as [<- | Hne].
  - rewrite String.eqb_refl. cbn.
    apply (count_occ_not_In string_dec) in Hnotin. now rewrite Hnotin.
  - destruct (String.eqb t x) eqn:E.
    + apply String.eqb_eq in E. congruence.
    + exact IH.
Qed.

Lemma existsb_eqb_In (l : list string) t :
  existsb (String.eqb t) l = true <-> In t l.
Proof.
  rewrite existsb_exists. split.
  - intros [x [Hin E]]. apply String.eqb_eq in E. now subst.
  - intro Hin. exists t. split; [exact Hin | apply String.eqb_refl].
Qed.

Lemma setup_platform_tickers stocks :
  let tickers :=
    map AggregateStockSensor.ticker (aggregate_sensors (setup_platform stocks))
  in
  NoDup tickers
  /\ forall t, In t tickers <-> In t (map Config.symbol stocks).
Proof.
  cbv zeta. unfold setup_platform. cbn [aggregate_sensors].
  rewrite map_map. cbn [AggregateStockSensor.init AggregateStockSensor.ticker].
  destruct (collect_fold_keys stocks (mkCollected [] [] [])) as [H1 H2];
    [constructor|].
  split; [exact H1|].
  intro t. unfold Dict.keys in H2. rewrite H2. cbn. tauto.
Qed.

Lemma setup_platform_configs stocks :
  Forall
    (fun s =>
       AggregateStockSensor.configs s
       = filter (fun c => String.eqb (AggregateStockSensor.ticker s)
                            (Config.symbol c)) stocks)
    (aggregate_sensors (setup_platform stocks)).
Proof.
  unfold setup_platform. cbn [aggregate_sensors].
  destruct (collect_fold_keys stocks (mkCollected [] [] [])) as [Hnd _];
    [constructor|].
  apply Dict_get_In in Hnd.
  apply Forall_map. revert Hnd. apply Forall_impl.
  intros [t l] Hget. cbn in *.
  rewrite collect_fold_get in Hget. cbn in Hget.
  destruct (existsb _ stocks); congruence.
Qed.

Lemma setup_platform_total stocks :
  TotalPortfolioSensor.configs (total_sensor (setup_platform stocks)) = stocks.
Proof.
  unfold setup_platform. cbn.
  destruct (collect_fold_lists stocks (mkCollected [] [] [])) as [_ H].
  exact H.
Qed.


(** * Further properties of the code *)

(** ** Rounding *)

Lemma round_half_even_compat (x y : Q) :
  x == y -> round_half_even x = round_half_even y.
Proof.
  intro H. unfold round_half_even.
  rewrite (Qfloor_comp _ _ H).
  assert (E : x - inject_Z (Qfloor y) == y - inject_Z (Qfloor y))
    by now rewrite H.
  now rewrite (Qcompare_comp _ _ E (1 # 2) (1 # 2) (Qeq_refl _)).
Qed.

Lemma round2_compat (x y : Q) : x == y -> round2 x = round2 y.
Proof.
  intro H. unfold round2. apply Qred_complete.
  assert (E : x * 100 == y * 100) by now rewrite H.
  now rewrite (round_half_even_compat _ _ E).
Qed.

Lemma round_half_even_near (y : Q) :
  y - (1 # 2) <= inject_Z (round_half_even y)
  /\ inject_Z (round_half_even y) <= y + (1 # 2).
Proof.
  unfold round_half_even.
  pose proof (Qfloor_le y) as Hlo. pose proof (Qlt_floor y) as Hhi.
  rewrite inject_Z_plus in Hhi.
  change (inject_Z 1) with 1 in Hhi.
  destruct (Qcompare (y - inject_Z (Qfloor y)) (1 # 2)) eqn:E.
  - apply Qeq_alt in E.
    destruct (Z.even (Qfloor y));
      rewrite ?inject_Z_plus; change (inject_Z 1) with 1; lra.
  - apply Qlt_alt in E. lra.
  - apply Qgt_alt in E. rewrite inject_Z_plus.
    change (inject_Z 1) with 1. lra.
Qed.

Lemma round2_near (x : Q) :
  x - (1 # 200) <= round2 x /\ round2 x <= x + (1 # 200).
Proof.
  pose proof (round_half_even_near (x * 100)) as [Hlo Hhi].
  rewrite round2_is_hundredth.
  set (k := inject_Z (round_half_even (x * 100))) in *.
  split.
  - apply Qle_shift_div_l; [reflexivity | lra].
  - apply Qle_shift_div_r; [reflexivity | lra].
Qed.

Lemma round2_exact (x : Q) : two_decimals x = true -> round2 x == x.
Proof.
  unfold two_decimals. intro H. apply Qeq_bool_iff in H.
  rewrite round2_is_hundredth.
  assert (E : round_half_even (x * 100) = Qfloor (x * 100)).
  { unfold round_half_even.
    assert (L : Qcompare (x * 100 - inject_Z (Qfloor (x * 100))) (1 # 2)
                = Lt)
      by (apply (proj1 (Qlt_alt _ _)); lra).
    now rewrite L. }
  rewrite E, H. field.
Qed.

(** X1.  The state a sensor publishes is within half a cent of the value
    it computed: price * shares for a holding, price * total shares for a
    symbol aggregate, the sum over the fetched holdings for the
    portfolio. *)
Theorem state_within_half_cent :
  (forall yf self w price,
      yf (fetched w) (StockSensor.ticker self) = Price price ->
      exists v,
        StockSensor._state (fst (StockSensor.update yf self w)) = Some v
        /\ price * StockSensor.shares self - (1 # 200) <= v
        /\ v <= price * StockSensor.shares self + (1 # 200))
  /\ (forall yf self w price,
         yf (fetched w) (AggregateStockSensor.ticker self) = Price price ->
         let total := sumQ (map Config.shares
                              (AggregateStockSensor.configs self)) in
         exists v,
           AggregateStockSensor._state
             (fst (AggregateStockSensor.update yf self w)) = Some v
           /\ price * total - (1 # 200) <= v
           /\ v <= price * total + (1 # 200))
  /\ (forall yf self w,
         let total :=
           sumQ (map value_of
                   (successes yf (TotalPortfolioSensor.configs self)
                      (fetched w))) in
         exists self' v,
           fst (TotalPortfolioSensor.update yf self w) = Ok self'
           /\ TotalPortfolioSensor._state self' = Some v
           /\ total - (1 # 200) <= v
           /\ v <= total + (1 # 200)).
Proof.
  split.
  { intros yf self w price Hq.
    destruct (StockSensor_compute_ok self price) as [v Hc].
    rewrite (StockSensor_update_price _ _ _ _ _ Hq Hc).
    unfold StockSensor.compute in Hc.
    destruct (gain_percent_of _ _); [|discriminate Hc].
    injection Hc as <-. cbn [fst StockSensor._state StockSensor.set_state_attrs
                               StockSensor.current_value].
    eexists. split; [reflexivity | apply round2_near]. }
  split.
  { intros yf self w price Hq total.
    destruct (Aggregate_compute_ok self price) as [v [Hc [Hs Hv]]].
    rewrite (Aggregate_update_price _ _ _ _ _ Hq Hc).
    cbn [fst AggregateStockSensor._state AggregateStockSensor.set_state_attrs].
    eexists. split; [reflexivity|].
    rewrite Hv, Hs. unfold AggregateStockSensor.loop.
    rewrite Aggregate_fold_total_shares. apply round2_near. }
  intros yf self w total.
  destruct (Total_update_published yf self w) as [g [_ Hu]].
  do 2 eexists. split; [exact Hu|]. split; [reflexivity|].
  apply round2_near.
Qed.

Lemma state_within_half_cent_witness :
  let yf : quote_source := fun _ _ => Price (150123 # 1000) in
  let w := mkWorld [] [] in
  (exists v,
      StockSensor._state
        (fst (StockSensor.update yf (StockSensor.init holding_C) w)) = Some v
      /\ (150123 # 1000) * 3 - (1 # 200) <= v
      /\ v <= (150123 # 1000) * 3 + (1 # 200))
  /\ (exists v,
         AggregateStockSensor._state
           (fst (AggregateStockSensor.update yf
                   (AggregateStockSensor.init "AAPL" [holding_A; holding_B])
                   w)) = Some v
         /\ (150123 # 1000) * sumQ [10; 5] - (1 # 200) <= v
         /\ v <= (150123 # 1000) * sumQ [10; 5] + (1 # 200)).
Proof.
  intros yf w.
  destruct state_within_half_cent as [Hs [Ha _]].
  split.
  - apply (Hs yf (StockSensor.init holding_C) w (150123 # 1000)).
    reflexivity.
  - apply (Ha yf (AggregateStockSensor.init "AAPL" [holding_A; holding_B]) w
             (150123 # 1000)).
    reflexivity.
Defined.

(** X2.  When the computed value already has at most two decimal digits,
    the published state is that value, unchanged by the rounding. *)
Theorem state_exact_on_cents :
  (forall yf self w price,
      yf (fetched w) (StockSensor.ticker self) = Price price ->
      two_decimals (price * StockSensor.shares self) = true ->
      exists v,
        StockSensor._state (fst (StockSensor.update yf self w)) = Some v
        /\ v == price * StockSensor.shares self)
  /\ (forall yf self w price,
         yf (fetched w) (AggregateStockSensor.ticker self) = Price price ->
         let total := sumQ (map Config.shares
                              (AggregateStockSensor.configs self)) in
         two_decimals (price * total) = true ->
         exists v,
           AggregateStockSensor._state
             (fst (AggregateStockSensor.update yf self w)) = Some v
           /\ v == price * total)
  /\ (forall yf self w,
         let total :=
           sumQ (map value_of
                   (successes yf (TotalPortfolioSensor.configs self)
                      (fetched w))) in
         two_decimals total = true ->
         exists self' v,
           fst (TotalPortfolioSensor.update yf self w) = Ok self'
           /\ TotalPortfolioSensor._state self' = Some v
           /\ v == total).
Proof.
  split.
  { intros yf self w price Hq H2.
    destruct (StockSensor_compute_ok self price) as [v Hc].
    rewrite (StockSensor_update_price _ _ _ _ _ Hq Hc).
    unfold StockSensor.compute in Hc.
    destruct (gain_percent_of _ _); [|discriminate Hc].
    injection Hc as <-. cbn [fst StockSensor._state StockSensor.set_state_attrs
                               StockSensor.current_value].
    eexists. split; [reflexivity | now apply round2_exact]. }
  split.
  { intros yf self w price Hq total H2.
    destruct (Aggregate_compute_ok self price) as [v [Hc [Hs Hv]]].
    rewrite (Aggregate_update_price _ _ _ _ _ Hq Hc).
    cbn [fst AggregateStockSensor._state AggregateStockSensor.set_state_attrs].
    eexists. split; [reflexivity|].
    rewrite Hv, Hs. unfold AggregateStockSensor.loop.
    rewrite Aggregate_fold_total_shares. now apply round2_exact. }
  intros yf self w total H2.
  destruct (Total_update_published yf self w) as [g [_ Hu]].
  do 2 eexists. split; [exact Hu|]. split; [reflexivity|].
  now apply round2_exact.
Qed.

Lemma state_exact_on_cents_witness :
  let yf : quote_source := fun _ _ => Price (15025 # 100) in
  let w := mkWorld [] [] in
  (exists v,
      StockSensor._state
        (fst (StockSensor.update yf (StockSensor.init holding_C) w)) = Some v
      /\ v == (15025 # 100) * 3)
  /\ (exists v,
         AggregateStockSensor._state
           (fst (AggregateStockSensor.update yf
                   (AggregateStockSensor.init "AAPL" [holding_A; holding_B])
                   w)) = Some v
         /\ v == (15025 # 100) * sumQ [10; 5])
  /\ (exists self' v,
         fst (TotalPortfolioSensor.update yf
                (TotalPortfolioSensor.init [holding_A; holding_C]) w)
         = Ok self'
         /\ TotalPortfolioSensor._state self' = Some v
         /\ v == sumQ [(15025 # 100) * 10; (15025 # 100) * 3]).
Proof.
  intros yf w.
  destruct state_exact_on_cents as [Hs [Ha Ht]].
  split; [|split].
  - apply (Hs yf (StockSensor.init holding_C) w (15025 # 100));
      reflexivity.
  - apply (Ha yf (AggregateStockSensor.init "AAPL" [holding_A; holding_B]) w
             (15025 # 100)); reflexivity.
  - apply (Ht yf (TotalPortfolioSensor.init [holding_A; holding_C]) w).
    reflexivity.
Defined.

(** ** Edge cases of the guards *)

Lemma has_ticker_In cp ok :
  In cp ok -> has_ticker (Config.symbol (fst cp)) ok = true.
Proof.
  intro Hin. unfold has_ticker. apply existsb_exists.
  exists cp. split; [exact Hin | apply String.eqb_refl].
Qed.

(** X3.  The test on the fetched price is [price is None], not its truth
    value: a price of 0 is a price.  The holding then has state 0 (not
    unset), gain_loss minus its purchase value and, for a non-zero
    purchase value, gain_percent -100; in the portfolio a holding fetched
    at price 0 still has its ticker in by_stock. *)
Theorem zero_price_is_a_price :
  (forall yf self w,
      yf (fetched w) (StockSensor.ticker self) = Price 0 ->
      ~ StockSensor.purchase_price self * StockSensor.shares self == 0 ->
      let self' := fst (StockSensor.update yf self w) in
      StockSensor._state self' = Some 0
      /\ Dict.get "gain_loss" (StockSensor._attrs self')
         = Some (VNum (round2 (- (StockSensor.purchase_price self
                                  * StockSensor.shares self))))
      /\ Dict.get "gain_percent" (StockSensor._attrs self')
         = Some (VNum (-100 # 1)))
  /\ (forall yf self w config,
         In (config, 0)
           (successes yf (TotalPortfolioSensor.configs self) (fetched w)) ->
         exists self' by_stock v,
           fst (TotalPortfolioSensor.update yf self w) = Ok self'
           /\ Dict.get "by_stock" (TotalPortfolioSensor._attrs self')
              = Some (VDict by_stock)
           /\ Dict.get (Config.symbol config) by_stock = Some v).
Proof.
  split.
  - intros yf self w Hq Hnz self'. subst self'.
    set (pv := StockSensor.purchase_price self * StockSensor.shares self)
      in *.
    assert (Hc : StockSensor.compute self 0
                 = Ok (StockSensor.mkValues (0 * StockSensor.shares self) pv
                         (0 * StockSensor.shares self - pv)
                         ((0 * StockSensor.shares self - pv) / pv * 100))).
    { unfold StockSensor.compute. fold pv.
      now rewrite gain_percent_of_nonzero. }
    rewrite (StockSensor_update_price _ _ _ _ _ Hq Hc).
    cbn [fst StockSensor._state StockSensor._attrs StockSensor.set_state_attrs
           StockSensor.attrs StockSensor.current_value StockSensor.gain_loss
           StockSensor.gain_percent].
    split; [|split].
    + rewrite (round2_compat _ 0) by ring. reflexivity.
    + change (Some (VNum (round2 (0 * StockSensor.shares self - pv)))
              = Some (VNum (round2 (- pv)))).
      do 2 f_equal. apply round2_compat. ring.
    + change (Some (VNum (round2 ((0 * StockSensor.shares self - pv)
                                  / pv * 100)))
              = Some (VNum (-100 # 1))).
      do 2 f_equal. rewrite (round2_compat _ (-100 # 1)); [reflexivity|].
      field. exact Hnz.
  - intros yf self w config Hin.
    destruct (Total_update_published yf self w) as [g [_ Hu]].
    do 3 eexists. split; [exact Hu|]. cbn.
    split; [reflexivity|].
    rewrite Total_by_stock_get.
    pose proof (has_ticker_In (config, 0) _ Hin) as Hhas.
    cbn [fst] in Hhas. now rewrite Hhas.
Qed.

Lemma zero_price_is_a_price_witness :
  let yf : quote_source := fun _ _ => Price 0 in
  let w := mkWorld [] [] in
  (let self' := fst (StockSensor.update yf (StockSensor.init holding_A) w) in
   StockSensor._state self' = Some 0
   /\ Dict.get "gain_loss" (StockSensor._attrs self')
      = Some (VNum (-1000 # 1))
   /\ Dict.get "gain_percent" (StockSensor._attrs self')
      = Some (VNum (-100 # 1)))
  /\ exists self' by_stock v,
      fst (TotalPortfolioSensor.update yf
             (TotalPortfolioSensor.init [holding_A]) w) = Ok self'
      /\ Dict.get "by_stock" (TotalPortfolioSensor._attrs self')
         = Some (VDict by_stock)
      /\ Dict.get "AAPL" by_stock = Some v.
Proof.
  intros yf w.
  destruct zero_price_is_a_price as [Hs Ht].
  split.
  - apply (Hs yf (StockSensor.init holding_A) w); [reflexivity|].
    intro H. discriminate H.
  - apply (Ht yf (TotalPortfolioSensor.init [holding_A]) w holding_A).
    left. reflexivity.
Defined.

(** X4.  The guard tests the purchase value for zero only.  For every
    non-zero purchase value, negative ones included, each of the three
    sensors publishes gain_percent = round(gain / purchase value * 100, 2),
    with gain the computed value minus the purchase value. *)
Theorem gain_percent_on_nonzero_cost_basis :
  (forall yf self w price,
      yf (fetched w) (StockSensor.ticker self) = Price price ->
      let pv := StockSensor.purchase_price self * StockSensor.shares self in
      ~ pv == 0 ->
      Dict.get "gain_percent"
        (StockSensor._attrs (fst (StockSensor.update yf self w)))
      = Some (VNum (round2 ((price * StockSensor.shares self - pv)
                            / pv * 100))))
  /\ (forall yf self w price,
         yf (fetched w) (AggregateStockSensor.ticker self) = Price price ->
         let total_shares :=
           sumQ (map Config.shares (AggregateStockSensor.configs self)) in
         let pv :=
           sumQ (map (fun c => Config.shares c * Config.purchase_price c)
                   (AggregateStockSensor.configs self)) in
         ~ pv == 0 ->
         Dict.get "gain_percent"
           (AggregateStockSensor._attrs
              (fst (AggregateStockSensor.update yf self w)))
         = Some (VNum (round2 ((price * total_shares - pv) / pv * 100))))
  /\ (forall yf self w,
         let ok :=
           successes yf (TotalPortfolioSensor.configs self) (fetched w) in
         let pv := sumQ (map cost_of ok) in
         ~ pv == 0 ->
         exists self',
           fst (TotalPortfolioSensor.update yf self w) = Ok self'
           /\ Dict.get "total_gain_percent"
                (TotalPortfolioSensor._attrs self')
              = Some (VNum (round2 ((sumQ (map value_of ok) - pv)
                                    / pv * 100)))).
Proof.
  split.
  { intros yf self w price Hq pv Hnz.
    assert (Hc : StockSensor.compute self price
                 = Ok (StockSensor.mkValues
                         (price * StockSensor.shares self) pv
                         (price * StockSensor.shares self - pv)
                         ((price * StockSensor.shares self - pv)
                          / pv * 100))).
    { unfold StockSensor.compute. fold pv.
      now rewrite gain_percent_of_nonzero. }
    rewrite (StockSensor_update_price _ _ _ _ _ Hq Hc). reflexivity. }
  split.
  { intros yf self w price Hq total_shares pv Hnz.
    assert (Hs : AggregateStockSensor.loop (AggregateStockSensor.configs self)
                 = AggregateStockSensor.loop
                     (AggregateStockSensor.configs self)) by reflexivity.
    assert (Hts : AggregateStockSensor.total_shares
                    (AggregateStockSensor.loop
                       (AggregateStockSensor.configs self)) = total_shares)
      by apply Aggregate_fold_total_shares.
    assert (Hpv : AggregateStockSensor.total_purchase_value
                    (AggregateStockSensor.loop
                       (AggregateStockSensor.configs self)) = pv)
      by apply Aggregate_fold_total_purchase_value.
    assert (Hc : AggregateStockSensor.compute self price
                 = Ok (AggregateStockSensor.mkValues
                         (AggregateStockSensor.loop
                            (AggregateStockSensor.configs self))
                         (price * total_shares)
                         (price * total_shares - pv)
                         ((price * total_shares - pv) / pv * 100))).
    { unfold AggregateStockSensor.compute. rewrite Hts, Hpv.
      now rewrite gain_percent_of_nonzero. }
    rewrite (Aggregate_update_price _ _ _ _ _ Hq Hc). reflexivity. }
  intros yf self w ok pv Hnz.
  destruct (Total_update_published yf self w) as [g [Hg Hu]].
  fold ok in Hg. fold pv in Hg.
  rewrite gain_percent_of_nonzero in Hg by exact Hnz.
  injection Hg as <-.
  eexists. split; [exact Hu | reflexivity].
Qed.

Lemma gain_percent_on_nonzero_cost_basis_witness :
  let yf : quote_source := fun _ _ => Price 150 in
  let w := mkWorld [] [] in
  Dict.get "gain_percent"
    (StockSensor._attrs
       (fst (StockSensor.update yf (StockSensor.init holding_short) w)))
  = Some (VNum 50)
  /\ Dict.get "gain_percent"
       (AggregateStockSensor._attrs
          (fst (AggregateStockSensor.update yf
                  (AggregateStockSensor.init "AAPL" [holding_short]) w)))
     = Some (VNum 50)
  /\ exists self',
      fst (TotalPortfolioSensor.update yf
             (TotalPortfolioSensor.init [holding_short]) w) = Ok self'
      /\ Dict.get "total_gain_percent" (TotalPortfolioSensor._attrs self')
         = Some (VNum 50).
Proof.
  intros yf w.
  destruct gain_percent_on_nonzero_cost_basis as [Hs [Ha Ht]].
  split; [|split].
  - apply (Hs yf (StockSensor.init holding_short) w 150); [reflexivity|].
    intro H. discriminate H.
  - apply (Ha yf (AggregateStockSensor.init "AAPL" [holding_short]) w 150);
      [reflexivity|].
    intro H. discriminate H.
  - apply (Ht yf (TotalPortfolioSensor.init [holding_short]) w).
    intro H. discriminate H.
Defined.

(** ** The entities [setup_platform] creates *)

Lemma collect_fold_snoc stocks s c :
  fold_left collect (stocks ++ [s]) c = collect (fold_left collect stocks c) s.
Proof. now rewrite fold_left_app. Qed.

Lemma collect_fold_first_occurrences stocks :
  Dict.keys (aggregate_data (fold_left collect stocks (mkCollected [] [] [])))
  = rev (nodup string_dec (rev (map Config.symbol stocks))).
Proof.
  induction stocks as [| s l IH] using rev_ind; [reflexivity|].
  rewrite collect_fold_snoc, collect_keys, IH.
  rewrite map_app, rev_app_distr. cbn [map rev app nodup].
  destruct (collect_fold_keys l (mkCollected [] [] [])) as [_ Hin];
    [constructor|].
  destruct (Dict.mem (Config.symbol s) _) eqn:E.
  - apply Dict_mem_In_keys, Hin in E. destruct E as [[] | E].
    destruct (in_dec string_dec (Config.symbol s) (rev (map Config.symbol l)))
      as [_ | Hn]; [reflexivity|].
    exfalso. apply Hn. now apply -> in_rev.
  - destruct (in_dec string_dec (Config.symbol s) (rev (map Config.symbol l)))
      as [Hy | _]; [|reflexivity].
    apply in_rev in Hy.
    assert (Dict.mem (Config.symbol s)
              (aggregate_data (fold_left collect l (mkCollected [] [] [])))
            = true) by (apply Dict_mem_In_keys, Hin; now right).
    congruence.
Qed.

Lemma concat_filter_cons (ks : list string) (c : Config.stock_config)
  (r : list Config.stock_config) :
  NoDup ks -> In (Config.symbol c) ks ->
  Permutation
    (List.concat
       (map (fun t => filter (fun c' => String.eqb t (Config.symbol c'))
                        (c :: r)) ks))
    (c :: List.concat
            (map (fun t => filter (fun c' => String.eqb t (Config.symbol c'))
                             r) ks)).
Proof.
  induction ks as [| k ks IH]; intros Hnd Hin; [destruct Hin|].
  inversion Hnd as [| ? ? Hnotin Hnd']; subst.
  cbn [map List.concat].
  destruct (String.eqb k (Config.symbol c)) eqn:E.
  - assert (Hsame :
              map (fun t => filter (fun c' => String.eqb t (Config.symbol c'))
                              (c :: r)) ks
              = map (fun t => filter (fun c' => String.eqb t
                                                  (Config.symbol c')) r) ks).
    { apply map_ext_in. intros t Ht. cbn [filter].
      destruct (String.eqb t (Config.symbol c)) eqn:E'; [|reflexivity].
      apply String.eqb_eq in E, E'. subst. contradiction. }
    rewrite Hsame. cbn [filter]. rewrite E. reflexivity.
  - cbn [filter]. rewrite E.
    destruct Hin as [-> | Hin]; [now rewrite String.eqb_refl in E|].
    specialize (IH Hnd' Hin).
    etransitivity; [apply Permutation_app_head, IH|].
    symmetry. apply Permutation_middle.
Qed.

Lemma concat_filter_partition (ks : list string)
  (l : list Config.stock_config) :
  NoDup ks ->
  (forall c, In c l -> In (Config.symbol c) ks) ->
  Permutation
    (List.concat
       (map (fun t => filter (fun c' => String.eqb t (Config.symbol c')) l)
          ks))
    l.
Proof.
  intros Hnd. induction l as [| c r IH]; intro Hin.
  - cbn. induction ks as [| k ks IHk]; [constructor|].
    cbn. inversion Hnd; subst. now apply IHk.
  - etransitivity;
      [apply concat_filter_cons; [exact Hnd | apply Hin; now left]|].
    constructor. apply IH. intros c' Hc'. apply Hin. now right.
Qed.

Lemma setup_platform_aggregate_sensors stocks :
  aggregate_sensors (setup_platform stocks)
  = map (fun t =>
           AggregateStockSensor.init t
             (filter (fun c => String.eqb t (Config.symbol c)) stocks))
      (rev (nodup string_dec (rev (map Config.symbol stocks)))).
Proof.
  rewrite <- collect_fold_first_occurrences.
  pose proof (setup_platform_configs stocks) as Hc.
  unfold setup_platform in *. cbn [aggregate_sensors] in *.
  unfold Dict.keys. rewrite map_map.
  apply Forall_map in Hc. apply map_ext_Forall. revert Hc.
  apply Forall_impl. intros [t l] H. cbn in *. now rewrite H.
Qed.

Lemma setup_platform_individual stocks :
  individual_sensors (setup_platform stocks) = map StockSensor.init stocks.
Proof.
  unfold setup_platform. cbn.
  destruct (collect_fold_lists stocks (mkCollected [] [] [])) as [H _].
  exact H.
Qed.

(** X5.  [setup_platform] creates one holding sensor per configured entry,
    in configuration order and with duplicates kept, and one aggregate
    sensor per distinct ticker, in order of first appearance, holding the
    entries of that ticker in configuration order.  The aggregate sensors
    partition the configuration: together their holdings are the configured
    entries, each exactly once, and no aggregate sensor is without a
    holding. *)
Theorem setup_platform_entities :
  forall stocks,
    individual_sensors (setup_platform stocks) = map StockSensor.init stocks
    /\ aggregate_sensors (setup_platform stocks)
       = map (fun t =>
                AggregateStockSensor.init t
                  (filter (fun c => String.eqb t (Config.symbol c)) stocks))
           (rev (nodup string_dec (rev (map Config.symbol stocks))))
    /\ Permutation
         (List.concat (map AggregateStockSensor.configs
                    (aggregate_sensors (setup_platform stocks))))
         stocks
    /\ Forall (fun s => AggregateStockSensor.configs s <> [])
         (aggregate_sensors (setup_platform stocks)).
Proof.
  intro stocks.
  split; [apply setup_platform_individual|].
  split; [apply setup_platform_aggregate_sensors|].
  destruct (setup_platform_tickers stocks) as [Hnd Hin].
  split.
  - rewrite setup_platform_aggregate_sensors in *.
    rewrite map_map in *. cbn [AggregateStockSensor.init
                                AggregateStockSensor.configs
                                AggregateStockSensor.ticker] in *.
    rewrite map_id in Hnd, Hin.
    apply concat_filter_partition; [exact Hnd|].
    intros c Hc. apply Hin. now apply in_map.
  - pose proof (setup_platform_configs stocks) as Hc.
    rewrite Forall_forall in Hc |- *.
    intros s Hs Hempty.
    assert (Ht : In (AggregateStockSensor.ticker s)
                   (map Config.symbol stocks)).
    { apply Hin. now apply in_map. }
    apply in_map_iff in Ht. destruct Ht as [c [Hsym Hcin]].
    assert (Hmem : In c (AggregateStockSensor.configs s)).
    { rewrite (Hc s Hs). apply filter_In. split; [exact Hcin|].
      rewrite Hsym. apply String.eqb_refl. }
    rewrite Hempty in Hmem. destruct Hmem.
Qed.

(** ** What an update keeps and what it overwrites *)

(** X6.  A successful update of a holding or of a symbol aggregate
    overwrites state and attributes wholesale, and the portfolio update
    always does: the result does not depend on the state and attributes
    the sensor had before. *)
Theorem successful_update_overwrites :
  (forall yf self w price state attrs,
      yf (fetched w) (StockSensor.ticker self) = Price price ->
      fst (StockSensor.update yf
             (StockSensor.set_state_attrs self state attrs) w)
      = fst (StockSensor.update yf self w))
  /\ (forall yf self w price state attrs,
         yf (fetched w) (AggregateStockSensor.ticker self) = Price price ->
         fst (AggregateStockSensor.update yf
                (AggregateStockSensor.set_state_attrs self state attrs) w)
         = fst (AggregateStockSensor.update yf self w))
  /\ (forall yf self w state attrs,
         fst (TotalPortfolioSensor.update yf
                (TotalPortfolioSensor.mk (TotalPortfolioSensor.configs self)
                   state attrs) w)
         = fst (TotalPortfolioSensor.update yf self w)).
Proof.
  split.
  { intros yf self w price state attrs Hq.
    destruct (StockSensor_compute_ok self price) as [v Hc].
    rewrite (StockSensor_update_price _ _ _ _ _ Hq Hc).
    rewrite (StockSensor_update_price yf
               (StockSensor.set_state_attrs self state attrs) w price v Hq Hc).
    reflexivity. }
  split.
  { intros yf self w price state attrs Hq.
    destruct (Aggregate_compute_ok self price) as [v [Hc _]].
    rewrite (Aggregate_update_price _ _ _ _ _ Hq Hc).
    rewrite (Aggregate_update_price yf
               (AggregateStockSensor.set_state_attrs self state attrs)
               w price v Hq Hc).
    reflexivity. }
  intros yf self w state attrs.
  destruct (Total_update_published yf self w) as [g [Hg Hu]].
  destruct (Total_update_published yf
              (TotalPortfolioSensor.mk (TotalPortfolioSensor.configs self)
                 state attrs) w) as [g' [Hg' Hu']].
  cbn [TotalPortfolioSensor.configs] in Hg', Hu'.
  rewrite Hg in Hg'. injection Hg' as <-.
  now rewrite Hu, Hu'.
Qed.

Lemma successful_update_overwrites_witness :
  let yf : quote_source := fun _ _ => Price 150 in
  let stale := [("gain_loss"%string, VNum 1)] in
  fst (StockSensor.update yf
         (StockSensor.set_state_attrs (StockSensor.init holding_A)
            (Some 1) stale) (mkWorld [] []))
  = fst (StockSensor.update yf (StockSensor.init holding_A) (mkWorld [] []))
  /\ fst (AggregateStockSensor.update yf
            (AggregateStockSensor.set_state_attrs
               (AggregateStockSensor.init "AAPL" [holding_A; holding_B])
               (Some 1) stale) (mkWorld [] []))
     = fst (AggregateStockSensor.update yf
              (AggregateStockSensor.init "AAPL" [holding_A; holding_B])
              (mkWorld [] [])).
Proof.
  intros yf stale.
  destruct successful_update_overwrites as [Hs [Ha _]].
  split.
  - apply (Hs yf (StockSensor.init holding_A) (mkWorld [] []) 150).
    reflexivity.
  - apply (Ha yf (AggregateStockSensor.init "AAPL" [holding_A; holding_B])
             (mkWorld [] []) 150).
    reflexivity.
Defined.

Lemma Aggregate_update_failed yf self w :
  (forall price,
      yf (fetched w) (AggregateStockSensor.ticker self) <> Price price) ->
  fst (AggregateStockSensor.update yf self w)
  = AggregateStockSensor.set_state self None.
Proof.
  intro Hfail.
  destruct (yf (fetched w) (AggregateStockSensor.ticker self))
    as [p | | e] eqn:E.
  - exfalso. now apply (Hfail p).
  - now rewrite Aggregate_update_noprice.
  - now rewrite (Aggregate_update_raises _ _ _ e).
Qed.

(** X7.  When the quote is absent or the fetch raises,
    [AggregateStockSensor.update] sets the state to [None] and leaves the
    attribute mapping as it was; so after an update with any outcome
    followed by a failed one, the sensor still shows the attributes the
    first update left. *)
Theorem AggregateStockSensor_update_failed_keeps_attrs :
  forall yf yf0 self w w0,
    (forall price,
        yf (fetched w) (AggregateStockSensor.ticker self) <> Price price) ->
    let failed := fst (AggregateStockSensor.update yf self w) in
    let before := fst (AggregateStockSensor.update yf0 self w0) in
    let after := fst (AggregateStockSensor.update yf before w) in
    AggregateStockSensor._state failed = None
    /\ AggregateStockSensor.extra_state_attributes failed
       = AggregateStockSensor.extra_state_attributes self
    /\ AggregateStockSensor._state after = None
    /\ AggregateStockSensor.extra_state_attributes after
       = AggregateStockSensor.extra_state_attributes before.
Proof.
  intros yf yf0 self w w0 Hfail failed before after.
  subst failed before after.
  rewrite (Aggregate_update_failed _ _ _ Hfail).
  split; [reflexivity|]. split; [reflexivity|].
  assert (Hfail' :
            forall price,
              yf (fetched w)
                (AggregateStockSensor.ticker
                   (fst (AggregateStockSensor.update yf0 self w0)))
              <> Price price)
    by (rewrite Aggregate_update_ticker; exact Hfail).
  rewrite (Aggregate_update_failed _ _ _ Hfail').
  split; reflexivity.
Qed.

Lemma AggregateStockSensor_update_failed_keeps_attrs_witness :
  let yf : quote_source := fun _ _ => NoPrice in
  let yf0 : quote_source := fun _ _ => Price 150 in
  let self := AggregateStockSensor.init "AAPL" [holding_A; holding_B] in
  let before :=
    fst (AggregateStockSensor.update yf0 self (mkWorld [] [])) in
  let after :=
    fst (AggregateStockSensor.update yf before (mkWorld ["AAPL"%string] [])) in
  AggregateStockSensor._state after = None
  /\ Dict.get "gain_loss" (AggregateStockSensor.extra_state_attributes after)
     = Some (VNum 650).
Proof.
  intros yf yf0 self before after.
  destruct (AggregateStockSensor_update_failed_keeps_attrs yf yf0 self
              (mkWorld ["AAPL"%string] []) (mkWorld [] []))
    as [_ [_ [Hstate Hkeep]]].
  - intros price Hp. discriminate Hp.
  - split; [exact Hstate|].
    subst after before. rewrite Hkeep. reflexivity.
Defined.

(** ** The error log *)

Lemma StockSensor_update_errors yf self w :
  errors (snd (StockSensor.update yf self w))
  = errors w
    ++ match yf (fetched w) (StockSensor.ticker self) with
       | Raises e => [StockSensor.failure_line self e]
       | Price _ | NoPrice => []
       end.
Proof.
  destruct (yf (fetched w) (StockSensor.ticker self)) as [p | | e] eqn:E.
  - destruct (StockSensor_compute_ok self p) as [v Hc].
    rewrite (StockSensor_update_price _ _ _ _ _ E Hc). cbn.
    now rewrite app_nil_r.
  - rewrite (StockSensor_update_noprice _ _ _ E). cbn. now rewrite app_nil_r.
  - now rewrite (StockSensor_update_raises _ _ _ _ E).
Qed.

Lemma Aggregate_update_errors yf self w :
  errors (snd (AggregateStockSensor.update yf self w))
  = errors w
    ++ match yf (fetched w) (AggregateStockSensor.ticker self) with
       | Raises e => [AggregateStockSensor.failure_line self e]
       | Price _ | NoPrice => []
       end.
Proof.
  destruct (yf (fetched w) (AggregateStockSensor.ticker self))
    as [p | | e] eqn:E.
  - destruct (Aggregate_compute_ok self p) as [v [Hc _]].
    rewrite (Aggregate_update_price _ _ _ _ _ E Hc). cbn.
    now rewrite app_nil_r.
  - rewrite (Aggregate_update_noprice _ _ _ E). cbn. now rewrite app_nil_r.
  - now rewrite (Aggregate_update_raises _ _ _ _ E).
Qed.

Lemma Total_fold_errors yf configs acc w :
  errors (snd (fold_left (TotalPortfolioSensor.step yf) configs (acc, w)))
  = errors w ++ failures yf configs (fetched w).
Proof.
  revert acc w. induction configs as [| c r IH]; intros acc w.
  - cbn. now rewrite app_nil_r.
  - cbn [fold_left failures].
    unfold TotalPortfolioSensor.step at 2. unfold fetch.
    destruct (yf (fetched w) (Config.symbol c)) as [p | | e];
      rewrite IH; cbn; [reflexivity | reflexivity |].
    now rewrite <- app_assoc.
Qed.

Lemma Total_update_snd yf self w :
  snd (TotalPortfolioSensor.update yf self w)
  = snd (TotalPortfolioSensor.loop yf (TotalPortfolioSensor.configs self) w).
Proof.
  unfold TotalPortfolioSensor.update.
  destruct (TotalPortfolioSensor.loop yf (TotalPortfolioSensor.configs self) w)
    as [acc w'].
  now destruct (gain_percent_of _ _).
Qed.

Lemma update_total_snd yf self w :
  snd (update_total yf self w) = snd (TotalPortfolioSensor.update yf self w).
Proof.
  unfold update_total.
  now destruct (TotalPortfolioSensor.update yf self w) as [[s | e] w'].
Qed.

Lemma failures_never_raising yf configs h :
  (forall h' t e, yf h' t <> Raises e) -> failures yf configs h = [].
Proof.
  intro Hnr. revert h. induction configs as [| c r IH]; intro h;
    [reflexivity|].
  cbn. destruct (yf h (Config.symbol c)) as [p | | e] eqn:E; try apply IH.
  exfalso. exact (Hnr _ _ _ E).
Qed.

Lemma update_all_errors_kept {S : Type}
  (update : S -> World -> S * World) (l : list S) (w : World) :
  (forall s w', errors (snd (update s w')) = errors w') ->
  errors (snd (update_all update l w)) = errors w.
Proof.
  intro Hkeep. revert w. induction l as [| s r IH]; intro w; [reflexivity|].
  cbn. pose proof (Hkeep s w) as H.
  destruct (update s w) as [s' w']. cbn [snd] in H.
  specialize (IH w').
  destruct (update_all update r w') as [r' w'']. cbn [snd] in *.
  congruence.
Qed.

(** X8.  What an update writes to the error log.  A holding or symbol
    aggregate update logs exactly one line when the fetch raises, naming
    the ticker (and the account) and carrying the exception's text, and
    nothing otherwise: an absent price is not logged, and no other error
    is ever logged.  The portfolio update logs one line for each holding
    whose fetch raises, in order, and nothing for a holding without
    price. *)
Theorem error_log_of_an_update :
  (forall yf self w,
      errors (snd (StockSensor.update yf self w))
      = errors w
        ++ match yf (fetched w) (StockSensor.ticker self) with
           | Raises e =>
               [("Failed to update stock " ++ StockSensor.ticker self
                   ++ " in " ++ StockSensor.account self ++ ": " ++ e)%string]
           | Price _ | NoPrice => []
           end)
  /\ (forall yf self w,
         errors (snd (AggregateStockSensor.update yf self w))
         = errors w
           ++ match yf (fetched w) (AggregateStockSensor.ticker self) with
              | Raises e =>
                  [("Failed to update aggregate sensor for "
                      ++ AggregateStockSensor.ticker self ++ ": " ++ e)%string]
              | Price _ | NoPrice => []
              end)
  /\ (forall yf self w,
         errors (snd (TotalPortfolioSensor.update yf self w))
         = errors w
           ++ failures yf (TotalPortfolioSensor.configs self) (fetched w))
  /\ (forall yf config rest h,
         failures yf (config :: rest) h
         = match yf h (Config.symbol config) with
           | Raises e =>
               [("Failed to fetch price for " ++ Config.symbol config
                   ++ ": " ++ e)%string]
           | Price _ | NoPrice => []
           end ++ failures yf rest (h ++ [Config.symbol config])).
Proof.
  split; [exact StockSensor_update_errors|].
  split; [exact Aggregate_update_errors|].
  split.
  - intros yf self w. rewrite Total_update_snd.
    unfold TotalPortfolioSensor.loop. apply Total_fold_errors.
  - intros yf config rest h. cbn [failures].
    now destruct (yf h (Config.symbol config)).
Qed.

(** X9.  With a quote source that never raises, a whole evaluation cycle
    logs nothing, however many prices are absent. *)
Theorem refresh_silent_without_exceptions :
  forall yf p w,
    (forall h t e, yf h t <> Raises e) ->
    errors (snd (refresh yf p w)) = errors w.
Proof.
  intros yf p w Hnr. rewrite refresh_unfold. cbn [snd].
  rewrite update_total_snd, Total_update_snd.
  unfold TotalPortfolioSensor.loop.
  rewrite Total_fold_errors, failures_never_raising, app_nil_r by exact Hnr.
  rewrite update_all_errors_kept.
  - apply update_all_errors_kept. intros s w'.
    rewrite StockSensor_update_errors.
    destruct (yf (fetched w') (StockSensor.ticker s)) as [? | | e] eqn:E;
      try apply app_nil_r.
    exfalso. exact (Hnr _ _ _ E).
  - intros s w'. rewrite Aggregate_update_errors.
    destruct (yf (fetched w') (AggregateStockSensor.ticker s))
      as [? | | e] eqn:E; try apply app_nil_r.
    exfalso. exact (Hnr _ _ _ E).
Qed.

Lemma refresh_silent_without_exceptions_witness :
  errors (snd (refresh (fun _ t => if String.eqb t "MSFT" then NoPrice
                                   else Price 150)
                 (setup_platform [holding_A; holding_B; holding_C])
                 (mkWorld [] []))) = [].
Proof.
  apply (refresh_silent_without_exceptions
           (fun _ t => if String.eqb t "MSFT" then NoPrice else Price 150)
           (setup_platform [holding_A; holding_B; holding_C])
           (mkWorld [] [])).
  intros h t e. destruct (String.eqb t "MSFT"); discriminate.
Defined.

(** ** A whole evaluation cycle *)

Lemma update_total_fetched yf self w :
  fetched (snd (update_total yf self w))
  = fetched w ++ map Config.symbol (TotalPortfolioSensor.configs self).
Proof. rewrite update_total_snd. apply Total_update_fetched. Qed.

Lemma count_occ_first_occurrences (l : list string) t :
  count_occ string_dec (rev (nodup string_dec (rev l))) t
  = if existsb (String.eqb t) l then 1%nat else 0%nat.
Proof.
  rewrite count_occ_NoDup_existsb
    by (apply NoDup_rev, NoDup_nodup).
  destruct (existsb (String.eqb t) l) eqn:E.
  - apply existsb_eqb_In in E.
    assert (H : existsb (String.eqb t) (rev (nodup string_dec (rev l)))
                = true).
    { apply existsb_eqb_In. apply -> in_rev. apply nodup_In.
      now apply -> in_rev. }
    now rewrite H.
  - destruct (existsb (String.eqb t) (rev (nodup string_dec (rev l))))
      eqn:E'; [|reflexivity].
    apply existsb_eqb_In in E'. apply in_rev in E'. apply nodup_In in E'.
    apply in_rev in E'. apply existsb_eqb_In in E'. congruence.
Qed.

(** X10.  One evaluation cycle over the entities of [setup_platform]
    fetches, in order, the ticker of every configured entry (the holding
    sensors), every distinct ticker once (the aggregate sensors) and the
    ticker of every configured entry again (the portfolio sensor): a ticker
    with n > 0 entries is fetched 2n + 1 times, whatever the fetches
    return. *)
Theorem fetches_per_cycle :
  forall yf stocks w,
    let symbols := map Config.symbol stocks in
    fetched (snd (refresh yf (setup_platform stocks) w))
    = fetched w ++ symbols ++ rev (nodup string_dec (rev symbols)) ++ symbols
    /\ forall t,
        count_occ string_dec
          (symbols ++ rev (nodup string_dec (rev symbols)) ++ symbols) t
        = (2 * List.length
                 (filter (fun c => String.eqb t (Config.symbol c)) stocks)
           + if existsb (String.eqb t) symbols then 1 else 0)%nat.
Proof.
  intros yf stocks w symbols. split.
  - rewrite refresh_unfold. cbn [snd].
    rewrite update_total_fetched.
    rewrite (update_all_fetched AggregateStockSensor.ticker)
      by apply Aggregate_update_fetched.
    rewrite (update_all_fetched StockSensor.ticker)
      by apply StockSensor_update_fetched.
    rewrite setup_platform_total, setup_platform_aggregate_sensors.
    rewrite setup_platform_individual.
    rewrite !map_map. cbn [StockSensor.init StockSensor.ticker
                             AggregateStockSensor.init
                             AggregateStockSensor.ticker].
    rewrite map_id. fold symbols. now rewrite <- !app_assoc.
  - intro t. rewrite !count_occ_app, count_occ_first_occurrences.
    subst symbols. rewrite count_occ_map_symbol. lia.
Qed.

Lemma StockSensor_update_configuration yf self w :
  let self' := fst (StockSensor.update yf self w) in
  (StockSensor.account self', StockSensor.ticker self',
   StockSensor.shares self', StockSensor.purchase_price self')
  = (StockSensor.account self, StockSensor.ticker self,
     StockSensor.shares self, StockSensor.purchase_price self).
Proof.
  unfold StockSensor.update, fetch.
  destruct (yf (fetched w) (StockSensor.ticker self)); try reflexivity.
  destruct (StockSensor.compute self p); reflexivity.
Qed.

Lemma Aggregate_update_configuration yf self w :
  let self' := fst (AggregateStockSensor.update yf self w) in
  (AggregateStockSensor.ticker self', AggregateStockSensor.configs self')
  = (AggregateStockSensor.ticker self, AggregateStockSensor.configs self).
Proof.
  unfold AggregateStockSensor.update, fetch.
  destruct (yf (fetched w) (AggregateStockSensor.ticker self));
    try reflexivity.
  destruct (AggregateStockSensor.compute self p); reflexivity.
Qed.

(** X11.  An evaluation cycle changes only states and attributes: every
    holding sensor keeps its account, ticker, shares and purchase price,
    every aggregate sensor its ticker and holdings, the portfolio sensor
    its holdings, and no entity is added or dropped, whatever the quote
    source does. *)
Theorem refresh_keeps_configuration :
  forall yf p w,
    let p' := fst (refresh yf p w) in
    map (fun s => (StockSensor.account s, StockSensor.ticker s,
                   StockSensor.shares s, StockSensor.purchase_price s))
      (individual_sensors p')
    = map (fun s => (StockSensor.account s, StockSensor.ticker s,
                     StockSensor.shares s, StockSensor.purchase_price s))
        (individual_sensors p)
    /\ map (fun s => (AggregateStockSensor.ticker s,
                      AggregateStockSensor.configs s))
         (aggregate_sensors p')
       = map (fun s => (AggregateStockSensor.ticker s,
                        AggregateStockSensor.configs s))
           (aggregate_sensors p)
    /\ TotalPortfolioSensor.configs (total_sensor p')
       = TotalPortfolioSensor.configs (total_sensor p).
Proof.
  intros yf p w p'. subst p'. rewrite refresh_unfold.
  cbn [fst individual_sensors aggregate_sensors total_sensor].
  split; [|split].
  - generalize (individual_sensors p) as l. clear p. revert w.
    intros w l. revert w.
    induction l as [| s r IH]; intro w; [reflexivity|].
    cbn [update_all].
    pose proof (StockSensor_update_configuration yf s w) as Hs.
    destruct (StockSensor.update yf s w) as [s' w']. cbn [fst] in Hs.
    specialize (IH w').
    destruct (update_all (StockSensor.update yf) r w') as [r' w''].
    cbn [fst map] in *. now rewrite Hs, IH.
  - generalize (snd (update_all (StockSensor.update yf)
                       (individual_sensors p) w)) as w1.
    generalize (aggregate_sensors p) as l. clear p w.
    induction l as [| s r IH]; intro w; [reflexivity|].
    cbn [update_all].
    pose proof (Aggregate_update_configuration yf s w) as Hs.
    destruct (AggregateStockSensor.update yf s w) as [s' w']. cbn [fst] in Hs.
    specialize (IH w').
    destruct (update_all (AggregateStockSensor.update yf) r w') as [r' w''].
    cbn [fst map] in *. now rewrite Hs, IH.
  - match goal with
    | |- context [update_total yf ?s ?w'] =>
        destruct (update_total_computed yf s w') as [s' [Hu ->]];
        destruct (Total_update_ok yf s w') as [g [_ Hp]]
    end.
    rewrite Hp in Hu. injection Hu as <-. reflexivity.
Qed.

(** ** Sums *)

Lemma fold_left_Qplus_init (l : list Q) (a : Q) :
  fold_left Qplus l a == a + sumQ l.
Proof.
  unfold sumQ. revert a. induction l as [| x l IH]; intro a; cbn.
  - ring.
  - rewrite (IH (a + x)), (IH (0 + x)). ring.
Qed.

Lemma sumQ_cons (x : Q) (l : list Q) : sumQ (x :: l) == x + sumQ l.
Proof.
  unfold sumQ at 1. cbn. rewrite fold_left_Qplus_init. ring.
Qed.

(** ** Agreement between the views *)

Lemma of_ticker_successes_stable yf t p configs h :
  (forall h', yf h' t = Price p) ->
  of_ticker t (successes yf configs h)
  = map (fun c => (c, p))
      (filter (fun c => String.eqb t (Config.symbol c)) configs).
Proof.
  intro Hstable. revert h.
  induction configs as [| c r IH]; intro h; [reflexivity|].
  cbn [successes filter].
  destruct (String.eqb t (Config.symbol c)) eqn:E.
  - apply String.eqb_eq in E. rewrite <- E, Hstable.
    unfold of_ticker. cbn [filter fst]. rewrite <- E, String.eqb_refl.
    cbn [map]. f_equal. apply IH.
  - destruct (yf h (Config.symbol c)); try apply IH.
    unfold of_ticker. cbn [filter fst]. rewrite E. apply IH.
Qed.

Lemma gain_percent_of_compat gl gl' pv pv' g g' :
  gl == gl' -> pv == pv' ->
  gain_percent_of gl pv = Ok g -> gain_percent_of gl' pv' = Ok g' ->
  g == g'.
Proof.
  intros Hgl Hpv Hg Hg'.
  destruct (Qeq_dec pv 0) as [Hz | Hnz].
  - rewrite gain_percent_of_zero in Hg by exact Hz.
    rewrite gain_percent_of_zero in Hg' by (now rewrite <- Hpv).
    injection Hg as <-. injection Hg' as <-. reflexivity.
  - rewrite gain_percent_of_nonzero in Hg by exact Hnz.
    rewrite gain_percent_of_nonzero in Hg' by (now rewrite <- Hpv).
    injection Hg as <-. injection Hg' as <-. now rewrite Hgl, Hpv.
Qed.

(** X12.  For a ticker configured in a single entry and quoted at one and
    the same price at every fetch, the three views agree: the holding
    sensor and the ticker's aggregate sensor publish the same state,
    gain_loss and gain_percent, and the ticker's entry in the portfolio
    sensor's by_stock is that state. *)
Theorem views_agree_on_single_entry :
  forall yf stocks config p w1 w2 w3,
    (forall h, yf h (Config.symbol config) = Price p) ->
    filter (fun c => String.eqb (Config.symbol config) (Config.symbol c))
      stocks = [config] ->
    let holding := fst (StockSensor.update yf (StockSensor.init config) w1) in
    let aggregate :=
      fst (AggregateStockSensor.update yf
             (AggregateStockSensor.init (Config.symbol config) [config]) w2) in
    In (StockSensor.init config) (individual_sensors (setup_platform stocks))
    /\ In (AggregateStockSensor.init (Config.symbol config) [config])
         (aggregate_sensors (setup_platform stocks))
    /\ AggregateStockSensor._state aggregate = StockSensor._state holding
    /\ Dict.get "gain_loss" (AggregateStockSensor._attrs aggregate)
       = Dict.get "gain_loss" (StockSensor._attrs holding)
    /\ Dict.get "gain_percent" (AggregateStockSensor._attrs aggregate)
       = Dict.get "gain_percent" (StockSensor._attrs holding)
    /\ exists total by_stock,
        fst (TotalPortfolioSensor.update yf
               (total_sensor (setup_platform stocks)) w3) = Ok total
        /\ Dict.get "by_stock" (TotalPortfolioSensor._attrs total)
           = Some (VDict by_stock)
        /\ Dict.get (Config.symbol config) by_stock
           = StockSensor._state holding.
Proof.
  intros yf stocks config p w1 w2 w3 Hstable Hsingle holding aggregate.
  set (t := Config.symbol config) in *.
  set (s := Config.shares config).
  set (pp := Config.purchase_price config).
  assert (Hin : In config stocks).
  { assert (H : In config [config]) by now left.
    rewrite <- Hsingle in H. now apply filter_In in H. }
  destruct (gain_percent_of_total (p * s - pp * s) (pp * s)) as [gh Hgh].
  destruct (gain_percent_of_total (p * (0 + s) - (0 + s * pp)) (0 + s * pp))
    as [ga Hga].
  assert (Hch : StockSensor.compute (StockSensor.init config) p
                = Ok (StockSensor.mkValues (p * s) (pp * s)
                        (p * s - pp * s) gh)).
  { unfold StockSensor.compute. cbn [StockSensor.init StockSensor.shares
      StockSensor.purchase_price]. fold s. fold pp. now rewrite Hgh. }
  assert (Hca : AggregateStockSensor.compute
                  (AggregateStockSensor.init t [config]) p
                = Ok (AggregateStockSensor.mkValues
                        (AggregateStockSensor.loop [config])
                        (p * (0 + s)) (p * (0 + s) - (0 + s * pp)) ga)).
  { unfold AggregateStockSensor.compute.
    cbn [AggregateStockSensor.init AggregateStockSensor.configs
           AggregateStockSensor.loop fold_left AggregateStockSensor.step
           AggregateStockSensor.totals0 AggregateStockSensor.total_shares
           AggregateStockSensor.total_purchase_value].
    fold s. fold pp. now rewrite Hga. }
  assert (Hg : ga == gh).
  { apply (gain_percent_of_compat (p * (0 + s) - (0 + s * pp))
             (p * s - pp * s) (0 + s * pp) (pp * s) ga gh);
      [ring | ring | exact Hga | exact Hgh]. }
  subst holding aggregate.
  rewrite (StockSensor_update_price yf (StockSensor.init config) w1 p _
             (Hstable (fetched w1)) Hch).
  rewrite (Aggregate_update_price yf (AggregateStockSensor.init t [config])
             w2 p _ (Hstable (fetched w2)) Hca).
  cbn [fst StockSensor._state StockSensor._attrs StockSensor.set_state_attrs
         StockSensor.attrs StockSensor.current_value StockSensor.gain_loss
         StockSensor.gain_percent
         AggregateStockSensor._state AggregateStockSensor._attrs
         AggregateStockSensor.set_state_attrs AggregateStockSensor.attrs
         AggregateStockSensor.current_value AggregateStockSensor.gain_loss
         AggregateStockSensor.gain_percent].
  rewrite (round2_compat (p * (0 + s)) (p * s)) by ring.
  split.
  { rewrite setup_platform_individual. now apply in_map. }
  split.
  { rewrite setup_platform_aggregate_sensors. rewrite <- Hsingle.
    apply (in_map (fun t' => AggregateStockSensor.init t'
                               (filter (fun c => String.eqb t'
                                                   (Config.symbol c)) stocks))).
    apply -> in_rev. apply nodup_In. apply -> in_rev.
    now apply in_map. }
  split; [reflexivity|].
  split.
  { change (Some (VNum (round2 (p * (0 + s) - (0 + s * pp))))
            = Some (VNum (round2 (p * s - pp * s)))).
    do 2 f_equal. apply round2_compat. ring. }
  split.
  { change (Some (VNum (round2 ga)) = Some (VNum (round2 gh))).
    do 2 f_equal. now apply round2_compat. }
  destruct (Total_update_published yf (total_sensor (setup_platform stocks))
              w3) as [g [_ Hu]].
  do 2 eexists. split; [exact Hu|].
  cbn [TotalPortfolioSensor._attrs]. split; [reflexivity|].
  rewrite Total_by_stock_get, has_ticker_of_ticker, setup_platform_total.
  rewrite (of_ticker_successes_stable yf t p stocks (fetched w3) Hstable).
  rewrite Hsingle. cbn [map]. f_equal. apply round2_compat.
  unfold sumQ, value_of. cbn [map fold_left fst snd]. fold s. ring.
Qed.

Lemma views_agree_on_single_entry_witness :
  let yf : quote_source :=
    fun _ t => if String.eqb t "MSFT" then Price (1501 # 10) else NoPrice in
  let stocks := [holding_A; holding_C; holding_B] in
  let w := mkWorld [] [] in
  let holding := fst (StockSensor.update yf (StockSensor.init holding_C) w) in
  AggregateStockSensor._state
    (fst (AggregateStockSensor.update yf
            (AggregateStockSensor.init "MSFT" [holding_C]) w))
  = StockSensor._state holding
  /\ exists total by_stock,
      fst (TotalPortfolioSensor.update yf
             (total_sensor (setup_platform stocks)) w) = Ok total
      /\ Dict.get "by_stock" (TotalPortfolioSensor._attrs total)
         = Some (VDict by_stock)
      /\ Dict.get "MSFT" by_stock = StockSensor._state holding.
Proof.
  intros yf stocks w holding.
  destruct (views_agree_on_single_entry yf stocks holding_C (1501 # 10)
              w w w) as [_ [_ [Hstate [_ [_ Htotal]]]]].
  - intro h. reflexivity.
  - reflexivity.
  - split; [exact Hstate | exact Htotal].
Defined.

(** ** The breakdowns add up *)

Lemma sumQ_dict_set {V : Type} (g : V -> Q) (k : string) (v : V)
  (d : Dict.dict V) :
  sumQ (map (fun kv => g (snd kv)) (Dict.set k v d))
  + match Dict.get k d with Some v0 => g v0 | None => 0 end
  == sumQ (map (fun kv => g (snd kv)) d) + g v.
Proof.
  induction d as [| [k' v'] r IH]; cbn [Dict.set Dict.get map snd].
  - rewrite sumQ_cons. ring.
  - destruct (String.eqb k k'); cbn [map snd].
    + rewrite !sumQ_cons. ring.
    + rewrite !sumQ_cons. rewrite <- Qplus_assoc, IH. ring.
Qed.

Lemma sumQ_dict_adjust {V : Type} (g : V -> Q) (k : string) (f : V -> V)
  (d : Dict.dict V) (v0 : V) :
  Dict.get k d = Some v0 ->
  sumQ (map (fun kv => g (snd kv)) (Dict.adjust k f d)) + g v0
  == sumQ (map (fun kv => g (snd kv)) d) + g (f v0).
Proof.
  intro Hget. unfold Dict.adjust. rewrite Hget.
  pose proof (sumQ_dict_set g k (f v0) d) as H. now rewrite Hget in H.
Qed.

Lemma Aggregate_step_breakdown acc c :
  sumQ (map snd (AggregateStockSensor.account_breakdown
                   (AggregateStockSensor.step acc c)))
  == sumQ (map snd (AggregateStockSensor.account_breakdown acc))
     + Config.shares c.
Proof.
  cbn [AggregateStockSensor.step AggregateStockSensor.account_breakdown].
  set (d := AggregateStockSensor.account_breakdown acc).
  set (a := Config.account c).
  assert (H : sumQ (map snd (Dict.set a (Dict.get_or a 0 d + Config.shares c)
                               d))
              + match Dict.get a d with Some v0 => v0 | None => 0 end
              == sumQ (map snd d) + (Dict.get_or a 0 d + Config.shares c))
    by exact (sumQ_dict_set (fun q : Q => q) a _ d).
  unfold Dict.get_or in *.
  destruct (Dict.get a d); lra.
Qed.

Lemma Aggregate_fold_breakdown l acc :
  sumQ (map snd (AggregateStockSensor.account_breakdown acc))
  == AggregateStockSensor.total_shares acc ->
  sumQ (map snd (AggregateStockSensor.account_breakdown
                   (fold_left AggregateStockSensor.step l acc)))
  == AggregateStockSensor.total_shares
       (fold_left AggregateStockSensor.step l acc).
Proof.
  revert acc. induction l as [| c l IH]; intros acc Hinv; [exact Hinv|].
  cbn [fold_left]. apply IH.
  rewrite Aggregate_step_breakdown, Hinv. reflexivity.
Qed.

Lemma whole_plus (a b : Q) : whole a -> whole b -> whole (a + b).
Proof.
  intros [n Hn] [m Hm]. exists (n + m)%Z.
  now rewrite Hn, Hm, inject_Z_plus.
Qed.

Lemma Dict_get_or_Forall {V : Type} (P : V -> Prop) (k : string)
  (default : V) (d : Dict.dict V) :
  Forall (fun kv => P (snd kv)) d -> P default -> P (Dict.get_or k default d).
Proof.
  intros Hd Hdefault. unfold Dict.get_or.
  induction Hd as [| [k' v'] r Hv _ IH]; cbn; [exact Hdefault|].
  destruct (String.eqb k k'); [exact Hv | exact IH].
Qed.

Lemma Dict_set_Forall {V : Type} (P : V -> Prop) (k : string) (v : V)
  (d : Dict.dict V) :
  Forall (fun kv => P (snd kv)) d -> P v ->
  Forall (fun kv => P (snd kv)) (Dict.set k v d).
Proof.
  intros Hd Hv.
  induction Hd as [| [k' v'] r Hv' Hr IH]; cbn.
  - now repeat constructor.
  - destruct (String.eqb k k'); constructor; assumption.
Qed.

Lemma Aggregate_fold_whole l acc :
  Forall (fun c => whole (Config.shares c)) l ->
  whole (AggregateStockSensor.total_shares acc) ->
  Forall (fun kv => whole (snd kv))
    (AggregateStockSensor.account_breakdown acc) ->
  let acc' := fold_left AggregateStockSensor.step l acc in
  whole (AggregateStockSensor.total_shares acc')
  /\ Forall (fun kv => whole (snd kv))
       (AggregateStockSensor.account_breakdown acc').
Proof.
  intro Hl. revert acc.
  induction Hl as [| c l Hc _ IH]; intros acc Ht Hb; [now split|].
  cbn [fold_left]. apply IH.
  - cbn [AggregateStockSensor.step AggregateStockSensor.total_shares].
    now apply whole_plus.
  - cbn [AggregateStockSensor.step AggregateStockSensor.account_breakdown].
    apply Dict_set_Forall; [exact Hb|].
    apply whole_plus; [|exact Hc].
    apply Dict_get_or_Forall; [exact Hb | now exists 0%Z].
Qed.

(** X13.  When every share count handed to an aggregate sensor is a whole
    number, the total_shares it publishes and every entry of the
    account_breakdown it publishes are whole numbers, and the entries add
    up to total_shares. *)
Theorem account_breakdown_adds_up :
  forall yf self w price,
    yf (fetched w) (AggregateStockSensor.ticker self) = Price price ->
    Forall (fun c => whole (Config.shares c))
      (AggregateStockSensor.configs self) ->
    exists total_shares account_breakdown,
      Dict.get "total_shares"
        (AggregateStockSensor._attrs
           (fst (AggregateStockSensor.update yf self w)))
      = Some (VNum total_shares)
      /\ Dict.get "account_breakdown"
           (AggregateStockSensor._attrs
              (fst (AggregateStockSensor.update yf self w)))
         = Some (VDict account_breakdown)
      /\ whole total_shares
      /\ Forall (fun kv => whole (snd kv)) account_breakdown
      /\ sumQ (map snd account_breakdown) == total_shares.
Proof.
  intros yf self w price Hq Hwhole.
  destruct (Aggregate_compute_ok self price) as [v [Hc [Hs _]]].
  rewrite (Aggregate_update_price _ _ _ _ _ Hq Hc).
  do 2 eexists. split; [reflexivity|]. split; [reflexivity|].
  rewrite Hs. unfold AggregateStockSensor.loop.
  destruct (Aggregate_fold_whole (AggregateStockSensor.configs self)
              AggregateStockSensor.totals0 Hwhole) as [Ht Hb];
    [now exists 0%Z | constructor |].
  split; [exact Ht|]. split; [exact Hb|].
  apply Aggregate_fold_breakdown. reflexivity.
Qed.

Lemma account_breakdown_adds_up_witness :
  exists total_shares account_breakdown,
    Dict.get "total_shares"
      (AggregateStockSensor._attrs
         (fst (AggregateStockSensor.update (fun _ _ => Price 150)
                 (AggregateStockSensor.init "AAPL"
                    [holding_A; holding_B; holding_free])
                 (mkWorld [] []))))
    = Some (VNum total_shares)
    /\ Dict.get "account_breakdown"
         (AggregateStockSensor._attrs
            (fst (AggregateStockSensor.update (fun _ _ => Price 150)
                    (AggregateStockSensor.init "AAPL"
                       [holding_A; holding_B; holding_free])
                    (mkWorld [] []))))
       = Some (VDict account_breakdown)
    /\ whole total_shares
    /\ Forall (fun kv => whole (snd kv)) account_breakdown
    /\ sumQ (map snd account_breakdown) == total_shares.
Proof.
  apply (account_breakdown_adds_up (fun _ _ => Price 150)
           (AggregateStockSensor.init "AAPL"
              [holding_A; holding_B; holding_free])
           (mkWorld [] []) 150).
  - reflexivity.
  - repeat constructor; [exists 10%Z | exists 5%Z | exists 10%Z];
      reflexivity.
Defined.

Lemma Total_adjust_twice_sum ps t shares cv e :
  Dict.get t ps = Some e ->
  sumQ (map (fun kv => TotalPortfolioSensor.e_current_value (snd kv))
          (Dict.adjust t
             (fun e => TotalPortfolioSensor.mkEntry
                         (TotalPortfolioSensor.e_shares e)
                         (TotalPortfolioSensor.e_current_value e + cv))
             (Dict.adjust t
                (fun e => TotalPortfolioSensor.mkEntry
                            (TotalPortfolioSensor.e_shares e + shares)
                            (TotalPortfolioSensor.e_current_value e))
                ps)))
  == sumQ (map (fun kv => TotalPortfolioSensor.e_current_value (snd kv)) ps)
     + cv.
Proof.
  intro Hget.
  set (f1 := fun e => TotalPortfolioSensor.mkEntry
                        (TotalPortfolioSensor.e_shares e + shares)
                        (TotalPortfolioSensor.e_current_value e)).
  set (f2 := fun e => TotalPortfolioSensor.mkEntry
                        (TotalPortfolioSensor.e_shares e)
                        (TotalPortfolioSensor.e_current_value e + cv)).
  pose proof (sumQ_dict_adjust TotalPortfolioSensor.e_current_value
                t f1 ps e Hget) as H1.
  assert (Hget' : Dict.get t (Dict.adjust t f1 ps) = Some (f1 e))
    by (rewrite Dict_get_adjust_eq, Hget; reflexivity).
  pose proof (sumQ_dict_adjust TotalPortfolioSensor.e_current_value
                t f2 (Dict.adjust t f1 ps) (f1 e) Hget') as H2.
  cbn [f1 f2 TotalPortfolioSensor.e_current_value
          TotalPortfolioSensor.e_shares] in H1, H2.
  lra.
Qed.

Lemma Total_accumulate_sum acc c p :
  sumQ (map (fun kv => TotalPortfolioSensor.e_current_value (snd kv))
          (TotalPortfolioSensor.per_stock
             (TotalPortfolioSensor.accumulate acc c p)))
  == sumQ (map (fun kv => TotalPortfolioSensor.e_current_value (snd kv))
             (TotalPortfolioSensor.per_stock acc))
     + p * Config.shares c.
Proof.
  unfold TotalPortfolioSensor.accumulate.
  cbn [TotalPortfolioSensor.per_stock]. unfold Dict.mem.
  destruct (Dict.get (Config.symbol c) (TotalPortfolioSensor.per_stock acc))
    as [e |] eqn:E.
  - now apply (Total_adjust_twice_sum _ _ _ _ e).
  - rewrite (Total_adjust_twice_sum _ _ _ _ (TotalPortfolioSensor.mkEntry 0 0))
      by apply Dict_get_set_eq.
    pose proof (sumQ_dict_set TotalPortfolioSensor.e_current_value
                  (Config.symbol c) (TotalPortfolioSensor.mkEntry 0 0)
                  (TotalPortfolioSensor.per_stock acc)) as H.
    rewrite E in H. cbn [TotalPortfolioSensor.e_current_value] in H. lra.
Qed.

Lemma Total_acc_sum l acc :
  sumQ (map (fun kv => TotalPortfolioSensor.e_current_value (snd kv))
          (TotalPortfolioSensor.per_stock acc))
  == TotalPortfolioSensor.total_value acc ->
  let acc' :=
    fold_left (fun a cp => TotalPortfolioSensor.accumulate a (fst cp) (snd cp))
      l acc in
  sumQ (map (fun kv => TotalPortfolioSensor.e_current_value (snd kv))
          (TotalPortfolioSensor.per_stock acc'))
  == TotalPortfolioSensor.total_value acc'.
Proof.
  revert acc. induction l as [| [c p] l IH]; intros acc Hinv; [exact Hinv|].
  cbn [fold_left fst snd]. apply IH.
  rewrite Total_accumulate_sum, Hinv. reflexivity.
Qed.

Lemma sumQ_round2_near (l : list Q) :
  sumQ l - inject_Z (Z.of_nat (List.length l)) * (1 # 200)
  <= sumQ (map round2 l)
  /\ sumQ (map round2 l)
     <= sumQ l + inject_Z (Z.of_nat (List.length l)) * (1 # 200).
Proof.
  induction l as [| x l [IHlo IHhi]].
  - cbn. split; discriminate.
  - cbn [map List.length]. rewrite Nat2Z.inj_succ, <- Z.add_1_r.
    rewrite inject_Z_plus. change (inject_Z 1) with 1.
    rewrite !sumQ_cons.
    destruct (round2_near x) as [Hlo Hhi]. split; lra.
Qed.

(** X14.  The entries of the published by_stock add up to the published
    state, up to the rounding of each figure: with k tickers in by_stock
    the two differ by at most (k + 1) half cents. *)
Theorem by_stock_adds_up :
  forall yf self w,
    exists total v by_stock,
      fst (TotalPortfolioSensor.update yf self w) = Ok total
      /\ TotalPortfolioSensor._state total = Some v
      /\ Dict.get "by_stock" (TotalPortfolioSensor._attrs total)
         = Some (VDict by_stock)
      /\ let slack :=
           (inject_Z (Z.of_nat (List.length by_stock)) + 1) * (1 # 200) in
         sumQ (map snd by_stock) - slack <= v
         /\ v <= sumQ (map snd by_stock) + slack.
Proof.
  intros yf self w.
  destruct (Total_update_ok yf self w) as [g [_ Hu]].
  set (acc := fst (TotalPortfolioSensor.loop yf
                     (TotalPortfolioSensor.configs self) w)) in *.
  do 3 eexists. split; [exact Hu|]. cbn [TotalPortfolioSensor.publish
    TotalPortfolioSensor._state TotalPortfolioSensor._attrs].
  split; [reflexivity|]. split; [reflexivity|].
  assert (Hinv :
            sumQ (map (fun kv => TotalPortfolioSensor.e_current_value (snd kv))
                    (TotalPortfolioSensor.per_stock acc))
            == TotalPortfolioSensor.total_value acc).
  { subst acc. rewrite Total_loop_successes.
    apply Total_acc_sum. reflexivity. }
  unfold Dict.map_values. rewrite map_map. cbn [snd].
  rewrite length_map.
  set (vals := map (fun kv => TotalPortfolioSensor.e_current_value (snd kv))
                 (TotalPortfolioSensor.per_stock acc)) in *.
  assert (Hmap :
            map (fun kv => round2 (TotalPortfolioSensor.e_current_value
                                     (snd kv)))
              (TotalPortfolioSensor.per_stock acc)
            = map round2 vals)
    by (subst vals; now rewrite map_map).
  rewrite Hmap.
  assert (Hlen : List.length (TotalPortfolioSensor.per_stock acc)
                 = List.length vals)
    by (subst vals; now rewrite length_map).
  rewrite Hlen.
  destruct (sumQ_round2_near vals) as [Hlo Hhi].
  destruct (round2_near (TotalPortfolioSensor.total_value acc)) as [Hlo' Hhi'].
  cbv zeta. split; lra.
Qed.

(** ** Stable quotes *)

Lemma StockSensor_update_twice quote self w w' :
  fst (StockSensor.update (stable quote)
         (fst (StockSensor.update (stable quote) self w)) w')
  = fst (StockSensor.update (stable quote) self w).
Proof.
  destruct (quote (StockSensor.ticker self)) as [p | | e] eqn:E.
  - destruct (StockSensor_compute_ok self p) as [v Hc].
    rewrite (StockSensor_update_price (stable quote) self w p v E Hc).
    cbn [fst].
    match goal with
    | |- context [StockSensor.update _ ?s w'] =>
        now rewrite (StockSensor_update_price (stable quote) s w' p v E Hc)
    end.
  - rewrite (StockSensor_update_noprice (stable quote) self w E). cbn [fst].
    match goal with
    | |- context [StockSensor.update _ ?s w'] =>
        now rewrite (StockSensor_update_noprice (stable quote) s w' E)
    end.
  - rewrite (StockSensor_update_raises (stable quote) self w e E). cbn [fst].
    match goal with
    | |- context [StockSensor.update _ ?s w'] =>
        now rewrite (StockSensor_update_raises (stable quote) s w' e E)
    end.
Qed.

Lemma Aggregate_update_twice quote self w w' :
  fst (AggregateStockSensor.update (stable quote)
         (fst (AggregateStockSensor.update (stable quote) self w)) w')
  = fst (AggregateStockSensor.update (stable quote) self w).
Proof.
  destruct (quote (AggregateStockSensor.ticker self)) as [p | | e] eqn:E.
  - destruct (Aggregate_compute_ok self p) as [v [Hc _]].
    rewrite (Aggregate_update_price (stable quote) self w p v E Hc).
    cbn [fst].
    match goal with
    | |- context [AggregateStockSensor.update _ ?s w'] =>
        now rewrite (Aggregate_update_price (stable quote) s w' p v E Hc)
    end.
  - rewrite (Aggregate_update_noprice (stable quote) self w E). cbn [fst].
    match goal with
    | |- context [AggregateStockSensor.update _ ?s w'] =>
        now rewrite (Aggregate_update_noprice (stable quote) s w' E)
    end.
  - rewrite (Aggregate_update_raises (stable quote) self w e E). cbn [fst].
    match goal with
    | |- context [AggregateStockSensor.update _ ?s w'] =>
        now rewrite (Aggregate_update_raises (stable quote) s w' e E)
    end.
Qed.

Lemma Total_update_stable quote self w :
  let ok := flat_map (fun c => match quote (Config.symbol c) with
                               | Price p => [(c, p)]
                               | NoPrice | Raises _ => []
                               end) (TotalPortfolioSensor.configs self) in
  let acc := fold_left
               (fun a cp => TotalPortfolioSensor.accumulate a (fst cp) (snd cp))
               ok TotalPortfolioSensor.totals0 in
  let gain := TotalPortfolioSensor.total_value acc
              - TotalPortfolioSensor.total_purchase_value acc in
  exists g,
    gain_percent_of gain (TotalPortfolioSensor.total_purchase_value acc) = Ok g
    /\ fst (update_total (stable quote) self w)
       = TotalPortfolioSensor.publish self acc gain g.
Proof.
  intros ok acc gain.
  destruct (update_total_computed (stable quote) self w) as [s1 [Hu ->]].
  destruct (Total_update_ok (stable quote) self w) as [g [Hg Hp]].
  rewrite Total_loop_successes, successes_stable in Hg, Hp.
  exists g. split; [exact Hg|].
  rewrite Hp in Hu. injection Hu as <-. reflexivity.
Qed.

Lemma update_total_twice quote self w w' :
  fst (update_total (stable quote)
         (fst (update_total (stable quote) self w)) w')
  = fst (update_total (stable quote) self w).
Proof.
  destruct (Total_update_stable quote self w) as [g [Hg Hp]].
  rewrite Hp.
  match goal with
  | |- fst (update_total _ ?s w') = _ =>
      destruct (Total_update_stable quote s w') as [g' [Hg' Hp']]
  end.
  cbn [TotalPortfolioSensor.configs TotalPortfolioSensor.publish] in Hg', Hp'.
  rewrite Hg in Hg'. injection Hg' as <-.
  rewrite Hp'. reflexivity.
Qed.

Lemma update_all_twice {S : Type} (update : S -> World -> S * World)
  (l : list S) :
  (forall s w w', fst (update (fst (update s w)) w') = fst (update s w)) ->
  forall w w',
    fst (update_all update (fst (update_all update l w)) w')
    = fst (update_all update l w).
Proof.
  intro Htwice. induction l as [| s r IH]; intros w w'; [reflexivity|].
  cbn [update_all].
  pose proof (Htwice s w w') as Hs.
  destruct (update s w) as [s1 w1]. cbn [fst] in Hs.
  specialize (IH w1).
  destruct (update_all update r w1) as [r1 w2]. cbn [fst update_all] in *.
  destruct (update s1 w') as [s2 w1']. cbn [fst] in Hs. subst s2.
  specialize (IH w1').
  destruct (update_all update r1 w1') as [r2 w2']. cbn [fst] in *.
  now rewrite IH.
Qed.

(** X16.  With a quote source that answers each ticker the same at every
    fetch, a second evaluation cycle changes nothing: every entity has the
    state and attributes the first cycle left, the sensors without a price
    included (state unset, attributes untouched). *)
Theorem refresh_idempotent_on_stable_quotes :
  forall quote p w w',
    fst (refresh (stable quote) (fst (refresh (stable quote) p w)) w')
    = fst (refresh (stable quote) p w).
Proof.
  intros quote p w w'.
  rewrite (refresh_unfold (stable quote) p w). cbn [fst].
  rewrite refresh_unfold.
  cbn [fst individual_sensors aggregate_sensors total_sensor].
  rewrite (update_all_twice (StockSensor.update (stable quote)))
    by apply StockSensor_update_twice.
  rewrite (update_all_twice (AggregateStockSensor.update (stable quote)))
    by apply Aggregate_update_twice.
  now rewrite update_total_twice.
Qed.

(** ** Consistency of the published figures *)

Lemma round_half_even_nonneg (y : Q) : 0 <= y -> (0 <= round_half_even y)%Z.
Proof.
  intro Hy. unfold round_half_even.
  assert (Hf : (0 <= Qfloor y)%Z).
  { change 0%Z with (Qfloor 0). now apply Qfloor_resp_le. }
  destruct (Qcompare _ _); [destruct (Z.even _) | |]; lia.
Qed.

Lemma round_half_even_nonpos (y : Q) : y <= 0 -> (round_half_even y <= 0)%Z.
Proof.
  intro Hy. unfold round_half_even.
  pose proof (Qfloor_le y) as Hlo.
  assert (Hf : (Qfloor y <= 0)%Z).
  { rewrite Zle_Qle. change (inject_Z 0) with 0. lra. }
  destruct (Z.eq_dec (Qfloor y) 0) as [Hz | Hnz].
  - rewrite Hz in *. change (inject_Z 0) with 0 in *.
    assert (L : Qcompare (y - 0) (1 # 2) = Lt)
      by (apply (proj1 (Qlt_alt _ _)); lra).
    rewrite L. lia.
  - destruct (Qcompare _ _); [destruct (Z.even _) | |]; lia.
Qed.

Lemma round2_nonneg (x : Q) : 0 <= x -> 0 <= round2 x.
Proof.
  intro Hx. rewrite round2_is_hundredth.
  assert (H : (0 <= round_half_even (x * 100))%Z)
    by (apply round_half_even_nonneg; lra).
  rewrite Zle_Qle in H. change (inject_Z 0) with 0 in H.
  apply Qle_shift_div_l; [reflexivity | lra].
Qed.

Lemma round2_nonpos (x : Q) : x <= 0 -> round2 x <= 0.
Proof.
  intro Hx. rewrite round2_is_hundredth.
  assert (H : (round_half_even (x * 100) <= 0)%Z)
    by (apply round_half_even_nonpos; lra).
  rewrite Zle_Qle in H. change (inject_Z 0) with 0 in H.
  apply Qle_shift_div_r; [reflexivity | lra].
Qed.

(** X17.  The rounding never turns a gain into a loss or a loss into a
    gain: a holding whose value is at least its purchase value publishes
    gain_loss >= 0, and one whose value is at most its purchase value
    publishes gain_loss <= 0; with a positive purchase value the same
    holds of gain_percent. *)
Theorem gain_sign_kept :
  forall yf self w price,
    yf (fetched w) (StockSensor.ticker self) = Price price ->
    let cv := price * StockSensor.shares self in
    let pv := StockSensor.purchase_price self * StockSensor.shares self in
    0 < pv ->
    exists gain_loss gain_percent,
      Dict.get "gain_loss"
        (StockSensor._attrs (fst (StockSensor.update yf self w)))
      = Some (VNum gain_loss)
      /\ Dict.get "gain_percent"
           (StockSensor._attrs (fst (StockSensor.update yf self w)))
         = Some (VNum gain_percent)
      /\ (pv <= cv -> 0 <= gain_loss /\ 0 <= gain_percent)
      /\ (cv <= pv -> gain_loss <= 0 /\ gain_percent <= 0).
Proof.
  intros yf self w price Hq cv pv Hpos.
  assert (Hnz : ~ pv == 0) by lra.
  assert (Hc : StockSensor.compute self price
               = Ok (StockSensor.mkValues cv pv (cv - pv)
                       ((cv - pv) / pv * 100))).
  { unfold StockSensor.compute. fold cv. fold pv.
    now rewrite gain_percent_of_nonzero. }
  rewrite (StockSensor_update_price _ _ _ _ _ Hq Hc).
  do 2 eexists. split; [reflexivity|]. split; [reflexivity|].
  cbn [StockSensor.gain_loss StockSensor.gain_percent].
  split; intro Hcmp.
  - split; apply round2_nonneg; [lra|].
    apply Qmult_le_0_compat; [|discriminate].
    apply Qle_shift_div_l; [exact Hpos | lra].
  - split; apply round2_nonpos; [lra|].
    assert (H : (cv - pv) / pv <= 0)
      by (apply Qle_shift_div_r; [exact Hpos | lra]).
    lra.
Qed.

Lemma gain_sign_kept_witness :
  exists gain_loss gain_percent,
    Dict.get "gain_loss"
      (StockSensor._attrs
         (fst (StockSensor.update (fun _ _ => Price (100001 # 1000))
                 (StockSensor.init holding_A) (mkWorld [] []))))
    = Some (VNum gain_loss)
    /\ Dict.get "gain_percent"
         (StockSensor._attrs
            (fst (StockSensor.update (fun _ _ => Price (100001 # 1000))
                    (StockSensor.init holding_A) (mkWorld [] []))))
       = Some (VNum gain_percent)
    /\ 0 <= gain_loss /\ 0 <= gain_percent.
Proof.
  destruct (gain_sign_kept (fun _ _ => Price (100001 # 1000))
              (StockSensor.init holding_A) (mkWorld [] []) (100001 # 1000))
    as [gl [gp [H1 [H2 [Hup _]]]]].
  - reflexivity.
  - reflexivity.
  - exists gl, gp. split; [exact H1|]. split; [exact H2|].
    apply Hup. discriminate.
Defined.

(** X18.  The three figures an aggregate sensor publishes are consistent
    up to their rounding: gain_loss differs from state minus
    total_purchase_value by at most a cent and a half; the same holds of
    the portfolio sensor's total_gain_loss. *)
Theorem gain_loss_matches_published_figures :
  (forall yf self w price,
      yf (fetched w) (AggregateStockSensor.ticker self) = Price price ->
      let self' := fst (AggregateStockSensor.update yf self w) in
      exists v total_purchase_value gain_loss,
        AggregateStockSensor._state self' = Some v
        /\ Dict.get "total_purchase_value" (AggregateStockSensor._attrs self')
           = Some (VNum total_purchase_value)
        /\ Dict.get "gain_loss" (AggregateStockSensor._attrs self')
           = Some (VNum gain_loss)
        /\ v - total_purchase_value - (3 # 200) <= gain_loss
        /\ gain_loss <= v - total_purchase_value + (3 # 200))
  /\ (forall yf self w,
         exists total v total_purchase_value gain_loss,
           fst (TotalPortfolioSensor.update yf self w) = Ok total
           /\ TotalPortfolioSensor._state total = Some v
           /\ Dict.get "total_purchase_value"
                (TotalPortfolioSensor._attrs total)
              = Some (VNum total_purchase_value)
           /\ Dict.get "total_gain_loss" (TotalPortfolioSensor._attrs total)
              = Some (VNum gain_loss)
           /\ v - total_purchase_value - (3 # 200) <= gain_loss
           /\ gain_loss <= v - total_purchase_value + (3 # 200)).
Proof.
  split.
  - intros yf self w price Hq self'. subst self'.
    destruct (Aggregate_compute_ok self price) as [v [Hc _]].
    rewrite (Aggregate_update_price _ _ _ _ _ Hq Hc).
    unfold AggregateStockSensor.compute in Hc.
    destruct (gain_percent_of _ _); [|discriminate Hc].
    injection Hc as <-.
    do 3 eexists. split; [reflexivity|]. split; [reflexivity|].
    split; [reflexivity|].
    cbn [AggregateStockSensor.current_value AggregateStockSensor.gain_loss
           AggregateStockSensor.sums].
    set (s := AggregateStockSensor.loop (AggregateStockSensor.configs self)).
    destruct (round2_near (price * AggregateStockSensor.total_shares s)).
    destruct (round2_near (AggregateStockSensor.total_purchase_value s)).
    destruct (round2_near (price * AggregateStockSensor.total_shares s
                           - AggregateStockSensor.total_purchase_value s)).
    split; lra.
  - intros yf self w.
    destruct (Total_update_published yf self w) as [g [_ Hu]].
    do 4 eexists. split; [exact Hu|]. split; [reflexivity|].
    split; [reflexivity|]. split; [reflexivity|].
    match goal with
    | |- _ <= round2 (?a - ?b) /\ _ =>
        destruct (round2_near a), (round2_near b), (round2_near (a - b))
    end.
    split; lra.
Qed.

Lemma gain_loss_matches_published_figures_witness :
  let self' :=
    fst (AggregateStockSensor.update (fun _ _ => Price (150123 # 1000))
           (AggregateStockSensor.init "AAPL" [holding_A; holding_B])
           (mkWorld [] [])) in
  exists v total_purchase_value gain_loss,
    AggregateStockSensor._state self' = Some v
    /\ Dict.get "total_purchase_value" (AggregateStockSensor._attrs self')
       = Some (VNum total_purchase_value)
    /\ Dict.get "gain_loss" (AggregateStockSensor._attrs self')
       = Some (VNum gain_loss)
    /\ v - total_purchase_value - (3 # 200) <= gain_loss
    /\ gain_loss <= v - total_purchase_value + (3 # 200).
Proof.
  apply (proj1 gain_loss_matches_published_figures
           (fun _ _ => Price (150123 # 1000))
           (AggregateStockSensor.init "AAPL" [holding_A; holding_B])
           (mkWorld [] []) (150123 # 1000)).
  reflexivity.
Defined.

(** X19.  An aggregate sensor without holdings (which [setup_platform]
    never creates) still fetches its ticker; with a price it publishes
    state 0, total_shares 0, total_purchase_value 0, gain_loss 0,
    gain_percent 0 and an empty account_breakdown. *)
Theorem AggregateStockSensor_without_holdings :
  forall yf ticker w price,
    yf (fetched w) ticker = Price price ->
    AggregateStockSensor.update yf (AggregateStockSensor.init ticker []) w
    = (AggregateStockSensor.mk ticker [] (Some 0)
         [ ("ticker", VStr ticker);
           ("total_shares", VNum 0);
           ("current_price", VNum price);
           ("total_purchase_value", VNum 0);
           ("gain_loss", VNum 0);
           ("gain_percent", VNum 0);
           ("account_breakdown", VDict []) ]%string,
       after_fetch w ticker).
Proof.
  intros yf ticker w price Hq.
  assert (Hc : AggregateStockSensor.compute
                 (AggregateStockSensor.init ticker []) price
               = Ok (AggregateStockSensor.mkValues AggregateStockSensor.totals0
                       (price * 0) (price * 0 - 0) 0))
    by reflexivity.
  rewrite (Aggregate_update_price yf (AggregateStockSensor.init ticker []) w
             price _ Hq Hc).
  unfold AggregateStockSensor.set_state_attrs, AggregateStockSensor.attrs.
  cbn [AggregateStockSensor.init AggregateStockSensor.ticker
         AggregateStockSensor.configs AggregateStockSensor.current_value
         AggregateStockSensor.gain_loss AggregateStockSensor.gain_percent
         AggregateStockSensor.sums AggregateStockSensor.totals0
         AggregateStockSensor.total_shares
         AggregateStockSensor.total_purchase_value
         AggregateStockSensor.account_breakdown].
  rewrite (round2_compat (price * 0) 0) by ring.
  rewrite (round2_compat (price * 0 - 0) 0) by ring.
  reflexivity.
Qed.

Lemma AggregateStockSensor_without_holdings_witness :
  AggregateStockSensor._state
    (fst (AggregateStockSensor.update (fun _ _ => Price 150)
            (AggregateStockSensor.init "AAPL" []) (mkWorld [] [])))
  = Some 0.
Proof.
  rewrite (AggregateStockSensor_without_holdings (fun _ _ => Price 150)
             "AAPL"%string (mkWorld [] []) 150 eq_refl).
  reflexivity.
Defined.
